(** * Givta wallet ledger: tip settlement, referral cascade and limit policy

    A shallow embedding of [src/services/WalletService.ts],
    [src/services/ReferralService.ts], the transfer webhook of
    [src/routes/payments.ts] and the model classes they use
    ([models/Wallet.ts], [models/Transaction.ts], [models/Tip.ts],
    [models/Referral.ts], [models/User.ts]).

    Conventions of the embedding.
    - Money is a JavaScript [number] holding an integer count of currency
      units; it is a [Z] here.  [Math.round (amount * 0.02)] is the rational
      rounding [Math_round]: for integer amounts in the range of a wallet
      (below 2^43, say) the double product is exact at the half-way points
      and off by far less than 0.02 elsewhere, so the rounding of the product
      is the rounding of the exact quotient [amount / 50].
      The same holds for [Math.round (amount * 0.023)], the fee of a
      withdrawal, and the exact quotient [23 * amount / 1000].
    - The payment gateway is outside the program: [processWithdrawal]
      takes its two answers, to the resolution of the account and to the
      transfer, as functions of the request.  The [notifications]
      collection is outside the store; a notification draws an identifier
      and costs a write.
    - An average is the exact quotient, a rational, of the sum and the
      count.  [toLocaleString] groups digits as the en-US locale does.
      [setDate] and [setHours] follow the Gregorian calendar at a fixed
      offset from UTC.
    - A Firestore collection is the list of its documents, in the order
      in which a query without [orderBy] returns them (the order of their
      names).  A query [where(...).limit(1)] returns the first document of
      the list that matches; [doc(id).update] patches the documents carrying
      that id (and rejects when there is none); [doc(id).set] replaces the
      document with that id or adds a new one.
    - [uuidv4 ()] draws identifiers from a counter kept in the store, so
      that a new document comes last in its collection.  The names [uuidv4]
      really draws are random, and a new document may come anywhere among
      the others: what is stated of [createWallet] does not rely on its
      place.
    - [new Date ()] reads the [clock] field of the store, in milliseconds.
    - A date is an instant in milliseconds since 1970.  What Firestore
      returns for a stored date is a [Timestamp] object, and the services
      compare it with a [Date] as it is: [timestamp_le_date] and
      [timestamp_ge_date] below are the [<=] and [>=] JavaScript evaluates
      then.  [validateTransactionLimits] is a function of the transactions
      it is handed, whose [createdAt] it takes for a [Date].
    - An [async] function is a function from the store to a completion
      (returned value or thrown [Error] message) and the store it leaves.
      A write to Firestore may reject: the store carries the list of
      outcomes of the writes to come ([None]: the write commits, [Some m]:
      it rejects with message [m]); an empty list is a store that commits
      every write.  Reads do not reject. *)

From Stdlib Require Import ZArith QArith List String Bool Lia Arith
  DecimalString Sorted Permutation.
Import ListNotations.

Local Open Scope string_scope.
Local Open Scope list_scope.
Local Open Scope Z_scope.

Definition DocId := nat.
Definition UserId := string.
Definition Timestamp := Z.

(** [a <= b] and [a >= b] on a Firestore [Timestamp] and a [Date] compare
    the primitive values of the two as numbers.  That of a [Date] is its
    count of milliseconds since 1970; that of a [Timestamp] is the text
    "<seconds + 62135596800>.<nanoseconds>" ([Timestamp.valueOf]), read as
    a number: the seconds since the year 1.  [timestamp_valueOf] is that
    number a thousandfold, for a date stored with its milliseconds, and the
    two comparisons scale the [Date] alike. *)
Definition timestamp_valueOf (stored : Timestamp) : Z :=
  stored + 62135596800 * 1000.

Definition timestamp_le_date (stored date : Timestamp) : bool :=
  timestamp_valueOf stored <=? 1000 * date.

Definition timestamp_ge_date (stored date : Timestamp) : bool :=
  1000 * date <=? timestamp_valueOf stored.

(** JavaScript [a || b] on an optional string: [undefined] and the empty
    string are falsy. *)
Definition or_string (a : option string) (b : string) : string :=
  match a with
  | Some s => if String.eqb s "" then b else s
  | None => b
  end.

(** JavaScript [a || 0] on an optional number. *)
Definition or_zero (a : option Z) : Z :=
  match a with Some z => z | None => 0 end.

Definition or_else {A : Type} (a : option A) (b : A) : A :=
  match a with Some x => x | None => b end.

(** Truthiness of an optional string, as in [if (user?.referredBy)]. *)
Definition truthy (a : option string) : option string :=
  match a with
  | Some s => if String.eqb s "" then None else Some s
  | None => None
  end.

(** [Math.round (num / den)] for [den > 0]: the nearest integer, ties
    towards plus infinity. *)
Definition Math_round (num den : Z) : Z := (2 * num + den) / (2 * den).

Definition Math_abs (z : Z) : Z := Z.abs z.

Inductive Platform := whatsapp | mobile_app.

(** ** models/Wallet.ts *)
Module Wallet.

Record IWallet := {
  id : DocId;
  userId : UserId;
  balance : Z;
  currency : string;
  createdAt : Timestamp;
  updatedAt : Timestamp;
  isActive : bool;
  totalDeposits : Z;
  totalWithdrawals : Z;
  totalTipsSent : Z;
  totalTipsReceived : Z;
  totalReferralEarnings : Z;
  lastTransactionAt : option Timestamp;
  failedPinAttempts : Z
}.

(** The [Partial<IWallet>] objects the services build: the fields of an
    update. *)
Record Updates := {
  u_balance : option Z;
  u_totalDeposits : option Z;
  u_totalWithdrawals : option Z;
  u_totalTipsSent : option Z;
  u_totalTipsReceived : option Z;
  u_totalReferralEarnings : option Z;
  u_lastTransactionAt : option Timestamp;
  u_updatedAt : option Timestamp
}.

(** The object spread [{...wallet, ...updates}]. *)
Definition spread (wallet : IWallet) (updates : Updates) : IWallet :=
  {| id := id wallet;
     userId := userId wallet;
     balance := or_else (u_balance updates) (balance wallet);
     currency := currency wallet;
     createdAt := createdAt wallet;
     updatedAt := or_else (u_updatedAt updates) (updatedAt wallet);
     isActive := isActive wallet;
     totalDeposits := or_else (u_totalDeposits updates) (totalDeposits wallet);
     totalWithdrawals :=
       or_else (u_totalWithdrawals updates) (totalWithdrawals wallet);
     totalTipsSent := or_else (u_totalTipsSent updates) (totalTipsSent wallet);
     totalTipsReceived :=
       or_else (u_totalTipsReceived updates) (totalTipsReceived wallet);
     totalReferralEarnings :=
       or_else (u_totalReferralEarnings updates) (totalReferralEarnings wallet);
     lastTransactionAt :=
       match u_lastTransactionAt updates with
       | Some t => Some t
       | None => lastTransactionAt wallet
       end;
     failedPinAttempts := failedPinAttempts wallet |}.

(** [WalletModel.createWalletData], at the only shape it is called with:
    [{ id, userId, currency }]. *)
Definition createWalletData (id0 : DocId) (userId0 : UserId)
    (currency0 : option string) (now : Timestamp) : IWallet :=
  {| id := id0;
     userId := userId0;
     balance := or_zero None;
     currency := or_string currency0 "NGN";
     createdAt := now;
     updatedAt := now;
     isActive := true;
     totalDeposits := or_zero None;
     totalWithdrawals := or_zero None;
     totalTipsSent := or_zero None;
     totalTipsReceived := or_zero None;
     totalReferralEarnings := or_zero None;
     lastTransactionAt := None;
     failedPinAttempts := or_zero None |}.

(** [WalletModel.updateWalletData]. *)
Definition updateWalletData (wallet : IWallet) (updates : Updates)
    (now : Timestamp) : IWallet :=
  let merged := spread wallet updates in
  {| id := id merged;
     userId := userId merged;
     balance := balance merged;
     currency := currency merged;
     createdAt := createdAt merged;
     updatedAt := now;
     isActive := isActive merged;
     totalDeposits := totalDeposits merged;
     totalWithdrawals := totalWithdrawals merged;
     totalTipsSent := totalTipsSent merged;
     totalTipsReceived := totalTipsReceived merged;
     totalReferralEarnings := totalReferralEarnings merged;
     lastTransactionAt := lastTransactionAt merged;
     failedPinAttempts := failedPinAttempts merged |}.

End Wallet.

(** ** models/Transaction.ts *)
Module Transaction.

Inductive TransactionType :=
  deposit | withdrawal | tip_sent | tip_received | referral_bonus | fee.

Inductive Status := pending | processing | completed | failed | cancelled.

(** The metadata bags the wallet service writes. *)
Inductive Metadata :=
| TipMetadata (tipId : DocId) (platform : Platform) (isAnonymous : bool)
| FeeMetadata (tipId : DocId) (platform : Platform)
| ReferralMetadata (referredId : UserId) (level : Z) (referrerId : UserId)
| CallerMetadata (bag : string).

Record ITransaction := {
  id : DocId;
  userId : UserId;
  type : TransactionType;
  amount : Z;
  description : string;
  status : Status;
  reference : option string;
  recipientId : option UserId;
  senderId : option UserId;
  currency : string;
  fee_ : option Z;
  netAmount : Z;
  metadata : option Metadata;
  createdAt : Timestamp;
  updatedAt : Timestamp;
  completedAt : option Timestamp
}.

Record Partial := {
  p_id : DocId;
  p_userId : UserId;
  p_type : option TransactionType;
  p_amount : option Z;
  p_description : option string;
  p_status : option Status;
  p_reference : option string;
  p_recipientId : option UserId;
  p_senderId : option UserId;
  p_currency : option string;
  p_fee : option Z;
  p_netAmount : option Z;
  p_metadata : option Metadata
}.

(** [TransactionModel.createTransactionData]. *)
Definition createTransactionData (data : Partial) (now : Timestamp)
    : ITransaction :=
  {| id := p_id data;
     userId := p_userId data;
     type := or_else (p_type data) deposit;
     amount := or_zero (p_amount data);
     description := or_string (p_description data) "";
     status := or_else (p_status data) pending;
     reference := p_reference data;
     recipientId := p_recipientId data;
     senderId := p_senderId data;
     currency := or_string (p_currency data) "NGN";
     fee_ := p_fee data;
     netAmount := or_zero (p_netAmount data);
     metadata := p_metadata data;
     createdAt := now;
     updatedAt := now;
     completedAt := None |}.

End Transaction.

(** ** models/Tip.ts *)
Module Tip.

Inductive Status := pending | completed | failed | cancelled.

Record ITip := {
  id : DocId;
  senderId : UserId;
  recipientId : UserId;
  amount : Z;
  description : string;
  isAnonymous : bool;
  status : Status;
  currency : string;
  fee : Z;
  netAmount : Z;
  platform : Platform;
  createdAt : Timestamp;
  updatedAt : Timestamp;
  completedAt : option Timestamp
}.

End Tip.

(** ** models/Referral.ts *)
Module Referral.

Inductive Status := pending | completed | cancelled.

Record IReferral := {
  id : DocId;
  referrerId : UserId;
  referredId : UserId;
  level : Z;
  bonus : Z;
  status : Status;
  referralCode : string;
  platform : Platform;
  createdAt : Timestamp;
  updatedAt : Timestamp;
  completedAt : option Timestamp;
  bonusTransactionId : option DocId
}.

Record Partial := {
  p_id : DocId;
  p_referrerId : UserId;
  p_referredId : UserId;
  p_level : option Z;
  p_bonus : option Z;
  p_status : option Status;
  p_referralCode : option string;
  p_platform : option Platform
}.

(** [ReferralModel.createReferralData]: [level || 1] and [bonus || 0]. *)
Definition createReferralData (data : Partial) (now : Timestamp)
    : IReferral :=
  {| id := p_id data;
     referrerId := p_referrerId data;
     referredId := p_referredId data;
     level := match p_level data with
              | Some l => if l =? 0 then 1 else l
              | None => 1
              end;
     bonus := or_zero (p_bonus data);
     status := or_else (p_status data) pending;
     referralCode := or_string (p_referralCode data) "";
     platform := or_else (p_platform data) mobile_app;
     createdAt := now;
     updatedAt := now;
     completedAt := None;
     bonusTransactionId := None |}.

(** The fields of
    [update ({status: 'completed', completedAt, updatedAt,
             'metadata.bonusTransactionId': id})]. *)
Definition markCompleted (transactionId : option DocId) (now : Timestamp)
    (r : IReferral) : IReferral :=
  {| id := id r;
     referrerId := referrerId r;
     referredId := referredId r;
     level := level r;
     bonus := bonus r;
     status := completed;
     referralCode := referralCode r;
     platform := platform r;
     createdAt := createdAt r;
     updatedAt := now;
     completedAt := Some now;
     bonusTransactionId := transactionId |}.

End Referral.

(** ** models/User.ts: the fields the referral cascade reads *)
Module User.

Record IUser := {
  id : UserId;
  username : string;
  createdAt : Timestamp;
  referralCode : string;
  referredBy : option UserId
}.

End User.

(** ** config/firebase.ts: the collections, and the store around them *)

Record Store := {
  wallets : list Wallet.IWallet;
  transactions : list Transaction.ITransaction;
  tips : list Tip.ITip;
  referrals : list Referral.IReferral;
  users : list User.IUser;
  nextUuid : DocId;
  clock : Timestamp;
  faults : list (option string)
}.

Definition with_wallets (f : list Wallet.IWallet -> list Wallet.IWallet)
    (st : Store) : Store :=
  {| wallets := f (wallets st); transactions := transactions st;
     tips := tips st; referrals := referrals st; users := users st;
     nextUuid := nextUuid st; clock := clock st; faults := faults st |}.

Definition with_transactions
    (f : list Transaction.ITransaction -> list Transaction.ITransaction)
    (st : Store) : Store :=
  {| wallets := wallets st; transactions := f (transactions st);
     tips := tips st; referrals := referrals st; users := users st;
     nextUuid := nextUuid st; clock := clock st; faults := faults st |}.

Definition with_tips (f : list Tip.ITip -> list Tip.ITip) (st : Store)
    : Store :=
  {| wallets := wallets st; transactions := transactions st;
     tips := f (tips st); referrals := referrals st; users := users st;
     nextUuid := nextUuid st; clock := clock st; faults := faults st |}.

Definition with_referrals
    (f : list Referral.IReferral -> list Referral.IReferral) (st : Store)
    : Store :=
  {| wallets := wallets st; transactions := transactions st;
     tips := tips st; referrals := f (referrals st); users := users st;
     nextUuid := nextUuid st; clock := clock st; faults := faults st |}.

Definition with_nextUuid (n : DocId) (st : Store) : Store :=
  {| wallets := wallets st; transactions := transactions st;
     tips := tips st; referrals := referrals st; users := users st;
     nextUuid := n; clock := clock st; faults := faults st |}.

Definition with_faults (fs : list (option string)) (st : Store) : Store :=
  {| wallets := wallets st; transactions := transactions st;
     tips := tips st; referrals := referrals st; users := users st;
     nextUuid := nextUuid st; clock := clock st; faults := fs |}.

(** Documents of one collection, addressed by their id. *)
Section Collection.

Context {D : Type} (doc_id : D -> DocId).

Definition doc_exists (i : DocId) (c : list D) : bool :=
  existsb (fun d => Nat.eqb (doc_id d) i) c.

(** [doc(i).update(fields)] on a collection that holds the document. *)
Definition doc_update (i : DocId) (fields : D -> D) (c : list D) : list D :=
  map (fun d => if Nat.eqb (doc_id d) i then fields d else d) c.

(** [doc(i).set(data)]. *)
Definition doc_set (i : DocId) (data : D) (c : list D) : list D :=
  if doc_exists i c then doc_update i (fun _ => data) c else c ++ [data].

(** Ids are keys: no two documents of the collection share one. *)
Fixpoint unique_ids (c : list D) : bool :=
  match c with
  | [] => true
  | d :: c' => negb (doc_exists (doc_id d) c') && unique_ids c'
  end.

(** Every id of the collection was drawn before the counter reached
    [n]. *)
Definition ids_below (n : DocId) (c : list D) : bool :=
  forallb (fun d => Nat.ltb (doc_id d) n) c.

End Collection.

(** ** Asynchronous computations over the store *)

Inductive completion (A : Type) :=
| Returned (a : A)
| Threw (message : string).
Arguments Returned {A} a.
Arguments Threw {A} message.

Definition Promise (A : Type) : Type := Store -> completion A * Store.

Definition resolve {A : Type} (a : A) : Promise A := fun st => (Returned a, st).

Definition throw {A : Type} (message : string) : Promise A :=
  fun st => (Threw message, st).

Definition await {A B : Type} (m : Promise A) (k : A -> Promise B)
    : Promise B :=
  fun st =>
    match m st with
    | (Returned a, st') => k a st'
    | (Threw message, st') => (Threw message, st')
    end.

Definition try_catch {A : Type} (body : Promise A)
    (handler : string -> Promise A) : Promise A :=
  fun st =>
    match body st with
    | (Returned a, st') => (Returned a, st')
    | (Threw message, st') => handler message st'
    end.

Notation "x <- m ;; k" := (await m (fun x => k))
  (at level 61, m at next level, right associativity).
Notation "m ;; k" := (await m (fun _ => k))
  (at level 61, right associativity).

Definition uuidv4 : Promise DocId :=
  fun st => (Returned (nextUuid st), with_nextUuid (S (nextUuid st)) st).

Definition new_Date : Promise Timestamp :=
  fun st => (Returned (clock st), st).

(** A write: the next planned outcome decides whether it rejects; a
    write that commits applies [effect], which is [None] when Firestore
    finds no document to update. *)
Definition commit (effect : Store -> option Store) : Promise unit :=
  fun st =>
    match effect st with
    | Some st' => (Returned tt, st')
    | None => (Threw "No document to update", st)
    end.

Definition firestore_write (effect : Store -> option Store) : Promise unit :=
  fun st =>
    match faults st with
    | Some message :: rest => (Threw message, with_faults rest st)
    | None :: rest => commit effect (with_faults rest st)
    | [] => commit effect st
    end.

Definition wallets_update (i : DocId) (fields : Wallet.Updates)
    : Promise unit :=
  firestore_write (fun st =>
    if doc_exists Wallet.id i (wallets st)
    then Some (with_wallets
                 (doc_update Wallet.id i (fun w => Wallet.spread w fields)) st)
    else None).

Definition wallets_set (i : DocId) (data : Wallet.IWallet) : Promise unit :=
  firestore_write (fun st => Some (with_wallets (doc_set Wallet.id i data) st)).

Definition transactions_set (i : DocId) (data : Transaction.ITransaction)
    : Promise unit :=
  firestore_write (fun st =>
    Some (with_transactions (doc_set Transaction.id i data) st)).

Definition tips_set (i : DocId) (data : Tip.ITip) : Promise unit :=
  firestore_write (fun st => Some (with_tips (doc_set Tip.id i data) st)).

Definition referrals_set (i : DocId) (data : Referral.IReferral)
    : Promise unit :=
  firestore_write (fun st =>
    Some (with_referrals (doc_set Referral.id i data) st)).

Definition referrals_update (i : DocId)
    (fields : Referral.IReferral -> Referral.IReferral) : Promise unit :=
  firestore_write (fun st =>
    if doc_exists Referral.id i (referrals st)
    then Some (with_referrals (doc_update Referral.id i fields) st)
    else None).

(** The filter [where('userId', '==', userId)]. *)
Definition byUser (userId0 : UserId) (w : Wallet.IWallet) : bool :=
  String.eqb (Wallet.userId w) userId0.

(** [doc(i).update(fields)] on the [transactions] collection. *)
Definition transactions_update (i : DocId)
    (fields : Transaction.ITransaction -> Transaction.ITransaction)
    : Promise unit :=
  firestore_write (fun st =>
    if doc_exists Transaction.id i (transactions st)
    then Some (with_transactions (doc_update Transaction.id i fields) st)
    else None).

(** The answer of a service outside the store: a value or a thrown
    error; the store is as it was. *)
Definition external {A : Type} (answer : completion A) : Promise A :=
  fun st => (answer, st).

(** The filter [where('userId', '==', userId)] on transactions. *)
Definition byOwner (userId0 : UserId) (t : Transaction.ITransaction) : bool :=
  String.eqb (Transaction.userId t) userId0.

(** Sorting by a numeric key, largest first. *)
Section OrderBy.

Context {D : Type} (key : D -> Z).

(** [d] goes behind every document whose key is not smaller. *)
Fixpoint insert_desc (d : D) (sorted : list D) : list D :=
  match sorted with
  | [] => [d]
  | x :: rest =>
      if key x <? key d then d :: sorted else x :: insert_desc d rest
  end.

(** [orderBy(key, 'desc')]: Firestore breaks ties by document name in
    the direction of the ordering, so documents with equal keys come in
    the reverse of the order a query without [orderBy] lists them in. *)
Definition orderBy_desc (c : list D) : list D := fold_right insert_desc [] c.

(** [array.sort ((a, b) => key(b) - key(a))], a stable sort: elements
    with equal keys keep their order. *)
Definition sort_desc (c : list D) : list D :=
  fold_left (fun sorted d => insert_desc d sorted) c [].

End OrderBy.

(** ** services/PaystackService.ts: the two requests of a withdrawal *)
Module Paystack.

(** The body of the answer to [GET /bank/resolve]: [status] and
    [data.account_name]. *)
Record Account := { account_status : bool; account_name : string }.

(** The body of the answer to [POST /transfer]: [status], [message] and
    [data.reference]. *)
Record Transfer := {
  transfer_status : bool;
  transfer_message : option string;
  transfer_reference : string
}.

(** [validateAccount (accountNumber, bankCode)] and
    [initiateTransfer (amount, accountNumber, bankCode, accountName,
    reason, reference)] are HTTP requests to the payment gateway: what
    it answers, or the error the request throws, is given from
    outside. *)
Record Gateway := {
  validateAccount : string -> string -> completion Account;
  initiateTransfer :
    Z -> string -> string -> string -> string -> string
    -> completion Transfer
}.

End Paystack.

(** ** services/NotificationService.ts *)
Module NotificationService.

(** [sendTransactionNotification] hands over to [createNotification],
    which draws an id, writes the notification to a collection that is
    not part of the store, pushes it to the device, and catches every
    error; the callers here do not look at its result. *)
Definition sendTransactionNotification (userId0 : UserId)
    (transactionType : Transaction.TransactionType) (amount : Z)
    (currency : string) (reference : option string) : Promise unit :=
  try_catch
    (notificationId <- uuidv4 ;;
     firestore_write (fun st => Some st) ;;
     resolve tt)
    (fun _ => resolve tt).

End NotificationService.

(** ** services/WalletService.ts *)
Module WalletService.

Import Wallet.

Record TransactionResult := {
  success : bool;
  transactionId : option DocId;
  newBalance : option Z;
  error : option string
}.

Definition succeeded (transactionId0 : DocId) (newBalance0 : Z)
    : TransactionResult :=
  {| success := true; transactionId := Some transactionId0;
     newBalance := Some newBalance0; error := None |}.

(** [{ success: false, error: error.message || fallback }]. *)
Definition failure (message fallback : string) : TransactionResult :=
  {| success := false; transactionId := None; newBalance := None;
     error := Some (or_string (Some message) fallback) |}.

Definition createWallet (userId0 : UserId) (currency0 : option string)
    : Promise IWallet :=
  walletId <- uuidv4 ;;
  now <- new_Date ;;
  let walletData := createWalletData walletId userId0 currency0 now in
  wallets_set walletId walletData ;;
  resolve walletData.

Definition getWalletByUserId (userId0 : UserId) : Promise (option IWallet) :=
  fun st =>
    (Returned (find (byUser userId0) (wallets st)), st).

Definition ensureWalletExists (userId0 : UserId) (currency0 : option string)
    : Promise IWallet :=
  wallet <- getWalletByUserId userId0 ;;
  match wallet with
  | Some wallet => resolve wallet
  | None => createWallet userId0 currency0
  end.

Definition creditWallet (userId0 : UserId) (amount : Z)
    (description : string) (reference : option string)
    (metadata : option Transaction.Metadata) : Promise TransactionResult :=
  try_catch
    (wallet <- getWalletByUserId userId0 ;;
     match wallet with
     | None => throw "Wallet not found"
     | Some wallet =>
       let newBalance := balance wallet + amount in
       lastAt <- new_Date ;;
       now <- new_Date ;;
       let updatedWallet :=
         updateWalletData wallet
           {| u_balance := Some newBalance;
              u_totalDeposits := Some (totalDeposits wallet + amount);
              u_totalWithdrawals := None; u_totalTipsSent := None;
              u_totalTipsReceived := None; u_totalReferralEarnings := None;
              u_lastTransactionAt := Some lastAt; u_updatedAt := None |}
           now in
       wallets_update (id wallet)
         {| u_balance := Some (balance updatedWallet);
            u_totalDeposits := Some (totalDeposits updatedWallet);
            u_totalWithdrawals := None; u_totalTipsSent := None;
            u_totalTipsReceived := None; u_totalReferralEarnings := None;
            u_lastTransactionAt := lastTransactionAt updatedWallet;
            u_updatedAt := Some (updatedAt updatedWallet) |} ;;
       transactionId <- uuidv4 ;;
       created <- new_Date ;;
       let transactionData :=
         Transaction.createTransactionData
           {| Transaction.p_id := transactionId;
              Transaction.p_userId := userId0;
              Transaction.p_type := Some Transaction.deposit;
              Transaction.p_amount := Some amount;
              Transaction.p_description := Some description;
              Transaction.p_status := Some Transaction.completed;
              Transaction.p_reference := reference;
              Transaction.p_recipientId := None;
              Transaction.p_senderId := None;
              Transaction.p_currency := Some (currency wallet);
              Transaction.p_fee := Some 0;
              Transaction.p_netAmount := Some amount;
              Transaction.p_metadata := metadata |}
           created in
       transactions_set transactionId transactionData ;;
       resolve (succeeded transactionId newBalance)
     end)
    (fun message => resolve (failure message "Failed to credit wallet")).

Definition debitWallet (userId0 : UserId) (amount : Z)
    (description : string) (fee : option Z) (reference : option string)
    (metadata : option Transaction.Metadata) : Promise TransactionResult :=
  let fee := or_else fee 0 in
  try_catch
    (wallet <- getWalletByUserId userId0 ;;
     match wallet with
     | None => throw "Wallet not found"
     | Some wallet =>
       if balance wallet <? amount then throw "Insufficient balance"
       else
         let newBalance := balance wallet - amount in
         lastAt <- new_Date ;;
         now <- new_Date ;;
         let updatedWallet :=
           updateWalletData wallet
             {| u_balance := Some newBalance;
                u_totalDeposits := None;
                u_totalWithdrawals := Some (totalWithdrawals wallet + amount);
                u_totalTipsSent := None; u_totalTipsReceived := None;
                u_totalReferralEarnings := None;
                u_lastTransactionAt := Some lastAt; u_updatedAt := None |}
             now in
         wallets_update (id wallet)
           {| u_balance := Some (balance updatedWallet);
              u_totalDeposits := None;
              u_totalWithdrawals := Some (totalWithdrawals updatedWallet);
              u_totalTipsSent := None; u_totalTipsReceived := None;
              u_totalReferralEarnings := None;
              u_lastTransactionAt := lastTransactionAt updatedWallet;
              u_updatedAt := Some (updatedAt updatedWallet) |} ;;
         transactionId <- uuidv4 ;;
         created <- new_Date ;;
         let transactionData :=
           Transaction.createTransactionData
             {| Transaction.p_id := transactionId;
                Transaction.p_userId := userId0;
                Transaction.p_type := Some Transaction.withdrawal;
                Transaction.p_amount := Some (- amount);
                Transaction.p_description := Some description;
                Transaction.p_status := Some Transaction.completed;
                Transaction.p_reference := reference;
                Transaction.p_recipientId := None;
                Transaction.p_senderId := None;
                Transaction.p_currency := Some (currency wallet);
                Transaction.p_fee := Some fee;
                Transaction.p_netAmount := Some (amount - fee);
                Transaction.p_metadata := metadata |}
             created in
         transactions_set transactionId transactionData ;;
         resolve (succeeded transactionId newBalance)
     end)
    (fun message => resolve (failure message "Failed to debit wallet")).

(** [Math.round (amount * 0.02)], on either platform. *)
Definition tipFee (platform : Platform) (amount : Z) : Z :=
  match platform with
  | mobile_app => Math_round (amount * 2) 100
  | whatsapp => Math_round (amount * 2) 100
  end.

Definition processTip (senderId recipientId : UserId) (amount : Z)
    (platform : Platform) (description : option string) (isAnonymous : bool)
    : Promise TransactionResult :=
  try_catch
    (if String.eqb senderId recipientId then throw "Cannot tip yourself"
     else
       senderWallet <- getWalletByUserId senderId ;;
       match senderWallet with
       | None => throw "Sender wallet not found"
       | Some senderWallet =>
         found <- getWalletByUserId recipientId ;;
         recipientWallet <-
           match found with
           | Some w => resolve w
           | None => createWallet recipientId (Some (currency senderWallet))
           end ;;
         let fee := tipFee platform amount in
         let netAmount := amount - fee in
         if balance senderWallet <? amount then throw "Insufficient balance"
         else
           let senderNewBalance := balance senderWallet - amount in
           senderAt <- new_Date ;;
           senderNow <- new_Date ;;
           let updatedSenderWallet :=
             updateWalletData senderWallet
               {| u_balance := Some senderNewBalance;
                  u_totalDeposits := None; u_totalWithdrawals := None;
                  u_totalTipsSent :=
                    Some (totalTipsSent senderWallet + amount);
                  u_totalTipsReceived := None;
                  u_totalReferralEarnings := None;
                  u_lastTransactionAt := Some senderAt;
                  u_updatedAt := None |}
               senderNow in
           let recipientNewBalance := balance recipientWallet + netAmount in
           recipientAt <- new_Date ;;
           recipientNow <- new_Date ;;
           let updatedRecipientWallet :=
             updateWalletData recipientWallet
               {| u_balance := Some recipientNewBalance;
                  u_totalDeposits := None; u_totalWithdrawals := None;
                  u_totalTipsSent := None;
                  u_totalTipsReceived :=
                    Some (totalTipsReceived recipientWallet + netAmount);
                  u_totalReferralEarnings := None;
                  u_lastTransactionAt := Some recipientAt;
                  u_updatedAt := None |}
               recipientNow in
           wallets_update (id senderWallet)
             {| u_balance := Some (balance updatedSenderWallet);
                u_totalDeposits := None; u_totalWithdrawals := None;
                u_totalTipsSent := Some (totalTipsSent updatedSenderWallet);
                u_totalTipsReceived := None;
                u_totalReferralEarnings := None;
                u_lastTransactionAt := lastTransactionAt updatedSenderWallet;
                u_updatedAt := Some (updatedAt updatedSenderWallet) |} ;;
           wallets_update (id recipientWallet)
             {| u_balance := Some (balance updatedRecipientWallet);
                u_totalDeposits := None; u_totalWithdrawals := None;
                u_totalTipsSent := None;
                u_totalTipsReceived :=
                  Some (totalTipsReceived updatedRecipientWallet);
                u_totalReferralEarnings := None;
                u_lastTransactionAt :=
                  lastTransactionAt updatedRecipientWallet;
                u_updatedAt := Some (updatedAt updatedRecipientWallet) |} ;;
           tipId <- uuidv4 ;;
           tipNow <- new_Date ;;
           let tipData :=
             {| Tip.id := tipId;
                Tip.senderId := senderId;
                Tip.recipientId := recipientId;
                Tip.amount := amount;
                Tip.description :=
                  or_string description
                    ("Tip received from "
                     ++ (if isAnonymous then "Anonymous" else "a user"))%string;
                Tip.isAnonymous := isAnonymous;
                Tip.status := Tip.completed;
                Tip.currency := currency senderWallet;
                Tip.fee := fee;
                Tip.netAmount := netAmount;
                Tip.platform := platform;
                Tip.createdAt := tipNow;
                Tip.updatedAt := tipNow;
                Tip.completedAt := Some tipNow |} in
           tips_set tipId tipData ;;
           senderTransactionId <- uuidv4 ;;
           senderCreated <- new_Date ;;
           let senderTransaction :=
             Transaction.createTransactionData
               {| Transaction.p_id := senderTransactionId;
                  Transaction.p_userId := senderId;
                  Transaction.p_type := Some Transaction.tip_sent;
                  Transaction.p_amount := Some (- amount);
                  Transaction.p_description :=
                    Some ("Tip sent to " ++ recipientId)%string;
                  Transaction.p_status := Some Transaction.completed;
                  Transaction.p_reference := None;
                  Transaction.p_recipientId := Some recipientId;
                  Transaction.p_senderId := None;
                  Transaction.p_currency := Some (currency senderWallet);
                  Transaction.p_fee := Some fee;
                  Transaction.p_netAmount := Some (- amount);
                  Transaction.p_metadata :=
                    Some (Transaction.TipMetadata tipId platform isAnonymous)
               |}
               senderCreated in
           recipientTransactionId <- uuidv4 ;;
           recipientCreated <- new_Date ;;
           let recipientTransaction :=
             Transaction.createTransactionData
               {| Transaction.p_id := recipientTransactionId;
                  Transaction.p_userId := recipientId;
                  Transaction.p_type := Some Transaction.tip_received;
                  Transaction.p_amount := Some netAmount;
                  Transaction.p_description :=
                    Some ("Tip received from "
                          ++ (if isAnonymous then "Anonymous" else senderId))%string;
                  Transaction.p_status := Some Transaction.completed;
                  Transaction.p_reference := None;
                  Transaction.p_recipientId := None;
                  Transaction.p_senderId := Some senderId;
                  Transaction.p_currency := Some (currency recipientWallet);
                  Transaction.p_fee := Some 0;
                  Transaction.p_netAmount := Some netAmount;
                  Transaction.p_metadata :=
                    Some (Transaction.TipMetadata tipId platform isAnonymous)
               |}
               recipientCreated in
           (if 0 <? fee then
              feeTransactionId <- uuidv4 ;;
              feeCreated <- new_Date ;;
              let feeTransaction :=
                Transaction.createTransactionData
                  {| Transaction.p_id := feeTransactionId;
                     Transaction.p_userId := senderId;
                     Transaction.p_type := Some Transaction.fee;
                     Transaction.p_amount := Some (- fee);
                     Transaction.p_description := Some "Tip processing fee";
                     Transaction.p_status := Some Transaction.completed;
                     Transaction.p_reference := None;
                     Transaction.p_recipientId := None;
                     Transaction.p_senderId := None;
                     Transaction.p_currency := Some (currency senderWallet);
                     Transaction.p_fee := Some 0;
                     Transaction.p_netAmount := Some (- fee);
                     Transaction.p_metadata :=
                       Some (Transaction.FeeMetadata tipId platform) |}
                  feeCreated in
              transactions_set feeTransactionId feeTransaction
            else resolve tt) ;;
           transactions_set senderTransactionId senderTransaction ;;
           transactions_set recipientTransactionId recipientTransaction ;;
           resolve (succeeded tipId senderNewBalance)
       end)
    (fun message => resolve (failure message "Failed to process tip")).

(** The template text [${level}] of a number. *)
Definition number_text (z : Z) : string :=
  NilZero.string_of_int (Z.to_int z).

Definition processReferralBonus (referrerId referredId : UserId) (level : Z)
    (bonusAmount : Z) : Promise TransactionResult :=
  try_catch
    (wallet <- getWalletByUserId referrerId ;;
     match wallet with
     | None => throw "Referrer wallet not found"
     | Some wallet =>
       let newBalance := balance wallet + bonusAmount in
       lastAt <- new_Date ;;
       now <- new_Date ;;
       let updatedWallet :=
         updateWalletData wallet
           {| u_balance := Some newBalance;
              u_totalDeposits := None; u_totalWithdrawals := None;
              u_totalTipsSent := None; u_totalTipsReceived := None;
              u_totalReferralEarnings :=
                Some (totalReferralEarnings wallet + bonusAmount);
              u_lastTransactionAt := Some lastAt; u_updatedAt := None |}
           now in
       wallets_update (id wallet)
         {| u_balance := Some (balance updatedWallet);
            u_totalDeposits := None; u_totalWithdrawals := None;
            u_totalTipsSent := None; u_totalTipsReceived := None;
            u_totalReferralEarnings :=
              Some (totalReferralEarnings updatedWallet);
            u_lastTransactionAt := lastTransactionAt updatedWallet;
            u_updatedAt := Some (updatedAt updatedWallet) |} ;;
       transactionId <- uuidv4 ;;
       created <- new_Date ;;
       let transactionData :=
         Transaction.createTransactionData
           {| Transaction.p_id := transactionId;
              Transaction.p_userId := referrerId;
              Transaction.p_type := Some Transaction.referral_bonus;
              Transaction.p_amount := Some bonusAmount;
              Transaction.p_description :=
                Some ("Referral bonus for level " ++ number_text level
                      ++ " referral")%string;
              Transaction.p_status := Some Transaction.completed;
              Transaction.p_reference := None;
              Transaction.p_recipientId := None;
              Transaction.p_senderId := None;
              Transaction.p_currency := Some (currency wallet);
              Transaction.p_fee := Some 0;
              Transaction.p_netAmount := Some bonusAmount;
              Transaction.p_metadata :=
                Some (Transaction.ReferralMetadata referredId level
                        referrerId) |}
           created in
       transactions_set transactionId transactionData ;;
       resolve (succeeded transactionId newBalance)
     end)
    (fun message =>
       resolve (failure message "Failed to process referral bonus")).

(** *** validateTransactionLimits *)

Inductive LimitType := tip | withdrawal | deposit.

Record Limit := { minimum : Z; maximum : Z; dailyLimit : Z }.

Definition limits (type : LimitType) : Limit :=
  match type with
  | tip => {| minimum := 10; maximum := 50000; dailyLimit := 100000 |}
  | withdrawal =>
      {| minimum := 100; maximum := 500000; dailyLimit := 1000000 |}
  | deposit =>
      {| minimum := 100; maximum := 2000000; dailyLimit := 5000000 |}
  end.

(** The three error texts, each a function of the operation type and
    of the bound it names: "Minimum <type> amount is <minimum>",
    "Maximum <type> amount is <maximum>" and
    "Daily <type> limit exceeded (<dailyLimit>)". *)
Inductive LimitError :=
| MinimumAmount (type : LimitType) (bound : Z)
| MaximumAmount (type : LimitType) (bound : Z)
| DailyLimitExceeded (type : LimitType) (bound : Z).

Record Validation := { valid : bool; limitError : option LimitError }.

(** [t.type === (type === 'tip' ? 'tip_sent' : type)]. *)
Definition type_matches (type : LimitType) (t : Transaction.TransactionType)
    : bool :=
  match type, t with
  | tip, Transaction.tip_sent => true
  | withdrawal, Transaction.withdrawal => true
  | deposit, Transaction.deposit => true
  | _, _ => false
  end.

Definition msPerDay : Z := 86400000.

(** [today.setHours (0, 0, 0, 0)]: midnight of the current day in the
    local time zone, which is [utcOffset] milliseconds ahead of UTC. *)
Definition setHours0 (utcOffset : Z) (now : Timestamp) : Timestamp :=
  now - (now + utcOffset) mod msPerDay.

Definition todayTransactions (today : Timestamp) (type : LimitType)
    (userTransactions : list Transaction.ITransaction)
    : list Transaction.ITransaction :=
  filter (fun t => (today <=? Transaction.createdAt t)
                   && type_matches type (Transaction.type t))
         userTransactions.

Definition todayTotal (today : Timestamp) (type : LimitType)
    (userTransactions : list Transaction.ITransaction) : Z :=
  fold_left (fun sum t => sum + Math_abs (Transaction.amount t))
            (todayTransactions today type userTransactions) 0.

(** The guard [if (!limit)] of the source is dead code for the three
    operation types and has no counterpart here. *)
Definition validateTransactionLimits (utcOffset : Z) (now : Timestamp)
    (amount : Z) (type : LimitType)
    (userTransactions : list Transaction.ITransaction) : Validation :=
  let limit := limits type in
  if amount <? minimum limit then
    {| valid := false;
       limitError := Some (MinimumAmount type (minimum limit)) |}
  else if maximum limit <? amount then
    {| valid := false;
       limitError := Some (MaximumAmount type (maximum limit)) |}
  else
    let today := setHours0 utcOffset now in
    if dailyLimit limit <? todayTotal today type userTransactions + amount
    then
      {| valid := false;
         limitError := Some (DailyLimitExceeded type (dailyLimit limit)) |}
    else {| valid := true; limitError := None |}.

(** *** getWalletBalance *)

Module WalletBalance.

Record WalletBalance := {
  balance : Z;
  totalDeposits : Z;
  totalWithdrawals : Z;
  totalTipsSent : Z;
  totalTipsReceived : Z;
  totalReferralEarnings : Z;
  availableBalance : Z
}.

End WalletBalance.

Definition getWalletBalance (userId0 : UserId)
    : Promise WalletBalance.WalletBalance :=
  wallet <- getWalletByUserId userId0 ;;
  match wallet with
  | None => throw "Wallet not found"
  | Some wallet =>
    resolve
      {| WalletBalance.balance := balance wallet;
         WalletBalance.totalDeposits := totalDeposits wallet;
         WalletBalance.totalWithdrawals := totalWithdrawals wallet;
         WalletBalance.totalTipsSent := totalTipsSent wallet;
         WalletBalance.totalTipsReceived := totalTipsReceived wallet;
         WalletBalance.totalReferralEarnings := totalReferralEarnings wallet;
         WalletBalance.availableBalance := balance wallet |}
  end.

(** *** getTransactionHistory *)

(** [where('userId', '==', userId).orderBy('createdAt', 'desc')
    .limit(limit).offset(offset)]: the query skips [offset] documents
    and returns the [limit] that follow.  The defaults of the source are
    [limit = 50] and [offset = 0]. *)
Definition getTransactionHistory (userId0 : UserId) (limit offset : nat)
    : Promise (list Transaction.ITransaction) :=
  fun st =>
    (Returned
       (firstn limit
          (skipn offset
             (orderBy_desc Transaction.createdAt
                (filter (byOwner userId0) (transactions st))))),
     st).

(** *** processWithdrawal *)

(** [n.toLocaleString ()] of an integer in the default locale of the
    runtime, en-US: the digits in groups of three. *)
Fixpoint group_digits (digits : list Ascii.ascii) (seen : nat)
    : list Ascii.ascii :=
  match digits with
  | [] => []
  | c :: rest =>
      match seen with
      | 3%nat => Ascii.ascii_of_nat 44 :: c :: group_digits rest 1%nat
      | _ => c :: group_digits rest (S seen)
      end
  end.

Definition toLocaleString (z : Z) : string :=
  let digits := list_ascii_of_string (number_text (Z.abs z)) in
  let grouped := string_of_list_ascii (rev (group_digits (rev digits) 0%nat)) in
  if z <? 0 then ("-" ++ grouped)%string else grouped.

Definition type_text (type : LimitType) : string :=
  match type with
  | tip => "tip"
  | withdrawal => "withdrawal"
  | deposit => "deposit"
  end.

(** The text of the [error] field [validateTransactionLimits] returns. *)
Definition limitErrorText (e : LimitError) : string :=
  match e with
  | MinimumAmount type bound =>
      ("Minimum " ++ type_text type ++ " amount is ₦"
       ++ toLocaleString bound)%string
  | MaximumAmount type bound =>
      ("Maximum " ++ type_text type ++ " amount is ₦"
       ++ toLocaleString bound)%string
  | DailyLimitExceeded type bound =>
      ("Daily " ++ type_text type ++ " limit exceeded (₦"
       ++ toLocaleString bound ++ ")")%string
  end.

(** [Math.round (amount * 0.023)]: for the integer amounts of a wallet
    the rounding of the double product is the rounding of the exact
    quotient [23 * amount / 1000]. *)
Definition withdrawalFee (amount : Z) : Z := Math_round (amount * 23) 1000.

(** The [metadata] objects of the two transactions of a withdrawal, as
    the text of their fields. *)
Definition withdrawalMetadata (paystackReference accountNumber bankCode
    accountName : string) : Transaction.Metadata :=
  Transaction.CallerMetadata
    ("{paystackReference: " ++ paystackReference
     ++ ", bankDetails: {accountNumber: " ++ accountNumber
     ++ ", bankCode: " ++ bankCode
     ++ ", accountName: " ++ accountName ++ "}}")%string.

Definition withdrawalFeeMetadata (paystackReference : string)
    : Transaction.Metadata :=
  Transaction.CallerMetadata
    ("{paystackReference: " ++ paystackReference ++ "}")%string.

(** [recentTransactions.filter (t => t.createdAt >= today && t.type ===
    'withdrawal')] on the transactions [getTransactionHistory] read, whose
    [createdAt] is a [Timestamp]. *)
Definition todayWithdrawals (today : Timestamp)
    (recentTransactions : list Transaction.ITransaction)
    : list Transaction.ITransaction :=
  filter (fun t => timestamp_ge_date (Transaction.createdAt t) today
                   && match Transaction.type t with
                      | Transaction.withdrawal => true
                      | _ => false
                      end)
         recentTransactions.

(** [utcOffset] is the time zone of the server, as in
    [validateTransactionLimits]. *)
Definition processWithdrawal (paystack : Paystack.Gateway) (utcOffset : Z)
    (userId0 : UserId) (amount : Z)
    (accountNumber bankCode accountName : string)
    (description : option string) : Promise TransactionResult :=
  try_catch
    (wallet <- getWalletByUserId userId0 ;;
     match wallet with
     | None => throw "Wallet not found"
     | Some wallet =>
       let fee := withdrawalFee amount in
       let netAmount := amount - fee in
       checked <- new_Date ;;
       let validation :=
         validateTransactionLimits utcOffset checked amount withdrawal [] in
       if negb (valid validation) then
         throw (match limitError validation with
                | Some e => limitErrorText e
                | None => ""
                end)
       else if balance wallet <? amount then throw "Insufficient balance"
       else
         recentTransactions <- getTransactionHistory userId0 100%nat 0%nat ;;
         now <- new_Date ;;
         let today := setHours0 utcOffset now in
         let total :=
           fold_left (fun sum t => sum + Math_abs (Transaction.amount t))
             (todayWithdrawals today recentTransactions) 0 in
         if 1000000 <? total + amount then
           throw "Daily withdrawal limit exceeded (₦1,000,000)"
         else
           accountValidation <-
             external (Paystack.validateAccount paystack accountNumber
                         bankCode) ;;
           if negb (Paystack.account_status accountValidation) then
             throw "Invalid bank account details"
           else if negb (String.eqb
                           (Paystack.account_name accountValidation)
                           accountName) then
             throw "Account name does not match the provided account number"
           else
             referenceId <- uuidv4 ;;
             transferResult <-
               external
                 (Paystack.initiateTransfer paystack netAmount accountNumber
                    bankCode accountName
                    (or_string description "Givta Wallet Withdrawal")
                    ("WD_" ++ number_text (Z.of_nat referenceId))%string) ;;
             if negb (Paystack.transfer_status transferResult) then
               throw (or_string (Paystack.transfer_message transferResult)
                        "Transfer initiation failed")
             else
               let reference := Paystack.transfer_reference transferResult in
               let newBalance := balance wallet - amount in
               lastAt <- new_Date ;;
               updated <- new_Date ;;
               let updatedWallet :=
                 updateWalletData wallet
                   {| u_balance := Some newBalance;
                      u_totalDeposits := None;
                      u_totalWithdrawals :=
                        Some (totalWithdrawals wallet + amount);
                      u_totalTipsSent := None; u_totalTipsReceived := None;
                      u_totalReferralEarnings := None;
                      u_lastTransactionAt := Some lastAt;
                      u_updatedAt := None |}
                   updated in
               wallets_update (id wallet)
                 {| u_balance := Some (balance updatedWallet);
                    u_totalDeposits := None;
                    u_totalWithdrawals :=
                      Some (totalWithdrawals updatedWallet);
                    u_totalTipsSent := None; u_totalTipsReceived := None;
                    u_totalReferralEarnings := None;
                    u_lastTransactionAt := lastTransactionAt updatedWallet;
                    u_updatedAt := Some (updatedAt updatedWallet) |} ;;
               withdrawalTransactionId <- uuidv4 ;;
               withdrawalCreated <- new_Date ;;
               let withdrawalTransaction :=
                 Transaction.createTransactionData
                   {| Transaction.p_id := withdrawalTransactionId;
                      Transaction.p_userId := userId0;
                      Transaction.p_type := Some Transaction.withdrawal;
                      Transaction.p_amount := Some (- amount);
                      Transaction.p_description :=
                        Some ("Withdrawal to " ++ accountName ++ " ("
                              ++ accountNumber ++ ")")%string;
                      Transaction.p_status := Some Transaction.pending;
                      Transaction.p_reference := Some reference;
                      Transaction.p_recipientId := None;
                      Transaction.p_senderId := None;
                      Transaction.p_currency := Some (currency wallet);
                      Transaction.p_fee := Some fee;
                      Transaction.p_netAmount := Some (- netAmount);
                      Transaction.p_metadata :=
                        Some (withdrawalMetadata reference accountNumber
                                bankCode accountName) |}
                   withdrawalCreated in
               feeTransactionId <- uuidv4 ;;
               feeCreated <- new_Date ;;
               let feeTransaction :=
                 Transaction.createTransactionData
                   {| Transaction.p_id := feeTransactionId;
                      Transaction.p_userId := userId0;
                      Transaction.p_type := Some Transaction.fee;
                      Transaction.p_amount := Some (- fee);
                      Transaction.p_description :=
                        Some "Withdrawal processing fee (2.3%)";
                      Transaction.p_status := Some Transaction.completed;
                      Transaction.p_reference := None;
                      Transaction.p_recipientId := None;
                      Transaction.p_senderId := None;
                      Transaction.p_currency := Some (currency wallet);
                      Transaction.p_fee := Some 0;
                      Transaction.p_netAmount := Some (- fee);
                      Transaction.p_metadata :=
                        Some (withdrawalFeeMetadata reference) |}
                   feeCreated in
               transactions_set withdrawalTransactionId
                 withdrawalTransaction ;;
               transactions_set feeTransactionId feeTransaction ;;
               NotificationService.sendTransactionNotification userId0
                 Transaction.withdrawal amount "NGN" (Some reference) ;;
               resolve (succeeded withdrawalTransactionId newBalance)
     end)
    (fun message =>
       resolve (failure message "Failed to process withdrawal")).

(** *** getWalletStatistics *)

(** [date.getDate ()]: the day of the month of a time in the local time
    zone, from the count of days since 1 January 1970 (the Gregorian
    calendar in cycles of 400 years, counted from 1 March). *)
Definition getDate (utcOffset : Z) (now : Timestamp) : Z :=
  let z := (now + utcOffset) / msPerDay + 719468 in
  let doe := z mod 146097 in
  let yoe := (doe - doe / 1460 + doe / 36524 - doe / 146096) / 365 in
  let doy := doe - (365 * yoe + yoe / 4 - yoe / 100) in
  let mp := (5 * doy + 2) / 153 in
  doy - (153 * mp + 2) / 5 + 1.

(** [currentMonth.setDate (1); currentMonth.setHours (0, 0, 0, 0)]. *)
Definition startOfMonth (utcOffset : Z) (now : Timestamp) : Timestamp :=
  setHours0 utcOffset (now - (getDate utcOffset now - 1) * msPerDay).

Module WalletStatistics.

Record MonthlyStats := { deposits : Z; withdrawals : Z; tips : Z }.

(** [averageTransactionAmount] is the quotient the source computes,
    before it is rounded to a double. *)
Record WalletStatistics := {
  totalTransactions : nat;
  totalDeposits : Z;
  totalWithdrawals : Z;
  totalTipsSent : Z;
  totalTipsReceived : Z;
  totalReferralEarnings : Z;
  averageTransactionAmount : Q;
  largestTransaction : Z;
  monthlyStats : MonthlyStats
}.

Definition empty (count : nat) : WalletStatistics :=
  {| totalTransactions := count; totalDeposits := 0; totalWithdrawals := 0;
     totalTipsSent := 0; totalTipsReceived := 0; totalReferralEarnings := 0;
     averageTransactionAmount := 0%Q; largestTransaction := 0;
     monthlyStats := {| deposits := 0; withdrawals := 0; tips := 0 |} |}.

(** The body of [transactions.forEach]; [transaction.createdAt] is the
    [Timestamp] that [getTransactionHistory] read. *)
Definition count (currentMonth : Timestamp) (stats : WalletStatistics)
    (transaction : Transaction.ITransaction) : WalletStatistics :=
  let absAmount := Math_abs (Transaction.amount transaction) in
  let thisMonth :=
    timestamp_ge_date (Transaction.createdAt transaction) currentMonth in
  let largest :=
    if largestTransaction stats <? absAmount then absAmount
    else largestTransaction stats in
  let monthly := monthlyStats stats in
  match Transaction.type transaction with
  | Transaction.deposit =>
      {| totalTransactions := totalTransactions stats;
         totalDeposits := totalDeposits stats + absAmount;
         totalWithdrawals := totalWithdrawals stats;
         totalTipsSent := totalTipsSent stats;
         totalTipsReceived := totalTipsReceived stats;
         totalReferralEarnings := totalReferralEarnings stats;
         averageTransactionAmount := averageTransactionAmount stats;
         largestTransaction := largest;
         monthlyStats :=
           {| deposits :=
                if thisMonth then deposits monthly + absAmount
                else deposits monthly;
              withdrawals := withdrawals monthly;
              tips := tips monthly |} |}
  | Transaction.withdrawal =>
      {| totalTransactions := totalTransactions stats;
         totalDeposits := totalDeposits stats;
         totalWithdrawals := totalWithdrawals stats + absAmount;
         totalTipsSent := totalTipsSent stats;
         totalTipsReceived := totalTipsReceived stats;
         totalReferralEarnings := totalReferralEarnings stats;
         averageTransactionAmount := averageTransactionAmount stats;
         largestTransaction := largest;
         monthlyStats :=
           {| deposits := deposits monthly;
              withdrawals :=
                if thisMonth then withdrawals monthly + absAmount
                else withdrawals monthly;
              tips := tips monthly |} |}
  | Transaction.tip_sent =>
      {| totalTransactions := totalTransactions stats;
         totalDeposits := totalDeposits stats;
         totalWithdrawals := totalWithdrawals stats;
         totalTipsSent := totalTipsSent stats + absAmount;
         totalTipsReceived := totalTipsReceived stats;
         totalReferralEarnings := totalReferralEarnings stats;
         averageTransactionAmount := averageTransactionAmount stats;
         largestTransaction := largest;
         monthlyStats :=
           {| deposits := deposits monthly;
              withdrawals := withdrawals monthly;
              tips :=
                if thisMonth then tips monthly + absAmount
                else tips monthly |} |}
  | Transaction.tip_received =>
      {| totalTransactions := totalTransactions stats;
         totalDeposits := totalDeposits stats;
         totalWithdrawals := totalWithdrawals stats;
         totalTipsSent := totalTipsSent stats;
         totalTipsReceived := totalTipsReceived stats + absAmount;
         totalReferralEarnings := totalReferralEarnings stats;
         averageTransactionAmount := averageTransactionAmount stats;
         largestTransaction := largest;
         monthlyStats := monthly |}
  | Transaction.referral_bonus =>
      {| totalTransactions := totalTransactions stats;
         totalDeposits := totalDeposits stats;
         totalWithdrawals := totalWithdrawals stats;
         totalTipsSent := totalTipsSent stats;
         totalTipsReceived := totalTipsReceived stats;
         totalReferralEarnings := totalReferralEarnings stats + absAmount;
         averageTransactionAmount := averageTransactionAmount stats;
         largestTransaction := largest;
         monthlyStats := monthly |}
  | Transaction.fee =>
      {| totalTransactions := totalTransactions stats;
         totalDeposits := totalDeposits stats;
         totalWithdrawals := totalWithdrawals stats;
         totalTipsSent := totalTipsSent stats;
         totalTipsReceived := totalTipsReceived stats;
         totalReferralEarnings := totalReferralEarnings stats;
         averageTransactionAmount := averageTransactionAmount stats;
         largestTransaction := largest;
         monthlyStats := monthly |}
  end.

(** [if (stats.totalTransactions > 0) stats.averageTransactionAmount =
    totalAmount / stats.totalTransactions]. *)
Definition average (stats : WalletStatistics) : WalletStatistics :=
  let totalAmount :=
    totalDeposits stats + totalWithdrawals stats + totalTipsSent stats
    + totalTipsReceived stats + totalReferralEarnings stats in
  {| totalTransactions := totalTransactions stats;
     totalDeposits := totalDeposits stats;
     totalWithdrawals := totalWithdrawals stats;
     totalTipsSent := totalTipsSent stats;
     totalTipsReceived := totalTipsReceived stats;
     totalReferralEarnings := totalReferralEarnings stats;
     averageTransactionAmount :=
       match totalTransactions stats with
       | O => averageTransactionAmount stats
       | S n => Qmake totalAmount (Pos.of_succ_nat n)
       end;
     largestTransaction := largestTransaction stats;
     monthlyStats := monthlyStats stats |}.

End WalletStatistics.

Definition getWalletStatistics (utcOffset : Z) (userId0 : UserId)
    : Promise WalletStatistics.WalletStatistics :=
  try_catch
    (transactions <- getTransactionHistory userId0 1000%nat 0%nat ;;
     now <- new_Date ;;
     let currentMonth := startOfMonth utcOffset now in
     resolve
       (WalletStatistics.average
          (fold_left (WalletStatistics.count currentMonth) transactions
             (WalletStatistics.empty (List.length transactions)))))
    (fun _ => resolve (WalletStatistics.empty 0%nat)).

End WalletService.

(** The key of a user document, and the filter
    [where('referrerId', '==', a).where('referredId', '==', b)]. *)
Definition byId (userId0 : UserId) (u : User.IUser) : bool :=
  String.eqb (User.id u) userId0.

Definition byPair (referrerId referredId : UserId) (r : Referral.IReferral)
    : bool :=
  String.eqb (Referral.referrerId r) referrerId
  && String.eqb (Referral.referredId r) referredId.

(** ** services/ReferralService.ts *)
Module ReferralService.

Record ReferralResult := {
  success : bool;
  referralId : option DocId;
  bonusProcessed : option bool;
  error : option string
}.

Definition REFERRAL_BONUSES (level : Z) : option Z :=
  match level with
  | 1 => Some 100
  | 2 => Some 50
  | 3 => Some 25
  | _ => None
  end.

Definition MAX_REFERRAL_LEVELS : Z := 3.
Definition MIN_ACTIVE_DAYS : Z := 30.

Definition getUserById (userId0 : UserId) : Promise (option User.IUser) :=
  fun st => (Returned (find (byId userId0) (users st)), st).

Definition getReferralByUsers (referrerId referredId : UserId)
    : Promise (option Referral.IReferral) :=
  fun st =>
    (Returned (find (byPair referrerId referredId) (referrals st)), st).

(** [minActiveDate.setDate (minActiveDate.getDate () - MIN_ACTIVE_DAYS)]:
    the same local time of day, thirty days earlier. *)
Definition minActiveDate (now : Timestamp) : Timestamp :=
  now - MIN_ACTIVE_DAYS * WalletService.msPerDay.

(** [user.createdAt] is the [Timestamp] that [getUserById] read. *)
Definition checkLevel3Eligibility (userId0 : UserId) : Promise bool :=
  try_catch
    (user <- getUserById userId0 ;;
     match user with
     | None => resolve false
     | Some user =>
       now <- new_Date ;;
       resolve (timestamp_le_date (User.createdAt user) (minActiveDate now))
     end)
    (fun _ => resolve false).

Definition createHigherLevelReferral (referrerId referredId : UserId)
    (level : Z) (platform : Platform) : Promise unit :=
  try_catch
    (referralId <- uuidv4 ;;
     now <- new_Date ;;
     let referralData :=
       Referral.createReferralData
         {| Referral.p_id := referralId;
            Referral.p_referrerId := referrerId;
            Referral.p_referredId := referredId;
            Referral.p_level := Some level;
            Referral.p_bonus := REFERRAL_BONUSES level;
            Referral.p_status := Some Referral.pending;
            Referral.p_referralCode := Some "";
            Referral.p_platform := Some platform |}
         now in
     referrals_set referralId referralData ;;
     bonusResult <-
       WalletService.processReferralBonus referrerId referredId level
         (or_zero (REFERRAL_BONUSES level)) ;;
     if WalletService.success bonusResult then
       completed <- new_Date ;;
       referrals_update referralId
         (Referral.markCompleted (WalletService.transactionId bonusResult)
            completed)
     else resolve tt)
    (fun _ => resolve tt).

Definition processHigherLevelReferrals (referrerId referredId : UserId)
    (platform : Platform) : Promise unit :=
  try_catch
    (referrer <- getUserById referrerId ;;
     match truthy (match referrer with
                   | Some u => User.referredBy u
                   | None => None
                   end) with
     | None => resolve tt
     | Some level2Id =>
       createHigherLevelReferral level2Id referredId 2 platform ;;
       level2Referrer <- getUserById level2Id ;;
       match level2Referrer with
       | None => resolve tt
       | Some level2Referrer =>
         match truthy (User.referredBy level2Referrer) with
         | None => resolve tt
         | Some level3Id =>
           isEligible <- checkLevel3Eligibility (User.id level2Referrer) ;;
           if isEligible then
             createHigherLevelReferral level3Id referredId 3 platform
           else resolve tt
         end
       end
     end)
    (fun _ => resolve tt).

Definition processReferral (referrerId referredId : UserId)
    (platform : Platform) : Promise ReferralResult :=
  try_catch
    (referrer <- getUserById referrerId ;;
     match referrer with
     | None => throw "Referrer not found"
     | Some referrer =>
       existingReferral <- getReferralByUsers referrerId referredId ;;
       match existingReferral with
       | Some _ =>
         resolve {| success := false; referralId := None;
                    bonusProcessed := None;
                    error := Some "Referral already exists" |}
       | None =>
         referralId <- uuidv4 ;;
         now <- new_Date ;;
         let referralData :=
           Referral.createReferralData
             {| Referral.p_id := referralId;
                Referral.p_referrerId := referrerId;
                Referral.p_referredId := referredId;
                Referral.p_level := Some 1;
                Referral.p_bonus := REFERRAL_BONUSES 1;
                Referral.p_status := Some Referral.pending;
                Referral.p_referralCode := Some (User.referralCode referrer);
                Referral.p_platform := Some platform |}
             now in
         referrals_set referralId referralData ;;
         bonusResult <-
           WalletService.processReferralBonus referrerId referredId 1
             (or_zero (REFERRAL_BONUSES 1)) ;;
         (if WalletService.success bonusResult then
            completed <- new_Date ;;
            referrals_update referralId
              (Referral.markCompleted
                 (WalletService.transactionId bonusResult) completed) ;;
            processHigherLevelReferrals referrerId referredId platform
          else resolve tt) ;;
         resolve {| success := true; referralId := Some referralId;
                    bonusProcessed :=
                      Some (WalletService.success bonusResult);
                    error := None |}
       end
     end)
    (fun message =>
       resolve {| success := false; referralId := None;
                  bonusProcessed := None;
                  error := Some (or_string (Some message)
                                   "Failed to process referral") |}).

(** *** getUserByReferralCode, validateReferralCode *)

Definition byReferralCode (referralCode : string) (u : User.IUser) : bool :=
  String.eqb (User.referralCode u) referralCode.

Definition getUserByReferralCode (referralCode : string)
    : Promise (option User.IUser) :=
  fun st => (Returned (find (byReferralCode referralCode) (users st)), st).

Module CodeValidation.

Record CodeValidation := { valid : bool; user : option User.IUser }.

End CodeValidation.

Definition validateReferralCode (code : string)
    : Promise CodeValidation.CodeValidation :=
  try_catch
    (user <- getUserByReferralCode code ;;
     resolve
       {| CodeValidation.valid :=
            match user with Some _ => true | None => false end;
          CodeValidation.user := user |})
    (fun _ =>
       resolve {| CodeValidation.valid := false;
                  CodeValidation.user := None |}).

(** *** getReferralStats *)

Module ReferralStats.

Record LevelStats := { level : Z; count : nat; earnings : Z }.

Record ReferralStats := {
  totalEarnings : Z;
  totalReferrals : nat;
  levelStats : list LevelStats;
  referralCode : string
}.

End ReferralStats.

Definition byReferrer (userId0 : UserId) (r : Referral.IReferral) : bool :=
  String.eqb (Referral.referrerId r) userId0.

Definition isCompleted (r : Referral.IReferral) : bool :=
  match Referral.status r with
  | Referral.completed => true
  | _ => false
  end.

(** [.reduce ((sum, r) => sum + r.bonus, 0)]. *)
Definition sumBonus (rs : list Referral.IReferral) : Z :=
  fold_left (fun sum r => sum + Referral.bonus r) rs 0.

Definition levelStatsOf (referrals : list Referral.IReferral) (level : Z)
    : ReferralStats.LevelStats :=
  {| ReferralStats.level := level;
     ReferralStats.count :=
       List.length (filter (fun r => Referral.level r =? level) referrals);
     ReferralStats.earnings :=
       sumBonus (filter (fun r => (Referral.level r =? level)
                                  && isCompleted r) referrals) |}.

Definition getReferralStats (userId0 : UserId)
    : Promise ReferralStats.ReferralStats :=
  try_catch
    (referrals <-
       (fun st =>
          (Returned (orderBy_desc Referral.createdAt
                       (filter (byReferrer userId0) (referrals st))), st)) ;;
     let levelStats :=
       [levelStatsOf referrals 1; levelStatsOf referrals 2;
        levelStatsOf referrals 3] in
     let totalEarnings := sumBonus (filter isCompleted referrals) in
     user <- getUserById userId0 ;;
     let referralCode :=
       or_string (option_map User.referralCode user) "" in
     resolve
       {| ReferralStats.totalEarnings := totalEarnings;
          ReferralStats.totalReferrals := List.length referrals;
          ReferralStats.levelStats := levelStats;
          ReferralStats.referralCode := referralCode |})
    (fun _ =>
       resolve
         {| ReferralStats.totalEarnings := 0;
            ReferralStats.totalReferrals := 0%nat;
            ReferralStats.levelStats :=
              [{| ReferralStats.level := 1; ReferralStats.count := 0%nat;
                  ReferralStats.earnings := 0 |};
               {| ReferralStats.level := 2; ReferralStats.count := 0%nat;
                  ReferralStats.earnings := 0 |};
               {| ReferralStats.level := 3; ReferralStats.count := 0%nat;
                  ReferralStats.earnings := 0 |}];
            ReferralStats.referralCode := "" |}).

(** *** getReferralLeaderboard *)

Module Leaderboard.

Record Entry := {
  userId : UserId;
  username : option string;
  totalReferrals : Z;
  totalBonus : Z
}.

(** The [Map] from referrer to [{ totalReferrals, totalBonus }]: its
    keys in the order of their first insertion. *)
Definition Board := list (UserId * (Z * Z)).

Definition get (key : UserId) (board : Board) : option (Z * Z) :=
  option_map snd (find (fun e => String.eqb (fst e) key) board).

Fixpoint set (key : UserId) (value : Z * Z) (board : Board) : Board :=
  match board with
  | [] => [(key, value)]
  | e :: rest =>
      if String.eqb (fst e) key then (key, value) :: rest
      else e :: set key value rest
  end.

(** The body of [referrals.forEach]. *)
Definition record (board : Board) (referral : Referral.IReferral) : Board :=
  let existing := or_else (get (Referral.referrerId referral) board) (0, 0) in
  set (Referral.referrerId referral)
    (fst existing + 1, snd existing + Referral.bonus referral) board.

End Leaderboard.

(** [leaderboard.slice (0, limit)]: a negative [limit] counts from the
    end of the array. *)
Definition slice0 {A : Type} (limit : Z) (l : list A) : list A :=
  firstn (Z.to_nat (if limit <? 0
                    then Z.max (Z.of_nat (List.length l) + limit) 0
                    else limit))
         l.

(** The default of [limit] in the source is 50; the route hands over
    [parseInt (req.query.limit) || 50], any integer but 0. *)
Definition getReferralLeaderboard (limit : Z)
    : Promise (list Leaderboard.Entry) :=
  try_catch
    (referrals <-
       (fun st => (Returned (filter isCompleted (referrals st)), st)) ;;
     let leaderboardMap := fold_left Leaderboard.record referrals [] in
     let leaderboard :=
       sort_desc (fun e : UserId * (Z * Z) => fst (snd e)) leaderboardMap in
     let topUsers := slice0 limit leaderboard in
     fun st =>
       (Returned
          (map (fun e : UserId * (Z * Z) =>
                  {| Leaderboard.userId := fst e;
                     Leaderboard.username :=
                       option_map User.username
                         (find (byId (fst e)) (users st));
                     Leaderboard.totalReferrals := fst (snd e);
                     Leaderboard.totalBonus := snd (snd e) |})
               topUsers),
        st))
    (fun _ => resolve []).

(** *** processPendingBonuses *)

Module PendingBonuses.

Record PendingBonuses := { processed : nat; failed : nat }.

End PendingBonuses.

Definition isPending (r : Referral.IReferral) : bool :=
  match Referral.status r with
  | Referral.pending => true
  | _ => false
  end.

(** The loop over the documents of the query, with the two counters. *)
Fixpoint processPendingDocs (docs : list Referral.IReferral)
    (counters : PendingBonuses.PendingBonuses)
    : Promise PendingBonuses.PendingBonuses :=
  match docs with
  | [] => resolve counters
  | referral :: rest =>
    counters' <-
      try_catch
        (bonusResult <-
           WalletService.processReferralBonus (Referral.referrerId referral)
             (Referral.referredId referral) (Referral.level referral)
             (Referral.bonus referral) ;;
         if WalletService.success bonusResult then
           completed <- new_Date ;;
           referrals_update (Referral.id referral)
             (Referral.markCompleted
                (WalletService.transactionId bonusResult) completed) ;;
           resolve
             {| PendingBonuses.processed :=
                  S (PendingBonuses.processed counters);
                PendingBonuses.failed := PendingBonuses.failed counters |}
         else
           resolve
             {| PendingBonuses.processed := PendingBonuses.processed counters;
                PendingBonuses.failed :=
                  S (PendingBonuses.failed counters) |})
        (fun _ =>
           resolve
             {| PendingBonuses.processed := PendingBonuses.processed counters;
                PendingBonuses.failed :=
                  S (PendingBonuses.failed counters) |}) ;;
    processPendingDocs rest counters'
  end.

Definition processPendingBonuses : Promise PendingBonuses.PendingBonuses :=
  try_catch
    (docs <- (fun st => (Returned (filter isPending (referrals st)), st)) ;;
     processPendingDocs docs
       {| PendingBonuses.processed := 0; PendingBonuses.failed := 0 |})
    (fun _ =>
       resolve {| PendingBonuses.processed := 0;
                  PendingBonuses.failed := 0 |}).

End ReferralService.

(** ** routes/payments.ts: the transfer webhook *)
Module PaymentsRoutes.

(** [where('reference', '==', reference).where('type', '==',
    'withdrawal')]. *)
Definition byReference (reference : string) (t : Transaction.ITransaction)
    : bool :=
  match Transaction.reference t with
  | Some r => String.eqb r reference
  | None => false
  end
  && match Transaction.type t with
     | Transaction.withdrawal => true
     | _ => false
     end.

(** The fields of [update ({status: 'completed', updatedAt, completedAt})]
    and of [update ({status: 'failed', updatedAt})]. *)
Definition markStatus (status0 : Transaction.Status) (now : Timestamp)
    (completedAt0 : option Timestamp) (t : Transaction.ITransaction)
    : Transaction.ITransaction :=
  {| Transaction.id := Transaction.id t;
     Transaction.userId := Transaction.userId t;
     Transaction.type := Transaction.type t;
     Transaction.amount := Transaction.amount t;
     Transaction.description := Transaction.description t;
     Transaction.status := status0;
     Transaction.reference := Transaction.reference t;
     Transaction.recipientId := Transaction.recipientId t;
     Transaction.senderId := Transaction.senderId t;
     Transaction.currency := Transaction.currency t;
     Transaction.fee_ := Transaction.fee_ t;
     Transaction.netAmount := Transaction.netAmount t;
     Transaction.metadata := Transaction.metadata t;
     Transaction.createdAt := Transaction.createdAt t;
     Transaction.updatedAt := now;
     Transaction.completedAt :=
       match completedAt0 with
       | Some c => Some c
       | None => Transaction.completedAt t
       end |}.

(** [POST /webhook/paystack-transfer]: the status of the response.
    [secret] is the configured key, [signature] the header of the
    request and [expectedSignature] the HMAC of the body under the key;
    [event] and [reference] are the fields of the body. *)
Definition paystackTransferWebhook (secret signature : option string)
    (expectedSignature : string) (event reference : string) : Promise Z :=
  try_catch
    (if match truthy secret, truthy signature with
        | Some _, Some signature0 =>
            negb (String.eqb signature0 expectedSignature)
        | _, _ => false
        end
     then resolve 400
     else
       (if String.eqb event "transfer.success" then
          transactionQuery <-
            (fun st =>
               (Returned (find (byReference reference) (transactions st)),
                st)) ;;
          match transactionQuery with
          | None => resolve tt
          | Some transactionDoc =>
            updated <- new_Date ;;
            completed <- new_Date ;;
            transactions_update (Transaction.id transactionDoc)
              (markStatus Transaction.completed updated (Some completed)) ;;
            NotificationService.sendTransactionNotification
              (Transaction.userId transactionDoc) Transaction.withdrawal
              (Math_abs (Transaction.amount transactionDoc)) "NGN"
              (Some reference)
          end
        else if String.eqb event "transfer.failed"
                || String.eqb event "transfer.reversed" then
          transactionQuery <-
            (fun st =>
               (Returned (find (byReference reference) (transactions st)),
                st)) ;;
          match transactionQuery with
          | None => resolve tt
          | Some transactionDoc =>
            WalletService.creditWallet (Transaction.userId transactionDoc)
              (Math_abs (Transaction.amount transactionDoc))
              "Withdrawal refund - transfer failed" (Some reference) None ;;
            updated <- new_Date ;;
            transactions_update (Transaction.id transactionDoc)
              (markStatus Transaction.failed updated None)
          end
        else resolve tt) ;;
       resolve 200)
    (fun _ => resolve 500).

End PaymentsRoutes.

(** ** Vocabulary of the properties *)

(** A well-formed store: wallet ids are keys, and every id in use was
    drawn from [uuidv4] earlier. *)
Definition store_ok (st : Store) : bool :=
  unique_ids Wallet.id (wallets st)
  && ids_below Wallet.id (nextUuid st) (wallets st)
  && ids_below Transaction.id (nextUuid st) (transactions st)
  && ids_below Tip.id (nextUuid st) (tips st)
  && ids_below Referral.id (nextUuid st) (referrals st).

Definition balanceOf (userId0 : UserId) (st : Store) : option Z :=
  option_map Wallet.balance (find (byUser userId0) (wallets st)).

(** Type, owner and signed amount of a transaction. *)
Definition entry (t : Transaction.ITransaction)
    : Transaction.TransactionType * UserId * Z :=
  (Transaction.type t, Transaction.userId t, Transaction.amount t).

(** The five running totals of a wallet: deposits, withdrawals, tips
    sent, tips received, referral earnings. *)
Definition totals (w : Wallet.IWallet) : Z * Z * Z * Z * Z :=
  (Wallet.totalDeposits w, Wallet.totalWithdrawals w, Wallet.totalTipsSent w,
   Wallet.totalTipsReceived w, Wallet.totalReferralEarnings w).

Definition is_completed (t : Transaction.ITransaction) : bool :=
  match Transaction.status t with
  | Transaction.completed => true
  | _ => false
  end.

Definition has_type (ty : Transaction.TransactionType)
    (t : Transaction.ITransaction) : bool :=
  match ty, Transaction.type t with
  | Transaction.deposit, Transaction.deposit
  | Transaction.withdrawal, Transaction.withdrawal
  | Transaction.tip_sent, Transaction.tip_sent
  | Transaction.tip_received, Transaction.tip_received
  | Transaction.referral_bonus, Transaction.referral_bonus
  | Transaction.fee, Transaction.fee => true
  | _, _ => false
  end.

(** The operations of the wallet engine that move money, and a run of
    a sequence of them, each on the store the one before left. *)
Inductive WalletOp :=
| Credit (userId0 : UserId) (amount : Z) (description : string)
    (reference : option string) (metadata : option Transaction.Metadata)
| ReferralBonus (referrerId referredId : UserId) (level bonusAmount : Z)
| Debit (userId0 : UserId) (amount : Z) (description : string)
    (fee : option Z) (reference : option string)
    (metadata : option Transaction.Metadata)
| SendTip (senderId recipientId : UserId) (amount : Z) (platform : Platform)
    (description : option string) (isAnonymous : bool).

Definition perform (op : WalletOp)
    : Promise WalletService.TransactionResult :=
  match op with
  | Credit u a d r m => WalletService.creditWallet u a d r m
  | ReferralBonus r d l b => WalletService.processReferralBonus r d l b
  | Debit u a d f r m => WalletService.debitWallet u a d f r m
  | SendTip s r a p d i => WalletService.processTip s r a p d i
  end.

Fixpoint run_ops (ops : list WalletOp) (st : Store) : Store :=
  match ops with
  | [] => st
  | op :: rest => run_ops rest (snd (perform op st))
  end.

(** The amount a credit, a referral bonus or a tip is asked to move is
    not negative (a debit may ask for any amount). *)
Definition amount_not_negative (op : WalletOp) : bool :=
  match op with
  | Credit _ a _ _ _ => 0 <=? a
  | ReferralBonus _ _ _ b => 0 <=? b
  | Debit _ _ _ _ _ _ => true
  | SendTip _ _ a _ _ _ => 0 <=? a
  end.

Definition balance_nonneg (w : Wallet.IWallet) : bool :=
  0 <=? Wallet.balance w.

Definition balances_nonneg (st : Store) : bool :=
  forallb balance_nonneg (wallets st).

(** The referral records a run added to the collection, and what they
    say about a level of the cascade. *)
Definition created_referrals (st st' : Store) : list Referral.IReferral :=
  skipn (List.length (referrals st)) (referrals st').

Definition is_level (l : Z) (r : Referral.IReferral) : bool :=
  Referral.level r =? l.

Definition referral_completed (r : Referral.IReferral) : bool :=
  match Referral.status r with
  | Referral.completed => true
  | _ => false
  end.

Definition level_created (l : Z) (st st' : Store) : bool :=
  existsb (is_level l) (created_referrals st st').

Definition level_completed (l : Z) (st st' : Store) : bool :=
  existsb (fun r => is_level l r && referral_completed r)
    (created_referrals st st').

(** The level-1 records of a (referrer, referred) pair. *)
Definition level1_records (referrerId referredId : UserId) (st : Store)
    : list Referral.IReferral :=
  filter (fun r => byPair referrerId referredId r && is_level 1 r)
    (referrals st).

Definition hasWallet (userId0 : UserId) (st : Store) : bool :=
  match find (byUser userId0) (wallets st) with
  | Some _ => true
  | None => false
  end.

(** The referrer a user record names, if any ([referredBy], truthy). *)
Definition referrerOf (userId0 : UserId) (st : Store) : option UserId :=
  truthy (match find (byId userId0) (users st) with
          | Some u => User.referredBy u
          | None => None
          end).

(** The age of an account at the clock of the store, in milliseconds;
    an account of at least thirty days. *)
Definition account_age (u : User.IUser) (st : Store) : Z :=
  clock st - User.createdAt u.

Definition thirty_days_old (userId0 : UserId) (st : Store) : bool :=
  match find (byId userId0) (users st) with
  | Some u => 30 * 86400000 <=? account_age u st
  | None => false
  end.

(** A user record exists and passes the comparison of the eligibility
    check: its stored [createdAt], as the [Timestamp] it is, against the
    date thirty days before the clock of the store. *)
Definition level3_eligible (userId0 : UserId) (st : Store) : bool :=
  match find (byId userId0) (users st) with
  | Some u => timestamp_le_date (User.createdAt u) (clock st - 30 * 86400000)
  | None => false
  end.

(** A store of our days: its clock is not before 64878875676, an
    evening of January 1972, and none of its users and transactions is
    dated after the clock. *)
Definition clock_of_our_days (st : Store) : Prop :=
  64878875676 <= clock st
  /\ (forall u, In u (users st) -> User.createdAt u <= clock st)
  /\ (forall t, In t (transactions st) -> Transaction.createdAt t <= clock st).

(** The records levels 2 and 3 of a cascade add for a level-1 referrer:
    one for the referrer's referrer, if there is one, completed when that
    user has a wallet, and then one for that user's referrer, if there is one
    and the level-2 referrer passes the comparison of the eligibility
    check. *)
Definition higher_level_records (st : Store) (referrerId referredId : UserId)
    (tail : list Referral.IReferral) : Prop :=
  match referrerOf referrerId st with
  | None => tail = []
  | Some level2Id =>
      exists l2,
        Referral.level l2 = 2
        /\ Referral.referrerId l2 = level2Id
        /\ Referral.referredId l2 = referredId
        /\ referral_completed l2 = hasWallet level2Id st
        /\ match referrerOf level2Id st with
           | None => tail = [l2]
           | Some level3Id =>
               if level3_eligible level2Id st then
                 exists l3,
                   Referral.level l3 = 3
                   /\ Referral.referrerId l3 = level3Id
                   /\ Referral.referredId l3 = referredId
                   /\ tail = [l2; l3]
               else tail = [l2]
           end
  end.

(** The user whose new balance an operation reports. *)
Definition account (op : WalletOp) : UserId :=
  match op with
  | Credit u _ _ _ _ => u
  | ReferralBonus r _ _ _ => r
  | Debit u _ _ _ _ _ => u
  | SendTip s _ _ _ _ _ => s
  end.

(** Sorted by a key, largest first. *)
Definition descending {D : Type} (key : D -> Z) : list D -> Prop :=
  StronglySorted (fun a b => key b <= key a).

(** The sum and the largest of the absolute amounts of transactions. *)
Definition sum_abs (l : list Transaction.ITransaction) : Z :=
  fold_right (fun t sum => Math_abs (Transaction.amount t) + sum) 0 l.

Definition max_abs (l : list Transaction.ITransaction) : Z :=
  fold_right (fun t m => Z.max (Math_abs (Transaction.amount t)) m) 0 l.

(** Transactions of a type, and those of them created at or after a
    time. *)
Definition of_type (ty : Transaction.TransactionType)
    (l : list Transaction.ITransaction) : list Transaction.ITransaction :=
  filter (has_type ty) l.

Definition of_type_since (ty : Transaction.TransactionType)
    (since : Timestamp) (l : list Transaction.ITransaction)
    : list Transaction.ITransaction :=
  filter (fun t => has_type ty t && (since <=? Transaction.createdAt t)) l.

(** Transactions of a type read from the store that the comparison of
    their [Timestamp] with a [Date] places at or after a time. *)
Definition of_type_counted_since (ty : Transaction.TransactionType)
    (since : Timestamp) (l : list Transaction.ITransaction)
    : list Transaction.ITransaction :=
  filter (fun t => has_type ty t
                   && timestamp_ge_date (Transaction.createdAt t) since) l.

(** The type of the transactions counted against the daily limit of an
    operation: a tip counts with the tips sent. *)
Definition counted_as (type : WalletService.LimitType)
    : Transaction.TransactionType :=
  match type with
  | WalletService.tip => Transaction.tip_sent
  | WalletService.withdrawal => Transaction.withdrawal
  | WalletService.deposit => Transaction.deposit
  end.

(** Midnight of the local day of [now], for a time zone [utcOffset]
    milliseconds ahead of UTC. *)
Definition local_midnight (utcOffset : Z) (now : Timestamp) : Timestamp :=
  86400000 * ((now + utcOffset) / 86400000) - utcOffset.

(** The referrers with a completed referral, each once. *)
Definition referrers_paid (st : Store) : list UserId :=
  nodup string_dec
    (map Referral.referrerId
       (filter ReferralService.isCompleted (referrals st))).

(** Everything but the counter of identifiers is as it was. *)
Definition same_documents (st st' : Store) : Prop :=
  st' = with_nextUuid (nextUuid st') st.

(** The checks of a withdrawal all pass and the gateway accepts the
    transfer. *)
Definition transfer_accepted (paystack : Paystack.Gateway) (utcOffset : Z)
    (userId0 : UserId) (amount : Z)
    (accountNumber bankCode accountName : string)
    (description : option string) (st : Store) (w : Wallet.IWallet)
    (transfer : Paystack.Transfer) : Prop :=
  find (byUser userId0) (wallets st) = Some w
  /\ 100 <= amount <= 500000
  /\ amount <= Wallet.balance w
  /\ sum_abs
       (of_type_counted_since Transaction.withdrawal
          (WalletService.setHours0 utcOffset (clock st))
          (firstn 100
             (orderBy_desc Transaction.createdAt
                (filter (byOwner userId0) (transactions st)))))
     + amount <= 1000000
  /\ (exists account,
        Paystack.validateAccount paystack accountNumber bankCode
        = Returned account
        /\ Paystack.account_status account = true
        /\ Paystack.account_name account = accountName)
  /\ Paystack.initiateTransfer paystack
       (amount - WalletService.withdrawalFee amount) accountNumber bankCode
       accountName (or_string description "Givta Wallet Withdrawal")
       ("WD_" ++ WalletService.number_text (Z.of_nat (nextUuid st)))
     = Returned transfer
  /\ Paystack.transfer_status transfer = true.

(** The request passes the signature check of the transfer webhook:
    there is no secret, or no signature, or the signature is the
    expected one. *)
Definition signature_accepted (secret signature : option string)
    (expectedSignature : string) : Prop :=
  truthy secret = None \/ truthy signature = None
  \/ truthy signature = Some expectedSignature.

(** The event tells that a transfer did not go through. *)
Definition transfer_undone (event : string) : Prop :=
  event = "transfer.failed" \/ event = "transfer.reversed".

(** The books of a wallet balance: what came in less what went out is
    the balance. *)
Definition balanced (w : Wallet.IWallet) : bool :=
  Wallet.balance w
  =? Wallet.totalDeposits w + Wallet.totalTipsReceived w
     + Wallet.totalReferralEarnings w
     - Wallet.totalWithdrawals w - Wallet.totalTipsSent w.

Definition ledger_balanced (st : Store) : bool :=
  forallb balanced (wallets st).

(** A pending referral whose referrer has a wallet to credit, and one
    whose referrer has none. *)
Definition payable (st : Store) (r : Referral.IReferral) : bool :=
  ReferralService.isPending r && hasWallet (Referral.referrerId r) st.

Definition unpayable (st : Store) (r : Referral.IReferral) : bool :=
  ReferralService.isPending r
  && negb (hasWallet (Referral.referrerId r) st).

(** What a sweep of the pending bonuses makes of a referral: a payable
    one is completed at the time of the sweep, with the transaction that
    paid it; any other stays as it is. *)
Definition swept (st : Store) (r r' : Referral.IReferral) : Prop :=
  if payable st r
  then exists transactionId,
         r' = Referral.markCompleted transactionId (clock st) r
  else r' = r.

(** The bonuses of the payable referrals of a referrer. *)
Definition bonuses_due (userId0 : UserId) (st : Store) : Z :=
  ReferralService.sumBonus
    (filter (fun r => payable st r && ReferralService.byReferrer userId0 r)
       (referrals st)).

(** The referrer of a document to sweep has a wallet. *)
Definition credited (st : Store) (d : Referral.IReferral) : bool :=
  hasWallet (Referral.referrerId d) st.

(** What a sweep of the documents [docs] makes of a referral. *)
Definition swept_by (docs : list Referral.IReferral) (st : Store)
    (r r' : Referral.IReferral) : Prop :=
  if existsb (fun d => Nat.eqb (Referral.id d) (Referral.id r)
                       && credited st d) docs
  then exists transactionId,
         r' = Referral.markCompleted transactionId (clock st) r
  else r' = r.

(** ** Sample stores *)

Definition wallet_with (i : DocId) (userId0 : UserId) (balance0 : Z)
    : Wallet.IWallet :=
  Wallet.spread (Wallet.createWalletData i userId0 None 0)
    {| Wallet.u_balance := Some balance0; Wallet.u_totalDeposits := None;
       Wallet.u_totalWithdrawals := None; Wallet.u_totalTipsSent := None;
       Wallet.u_totalTipsReceived := None;
       Wallet.u_totalReferralEarnings := None;
       Wallet.u_lastTransactionAt := None; Wallet.u_updatedAt := None |}.

(** Alice holds 1000, Bob holds nothing yet, Carol has no wallet; every
    write commits. *)
Definition two_wallets : Store :=
  {| wallets := [wallet_with 0%nat "alice" 1000; wallet_with 1%nat "bob" 0];
     transactions := []; tips := []; referrals := []; users := [];
     nextUuid := 2%nat; clock := 1700000000000; faults := [] |}.

(** The same store, about to commit one write and reject the next. *)
Definition second_write_fails : Store :=
  with_faults [None; Some "UNAVAILABLE"] two_wallets.

Definition user_with (userId0 : UserId) (createdAt0 : Timestamp)
    (referredBy0 : option UserId) : User.IUser :=
  {| User.id := userId0; User.username := userId0;
     User.createdAt := createdAt0;
     User.referralCode := String.append "CODE-" userId0;
     User.referredBy := referredBy0 |}.

Definition days (n : Z) : Z := n * 86400000.

(** A chain of referrers: ref1 was referred by ref2, and ref2, whose
    account is forty days old, by ref3.  ref1 and ref3 have wallets; ref2
    has none, so that a bonus for ref2 cannot be credited. *)
Definition referral_chain : Store :=
  {| wallets := [wallet_with 0%nat "ref1" 0; wallet_with 1%nat "ref3" 0];
     transactions := []; tips := []; referrals := [];
     users := [user_with "ref1" (1700000000000 - days 400) (Some "ref2");
               user_with "ref2" (1700000000000 - days 40) (Some "ref3");
               user_with "ref3" (1700000000000 - days 500) None];
     nextUuid := 2%nat; clock := 1700000000000; faults := [] |}.

(** The same chain with a wallet for each of the three. *)
Definition referral_chain_funded : Store :=
  with_nextUuid 3%nat
    (with_wallets (fun ws => ws ++ [wallet_with 2%nat "ref2" 0])
       referral_chain).

(** A transaction of a user as the services record it. *)
Definition booked (i : DocId) (userId0 : UserId)
    (type : Transaction.TransactionType) (amount : Z) (createdAt0 : Timestamp)
    : Transaction.ITransaction :=
  Transaction.createTransactionData
    {| Transaction.p_id := i; Transaction.p_userId := userId0;
       Transaction.p_type := Some type; Transaction.p_amount := Some amount;
       Transaction.p_description := Some "earlier";
       Transaction.p_status := Some Transaction.completed;
       Transaction.p_reference := None; Transaction.p_recipientId := None;
       Transaction.p_senderId := None; Transaction.p_currency := None;
       Transaction.p_fee := Some 0; Transaction.p_netAmount := Some amount;
       Transaction.p_metadata := None |}
    createdAt0.

Definition hours (n : Z) : Z := n * 3600000.

(** What Alice did by 1700000000000 (14 November 2023, 23:13 at one
    hour ahead of UTC): two withdrawals and a tip that day, and a withdrawal
    the day before. *)
Definition busy_day : list Transaction.ITransaction :=
  [booked 2%nat "alice" Transaction.withdrawal (-450000)
     (1700000000000 - hours 1);
   booked 3%nat "alice" Transaction.withdrawal (-400000)
     (1700000000000 - hours 5);
   booked 4%nat "alice" Transaction.tip_sent (-50000)
     (1700000000000 - hours 6);
   booked 5%nat "alice" Transaction.withdrawal (-300000)
     (1700000000000 - hours 30)].

(** A chain in which every referrer has a wallet and ref2's account is
    ten days old. *)
Definition young_chain : Store :=
  {| wallets := [wallet_with 0%nat "ref1" 0; wallet_with 1%nat "ref2" 0;
                 wallet_with 2%nat "ref3" 0];
     transactions := []; tips := []; referrals := [];
     users := [user_with "ref1" (1700000000000 - days 40) (Some "ref2");
               user_with "ref2" (1700000000000 - days 10) (Some "ref3");
               user_with "ref3" (1700000000000 - days 90) None];
     nextUuid := 3%nat; clock := 1700000000000; faults := [] |}.

(** Alice, with 2 000 000 in her wallet, at the end of that day. *)
Definition busy_wallets : Store :=
  {| wallets := [wallet_with 0%nat "alice" 2000000;
                 wallet_with 1%nat "bob" 0];
     transactions := busy_day; tips := []; referrals := []; users := [];
     nextUuid := 6%nat; clock := 1700000000000; faults := [] |}.

(** The funded chain after the cascade for a newcomer referred by
    ref1: ref1, ref2 and ref3 have one completed referral each. *)
Definition after_cascade : Store :=
  snd (ReferralService.processReferral "ref1" "newcomer" mobile_app
         referral_chain_funded).

(** A gateway that resolves every account to "Alice A" and accepts
    every transfer under the reference it is given. *)
Definition accepting_gateway : Paystack.Gateway :=
  {| Paystack.validateAccount := fun _ _ =>
       Returned {| Paystack.account_status := true;
                   Paystack.account_name := "Alice A" |};
     Paystack.initiateTransfer := fun _ _ _ _ _ reference =>
       Returned {| Paystack.transfer_status := true;
                   Paystack.transfer_message := None;
                   Paystack.transfer_reference := reference |} |}.

(** [two_wallets] after Alice tipped Bob 500. *)
Definition after_tip : Store :=
  snd (WalletService.processTip "alice" "bob" 500 mobile_app None false
         two_wallets).

(** [two_wallets] after Alice withdrew 500 to her bank account. *)
Definition after_withdrawal : Store :=
  snd (WalletService.processWithdrawal accepting_gateway 0 "alice" 500
         "0123456789" "058" "Alice A" None two_wallets).

(** Alice and Bob with the empty wallets they registered with, on a
    store that commits three writes and rejects the fourth. *)
Definition new_wallets : Store :=
  {| wallets := [wallet_with 0%nat "alice" 0; wallet_with 1%nat "bob" 0];
     transactions := []; tips := []; referrals := []; users := [];
     nextUuid := 2%nat; clock := 1700000000000;
     faults := [None; None; None; Some "UNAVAILABLE"] |}.

(** Alice funded her new wallet with 1000 and withdrew 400 to her bank
    account, under the reference WD_3. *)
Definition alice_withdrew : Store :=
  snd (WalletService.processWithdrawal accepting_gateway 0 "alice" 400
         "0123456789" "058" "Alice A" None
         (snd (WalletService.creditWallet "alice" 1000
                 "Wallet funding via Paystack" (Some "PAY_1") None
                 (with_faults [] new_wallets)))).

(** The referral chain with two bonuses still to pay: 100 to ref1, who
    has a wallet, and 50 to ref2, who has none. *)
Definition pending_bonuses : Store :=
  with_referrals
    (fun _ =>
       [Referral.createReferralData
          {| Referral.p_id := 2%nat; Referral.p_referrerId := "ref1";
             Referral.p_referredId := "dave"; Referral.p_level := Some 1;
             Referral.p_bonus := Some 100;
             Referral.p_status := Some Referral.pending;
             Referral.p_referralCode := Some "CODE-ref1";
             Referral.p_platform := Some mobile_app |}
          1699000000000;
        Referral.createReferralData
          {| Referral.p_id := 3%nat; Referral.p_referrerId := "ref2";
             Referral.p_referredId := "dave"; Referral.p_level := Some 2;
             Referral.p_bonus := Some 50;
             Referral.p_status := Some Referral.pending;
             Referral.p_referralCode := Some "";
             Referral.p_platform := Some mobile_app |}
          1699000000000])
    (with_nextUuid 4%nat referral_chain).

(** * Properties *)

(** ** Documents and queries *)

Section CollectionFacts.

Context {D : Type} (doc_id : D -> DocId).

Lemma ids_below_fresh n i c :
  ids_below doc_id n c = true -> (n <= i)%nat -> doc_exists doc_id i c = false.
Proof.
  unfold ids_below, doc_exists. intros Hb Hi.
  induction c as [|d c IH]; simpl in *; [reflexivity|].
  apply andb_prop in Hb. destruct Hb as [Hd Hc].
  apply Nat.ltb_lt in Hd.
  rewrite (IH Hc), orb_false_r. apply Nat.eqb_neq. lia.
Qed.

Lemma ids_below_mono n m c :
  ids_below doc_id n c = true -> (n <= m)%nat -> ids_below doc_id m c = true.
Proof.
  unfold ids_below. rewrite !forallb_forall. intros H Hnm d Hd.
  specialize (H d Hd). apply Nat.ltb_lt in H. apply Nat.ltb_lt. lia.
Qed.

Lemma doc_set_fresh i d c :
  doc_exists doc_id i c = false -> doc_set doc_id i d c = c ++ [d].
Proof. unfold doc_set. intros ->. reflexivity. Qed.

Lemma find_doc_exists p c d :
  find p c = Some d -> doc_exists doc_id (doc_id d) c = true.
Proof.
  unfold doc_exists. intros H. apply find_some in H. destruct H as [Hin _].
  apply existsb_exists. exists d. split; [assumption|apply Nat.eqb_refl].
Qed.

Lemma doc_exists_update i j f c :
  (forall d, doc_id (f d) = doc_id d) ->
  doc_exists doc_id i (doc_update doc_id j f c) = doc_exists doc_id i c.
Proof.
  intros Hf. unfold doc_exists, doc_update.
  induction c as [|d c IH]; simpl; [reflexivity|].
  rewrite IH. destruct (Nat.eqb (doc_id d) j); [rewrite Hf|]; reflexivity.
Qed.

Lemma doc_exists_app i c c' :
  doc_exists doc_id i (c ++ c')
  = doc_exists doc_id i c || doc_exists doc_id i c'.
Proof. unfold doc_exists. apply existsb_app. Qed.

(** A query by a field the update leaves alone returns the same
    document, updated when it is the one addressed. *)
Lemma find_doc_update p i f c :
  (forall d, p (f d) = p d) ->
  find p (doc_update doc_id i f c)
  = option_map (fun d => if Nat.eqb (doc_id d) i then f d else d) (find p c).
Proof.
  intros Hf. unfold doc_update.
  induction c as [|d c IH]; simpl; [reflexivity|].
  destruct (Nat.eqb (doc_id d) i) eqn:E.
  - rewrite Hf. destruct (p d); simpl; [rewrite E; reflexivity|exact IH].
  - destruct (p d); simpl; [rewrite E; reflexivity|exact IH].
Qed.

Lemma find_app_none p (c c' : list D) :
  find p c = None -> find p (c ++ c') = find p c'.
Proof.
  induction c as [|d c IH]; simpl; [reflexivity|].
  destruct (p d); [discriminate|exact IH].
Qed.

Lemma find_app_some p (c c' : list D) d :
  find p c = Some d -> find p (c ++ c') = Some d.
Proof.
  induction c as [|x c IH]; simpl; [discriminate|].
  destruct (p x); [trivial|exact IH].
Qed.

(** With unique ids, two documents found in a collection that carry
    the same id are the same document. *)
Lemma unique_ids_inj c d d' :
  unique_ids doc_id c = true -> In d c -> In d' c -> doc_id d = doc_id d' -> d = d'.
Proof.
  induction c as [|x c IH]; simpl; [contradiction|].
  intros Hu Hd Hd' E. apply andb_prop in Hu. destruct Hu as [Hx Hu].
  apply negb_true_iff in Hx.
  assert (Hnot : forall y, In y c -> doc_id y <> doc_id x).
  { intros y Hy Ey. unfold doc_exists in Hx.
    assert (existsb (fun d0 => Nat.eqb (doc_id d0) (doc_id x)) c = true).
    { apply existsb_exists. exists y. split; [assumption|].
      apply Nat.eqb_eq. exact Ey. }
    congruence. }
  destruct Hd as [->|Hd], Hd' as [->|Hd']; auto.
  - exfalso. apply (Hnot d' Hd'). symmetry. exact E.
  - exfalso. apply (Hnot d Hd). exact E.
Qed.

End CollectionFacts.

(** ** Running asynchronous code *)

Lemma await_Returned {A B} (m : Promise A) (k : A -> Promise B) st b st' :
  await m k st = (Returned b, st') ->
  exists a st1, m st = (Returned a, st1) /\ k a st1 = (Returned b, st').
Proof.
  unfold await. destruct (m st) as [[a|msg] st1]; intros H.
  - exists a, st1. split; [reflexivity|exact H].
  - discriminate.
Qed.

(** A write that returned ran its effect on the store, the fault plan
    apart. *)
Lemma firestore_write_Returned effect st u st' :
  firestore_write effect st = (Returned u, st') ->
  exists fs, effect (with_faults fs st) = Some st'.
Proof.
  unfold firestore_write, commit.
  destruct (faults st) as [|[msg|] rest] eqn:E.
  - destruct (effect st) eqn:Ee; intros H; inversion H; subst.
    exists []. rewrite <- E. destruct st; exact Ee.
  - discriminate.
  - destruct (effect (with_faults rest st)) eqn:Ee; intros H; inversion H; subst.
    exists rest. exact Ee.
Qed.

(** A write leaves every collection as it was when it throws. *)
Lemma firestore_write_Threw effect st msg st' :
  firestore_write effect st = (Threw msg, st') ->
  exists fs, st' = with_faults fs st.
Proof.
  unfold firestore_write, commit.
  destruct (faults st) as [|[m|] rest] eqn:E.
  - destruct (effect st) eqn:Ee; intros H; inversion H; subst.
    exists []. rewrite <- E. destruct st'; reflexivity.
  - intros H; inversion H; subst. exists rest. reflexivity.
  - destruct (effect (with_faults rest st)) eqn:Ee; intros H; inversion H; subst.
    exists rest. reflexivity.
Qed.

(** ** Limit policy *)

Import WalletService.

Lemma fold_left_sum_shift {A} (f : A -> Z) l acc :
  fold_left (fun sum t => sum + f t) l acc
  = acc + fold_left (fun sum t => sum + f t) l 0.
Proof.
  revert acc. induction l as [|x l IH]; intros acc; cbn [fold_left]; [lia|].
  rewrite (IH (acc + f x)), (IH (0 + f x)). lia.
Qed.

(** What today's transactions of a type add up to, one transaction at
    a time. *)
Lemma todayTotal_cons today type t txs :
  todayTotal today type (t :: txs)
  = (if (today <=? Transaction.createdAt t)
        && type_matches type (Transaction.type t)
     then Z.abs (Transaction.amount t) else 0)
    + todayTotal today type txs.
Proof.
  unfold todayTotal, todayTransactions. simpl.
  destruct ((today <=? Transaction.createdAt t)
            && type_matches type (Transaction.type t)); simpl.
  - rewrite fold_left_sum_shift. unfold Math_abs. lia.
  - lia.
Qed.

Lemma todayTotal_nonneg today type txs : 0 <= todayTotal today type txs.
Proof.
  induction txs as [|t txs IH]; [unfold todayTotal; simpl; lia|].
  rewrite todayTotal_cons.
  destruct ((today <=? Transaction.createdAt t)
            && type_matches type (Transaction.type t)); lia.
Qed.

(** The day [setHours0] returns starts at local midnight and holds
    [now]. *)
Lemma setHours0_midnight utcOffset now :
  (setHours0 utcOffset now + utcOffset) mod msPerDay = 0
  /\ setHours0 utcOffset now <= now < setHours0 utcOffset now + msPerDay.
Proof.
  unfold setHours0, msPerDay.
  pose proof (Z.mod_pos_bound (now + utcOffset) 86400000 ltac:(lia)) as Hb.
  split; [|lia].
  replace (now - (now + utcOffset) mod 86400000 + utcOffset)
    with (86400000 * ((now + utcOffset) / 86400000)).
  - rewrite Z.mul_comm. apply Z_mod_mult.
  - pose proof (Z.div_mod (now + utcOffset) 86400000 ltac:(lia)). lia.
Qed.

Lemma setHours0_local_midnight utcOffset now :
  setHours0 utcOffset now = local_midnight utcOffset now.
Proof.
  unfold setHours0, local_midnight, msPerDay.
  pose proof (Z.div_mod (now + utcOffset) 86400000 ltac:(lia)). lia.
Qed.

Lemma sum_abs_cons t l :
  sum_abs (t :: l) = Z.abs (Transaction.amount t) + sum_abs l.
Proof. reflexivity. Qed.

(** The sum the validator takes is the sum of the absolute amounts of
    the transactions of the counted type dated at or after [today]. *)
Lemma todayTotal_sum_abs today type txs :
  todayTotal today type txs
  = sum_abs (of_type_since (counted_as type) today txs).
Proof.
  induction txs as [|t txs IH]; [reflexivity|].
  rewrite todayTotal_cons, IH. unfold of_type_since. cbn [filter].
  unfold has_type, counted_as.
  destruct (today <=? Transaction.createdAt t);
    destruct type; destruct (Transaction.type t);
    cbn [andb type_matches]; rewrite ?sum_abs_cons; lia.
Qed.

(** C8. [validateTransactionLimits] accepts an amount exactly when it lies
    between the minimum and the maximum of its type and, added to the sum
    of the absolute amounts of the transactions of the same type (the tips
    sent, for a tip) among those it is handed that were created since local
    midnight, stays within the daily limit; the bounds are tip
    [10, 50 000] / 100 000, withdrawal [100, 500 000] / 1 000 000 and
    deposit [100, 2 000 000] / 5 000 000; a rejected amount is reported
    with the first bound it violates, in the order minimum, maximum, daily
    limit. *)
Theorem validateTransactionLimits_spec utcOffset now amount type txs :
  let lo := match type with tip => 10 | withdrawal => 100 | deposit => 100 end in
  let hi :=
    match type with
    | tip => 50000 | withdrawal => 500000 | deposit => 2000000
    end in
  let cap :=
    match type with
    | tip => 100000 | withdrawal => 1000000 | deposit => 5000000
    end in
  let spent :=
    sum_abs
      (of_type_since (counted_as type) (local_midnight utcOffset now) txs) in
  ((local_midnight utcOffset now + utcOffset) mod 86400000 = 0
   /\ local_midnight utcOffset now <= now
      < local_midnight utcOffset now + 86400000)
  /\ (valid (validateTransactionLimits utcOffset now amount type txs) = true
      <-> (lo <= amount <= hi /\ spent + amount <= cap))
  /\ validateTransactionLimits utcOffset now amount type txs
     = (if amount <? lo then
          {| valid := false; limitError := Some (MinimumAmount type lo) |}
        else if hi <? amount then
          {| valid := false; limitError := Some (MaximumAmount type hi) |}
        else if cap <? spent + amount then
          {| valid := false;
             limitError := Some (DailyLimitExceeded type cap) |}
        else {| valid := true; limitError := None |}).
Proof.
  intros lo hi cap spent.
  split.
  { rewrite <- setHours0_local_midnight. apply setHours0_midnight. }
  assert (Hrun : validateTransactionLimits utcOffset now amount type txs
                 = (if amount <? lo then
                      {| valid := false;
                         limitError := Some (MinimumAmount type lo) |}
                    else if hi <? amount then
                      {| valid := false;
                         limitError := Some (MaximumAmount type hi) |}
                    else if cap <? spent + amount then
                      {| valid := false;
                         limitError := Some (DailyLimitExceeded type cap) |}
                    else {| valid := true; limitError := None |})).
  { unfold validateTransactionLimits.
    rewrite todayTotal_sum_abs, setHours0_local_midnight.
    subst lo hi cap spent. destruct type; reflexivity. }
  split; [|exact Hrun].
  rewrite Hrun.
  destruct (amount <? lo) eqn:Emin;
    [apply Z.ltb_lt in Emin; simpl; split; [discriminate|lia]|].
  apply Z.ltb_ge in Emin.
  destruct (hi <? amount) eqn:Emax;
    [apply Z.ltb_lt in Emax; simpl; split; [discriminate|lia]|].
  apply Z.ltb_ge in Emax.
  destruct (cap <? spent + amount) eqn:Ed; simpl.
  - apply Z.ltb_lt in Ed. split; [discriminate|lia].
  - apply Z.ltb_ge in Ed. split; [lia|reflexivity].
Qed.

(** A day with withdrawals of 450 000 and 400 000, a tip sent and a
    withdrawal of the day before: 850 000 count, so that 150 000 more is
    accepted and 200 000 more exceeds the daily limit. *)
Lemma validateTransactionLimits_spec_witness :
  sum_abs
    (of_type_since (counted_as withdrawal)
       (local_midnight 3600000 1700000000000) busy_day)
  = 850000
  /\ validateTransactionLimits 3600000 1700000000000 150000 withdrawal
       busy_day
     = {| valid := true; limitError := None |}
  /\ validateTransactionLimits 3600000 1700000000000 200000 withdrawal
       busy_day
     = {| valid := false;
          limitError := Some (DailyLimitExceeded withdrawal 1000000) |}.
Proof.
  split; [vm_compute; reflexivity|]. split.
  - rewrite (proj2 (proj2 (validateTransactionLimits_spec 3600000
                             1700000000000 150000 withdrawal busy_day))).
    vm_compute. reflexivity.
  - rewrite (proj2 (proj2 (validateTransactionLimits_spec 3600000
                             1700000000000 200000 withdrawal busy_day))).
    vm_compute. reflexivity.
Defined.

(** ** Tips *)

(** C9. A tip whose sender is its recipient is refused with the error
    "Cannot tip yourself" and leaves the store as it found it: no wallet
    changes, and no tip and no transaction is written. *)
Theorem processTip_self_tip st userId0 amount platform description isAnonymous :
  processTip userId0 userId0 amount platform description isAnonymous st
  = (Returned {| success := false; transactionId := None; newBalance := None;
                 error := Some "Cannot tip yourself" |},
     st).
Proof.
  unfold processTip, try_catch. rewrite String.eqb_refl. reflexivity.
Qed.

Lemma try_catch_Returned {A} (body : Promise A) handler st a st' :
  try_catch body handler st = (Returned a, st') ->
  body st = (Returned a, st')
  \/ exists msg st1, body st = (Threw msg, st1)
                     /\ handler msg st1 = (Returned a, st').
Proof.
  unfold try_catch. destruct (body st) as [[x|msg] st1]; intros H.
  - left. exact H.
  - right. exists msg, st1. split; [reflexivity|exact H].
Qed.

Ltac inv H := inversion H; clear H; subst.

(** Follow a run that returned, one statement at a time. *)
Ltac step_returned :=
  match goal with
  | H : await _ _ _ = (Returned _, _) |- _ =>
      apply await_Returned in H;
      let a := fresh "a" in let s := fresh "st" in
      destruct H as (a & s & ? & H)
  | H : resolve _ _ = (Returned _, _) |- _ => inv H
  | H : throw _ _ = (Returned _, _) |- _ => discriminate H
  | H : getWalletByUserId _ _ = (Returned _, _) |- _ =>
      unfold getWalletByUserId in H; inv H
  | H : new_Date _ = (Returned _, _) |- _ => unfold new_Date in H; inv H
  | H : uuidv4 _ = (Returned _, _) |- _ => unfold uuidv4 in H; inv H
  | H : firestore_write _ _ = (Returned _, _) |- _ =>
      apply firestore_write_Returned in H;
      let fs := fresh "fs" in destruct H as [fs H]; cbn beta in H
  | H : wallets_update _ _ _ = (Returned _, _) |- _ => unfold wallets_update in H
  | H : wallets_set _ _ _ = (Returned _, _) |- _ => unfold wallets_set in H
  | H : transactions_set _ _ _ = (Returned _, _) |- _ =>
      unfold transactions_set in H
  | H : tips_set _ _ _ = (Returned _, _) |- _ => unfold tips_set in H
  | H : createWallet _ _ _ = (Returned _, _) |- _ => unfold createWallet in H
  | H : Some _ = Some _ |- _ => inv H
  | H : None = Some _ |- _ => discriminate H
  | H : (if ?b then _ else _) = Some _ |- _ => destruct b eqn:?
  | H : (if ?b then _ else _) _ = (Returned _, _) |- _ => destruct b eqn:?
  | H : (match ?o with Some _ => _ | None => _ end) _ = (Returned _, _) |- _ =>
      destruct o eqn:?
  end.

Lemma tipFee_half_up platform G :
  100 * tipFee platform G <= 2 * G + 50 < 100 * tipFee platform G + 100.
Proof.
  assert (H : tipFee platform G = (4 * G + 100) / 200)
    by (destruct platform; unfold tipFee, Math_round; f_equal; lia).
  rewrite H.
  pose proof (Z.div_mod (4 * G + 100) 200 ltac:(lia)).
  pose proof (Z.mod_pos_bound (4 * G + 100) 200 ltac:(lia)). lia.
Qed.

Arguments doc_exists : simpl never.
Arguments doc_update : simpl never.
Arguments doc_set : simpl never.

Ltac store_simpl :=
  cbn [wallets transactions tips referrals users nextUuid clock faults
       with_wallets with_transactions with_tips with_referrals with_nextUuid
       with_faults] in *.

Ltac run_returned := repeat (step_returned; store_simpl).

Lemma spread_id w u : Wallet.id (Wallet.spread w u) = Wallet.id w.
Proof. reflexivity. Qed.

Lemma spread_byUser userId0 u w :
  byUser userId0 (Wallet.spread w u) = byUser userId0 w.
Proof. reflexivity. Qed.

Lemma unique_ids_app_fresh (ws : list Wallet.IWallet) w n :
  unique_ids Wallet.id ws = true ->
  ids_below Wallet.id n ws = true ->
  (n <= Wallet.id w)%nat ->
  unique_ids Wallet.id (ws ++ [w]) = true.
Proof.
  intros Hu Hb Hn. induction ws as [|x ws IH]; simpl in *; [reflexivity|].
  apply andb_prop in Hu. destruct Hu as [Hx Hu].
  apply andb_prop in Hb. destruct Hb as [Hxn Hb].
  rewrite (IH Hu Hb), andb_true_r.
  rewrite doc_exists_app. apply negb_true_iff in Hx. rewrite Hx.
  unfold doc_exists. simpl. apply Nat.ltb_lt in Hxn.
  replace (Nat.eqb (Wallet.id w) (Wallet.id x)) with false; [reflexivity|].
  symmetry. apply Nat.eqb_neq. lia.
Qed.

(** The two wallet updates of a tip, on a collection with unique ids:
    each party's query then returns its own wallet, updated with its own
    fields. *)
Lemma tip_updates_found ws senderId recipientId sender recipient us ur :
  unique_ids Wallet.id ws = true ->
  String.eqb senderId recipientId = false ->
  find (byUser senderId) ws = Some sender ->
  find (byUser recipientId) ws = Some recipient ->
  find (byUser senderId)
    (doc_update Wallet.id (Wallet.id recipient) (fun w => Wallet.spread w ur)
       (doc_update Wallet.id (Wallet.id sender) (fun w => Wallet.spread w us)
          ws))
  = Some (Wallet.spread sender us)
  /\ find (byUser recipientId)
       (doc_update Wallet.id (Wallet.id recipient)
          (fun w => Wallet.spread w ur)
          (doc_update Wallet.id (Wallet.id sender)
             (fun w => Wallet.spread w us) ws))
     = Some (Wallet.spread recipient ur).
Proof.
  intros Hu Hne Hs Hr.
  assert (Hid : Nat.eqb (Wallet.id sender) (Wallet.id recipient) = false).
  { apply Nat.eqb_neq. intros E.
    pose proof (find_some _ _ Hs) as [Hins Hbs].
    pose proof (find_some _ _ Hr) as [Hinr Hbr].
    pose proof (unique_ids_inj Wallet.id ws sender recipient Hu Hins Hinr E).
    subst recipient. unfold byUser in *.
    apply String.eqb_eq in Hbs, Hbr. rewrite Hbs in Hbr. subst recipientId.
    rewrite String.eqb_refl in Hne. discriminate. }
  rewrite !find_doc_update by (intros; apply spread_byUser).
  rewrite Hs, Hr. cbn [option_map].
  rewrite !Nat.eqb_refl, (Nat.eqb_sym (Wallet.id recipient)), Hid.
  rewrite spread_id, Hid, Nat.eqb_refl. split; reflexivity.
Qed.

Lemma store_ok_parts st :
  store_ok st = true ->
  unique_ids Wallet.id (wallets st) = true
  /\ ids_below Wallet.id (nextUuid st) (wallets st) = true
  /\ ids_below Transaction.id (nextUuid st) (transactions st) = true
  /\ ids_below Tip.id (nextUuid st) (tips st) = true
  /\ ids_below Referral.id (nextUuid st) (referrals st) = true.
Proof.
  unfold store_ok. intros H.
  repeat (apply andb_prop in H; destruct H as [H ?]). auto.
Qed.

(** Transactions written under distinct ids drawn after those in use are
    appended in the order of the writes. *)
Lemma doc_set_transactions2 n txs i1 i2 (t1 t2 : Transaction.ITransaction) :
  ids_below Transaction.id n txs = true ->
  Transaction.id t1 = i1 -> Transaction.id t2 = i2 ->
  (n <= i1)%nat -> (n <= i2)%nat -> i1 <> i2 ->
  doc_set Transaction.id i2 t2 (doc_set Transaction.id i1 t1 txs)
  = txs ++ [t1; t2].
Proof.
  intros Hb E1 E2 H1 H2 H12.
  rewrite (doc_set_fresh _ i1) by (eapply ids_below_fresh; eauto).
  rewrite (doc_set_fresh _ i2).
  2:{ rewrite doc_exists_app, (ids_below_fresh _ n) by assumption.
      unfold doc_exists. simpl. rewrite orb_false_r, E1.
      apply Nat.eqb_neq. assumption. }
  rewrite <- !app_assoc. reflexivity.
Qed.

Lemma doc_set_transactions3 n txs i1 i2 i3
    (t1 t2 t3 : Transaction.ITransaction) :
  ids_below Transaction.id n txs = true ->
  Transaction.id t1 = i1 -> Transaction.id t2 = i2 ->
  Transaction.id t3 = i3 ->
  (n <= i1)%nat -> (n <= i2)%nat -> (n <= i3)%nat ->
  i1 <> i2 -> i1 <> i3 -> i2 <> i3 ->
  doc_set Transaction.id i3 t3
    (doc_set Transaction.id i2 t2 (doc_set Transaction.id i1 t1 txs))
  = txs ++ [t1; t2; t3].
Proof.
  intros Hb E1 E2 E3 H1 H2 H3 H12 H13 H23.
  rewrite (doc_set_transactions2 n txs i1 i2) by assumption.
  rewrite (doc_set_fresh _ i3).
  2:{ rewrite doc_exists_app, (ids_below_fresh _ n) by assumption.
      unfold doc_exists. simpl. rewrite orb_false_r, E1, E2.
      apply orb_false_iff. split; apply Nat.eqb_neq; assumption. }
  rewrite <- !app_assoc. reflexivity.
Qed.

(** The wallet a tip creates for a recipient that has none joins a
    collection with unique ids without disturbing the sender's query. *)
Lemma created_wallet_found ws n senderId recipientId sender currency0 now :
  unique_ids Wallet.id ws = true ->
  ids_below Wallet.id n ws = true ->
  find (byUser senderId) ws = Some sender ->
  find (byUser recipientId) ws = None ->
  let w := Wallet.createWalletData n recipientId currency0 now in
  doc_set Wallet.id n w ws = ws ++ [w]
  /\ unique_ids Wallet.id (ws ++ [w]) = true
  /\ find (byUser senderId) (ws ++ [w]) = Some sender
  /\ find (byUser recipientId) (ws ++ [w]) = Some w.
Proof.
  intros Hu Hb Hs Hr w.
  split; [apply doc_set_fresh; eapply ids_below_fresh; eauto|].
  split; [eapply unique_ids_app_fresh; eauto|].
  split; [apply find_app_some; assumption|].
  rewrite find_app_none by assumption.
  unfold byUser. simpl. rewrite String.eqb_refl. reflexivity.
Qed.

(** C2. A tip of gross amount [G] that succeeds withholds the fee
    [F = Math.round (G * 0.02)], the integer nearest to [G / 50] with ties
    rounded up; it takes exactly [G] from the sender's balance and adds
    exactly [G - F] to the recipient's (counted from zero when the
    recipient's wallet is created by the tip); and the transactions it
    writes are the sender's [tip_sent] of [- G] and the recipient's
    [tip_received] of [G - F], all completed, preceded, exactly when
    [F > 0], by one [fee] transaction debiting [F] from the sender (amount
    [- F]). *)
Theorem processTip_conservation st senderId recipientId G platform
    description isAnonymous r st' :
  store_ok st = true ->
  processTip senderId recipientId G platform description isAnonymous st
  = (Returned r, st') ->
  success r = true ->
  (tipFee platform G = Math_round (G * 2) 100
   /\ 100 * tipFee platform G <= 2 * G + 50 < 100 * tipFee platform G + 100)
  /\ (exists before,
        balanceOf senderId st = Some before
        /\ balanceOf senderId st' = Some (before - G))
  /\ balanceOf recipientId st'
     = Some (or_zero (balanceOf recipientId st) + (G - tipFee platform G))
  /\ exists written,
       transactions st' = transactions st ++ written
       /\ map entry written
          = (if 0 <? tipFee platform G
             then [(Transaction.fee, senderId, - tipFee platform G)]
             else [])
            ++ [(Transaction.tip_sent, senderId, - G);
                (Transaction.tip_received, recipientId,
                 G - tipFee platform G)]
       /\ forallb
            (fun t => match Transaction.status t with
                      | Transaction.completed => true
                      | _ => false
                      end)
            written = true.
Proof.
  intros Hok Hrun Hs.
  split; [split; [destruct platform; reflexivity|apply tipFee_half_up]|].
  unfold processTip in Hrun.
  apply try_catch_Returned in Hrun.
  destruct Hrun as [Hrun|(msg & st1 & _ & Hh)]; [|inv Hh; discriminate].
  apply store_ok_parts in Hok. destruct Hok as (Hu & Hw & Ht & _).
  run_returned.
  all: unfold balanceOf; store_simpl.
  all: try match goal with
    | Hs : find (byUser ?s) (wallets ?st) = Some ?sw,
      Hr : find (byUser ?r) (wallets ?st) = None,
      Hu : unique_ids Wallet.id (wallets ?st) = true,
      Hw : ids_below Wallet.id _ (wallets ?st) = true |- _ =>
        destruct (created_wallet_found (wallets st) (nextUuid st) s r sw
                    (Some (Wallet.currency sw)) (clock st) Hu Hw Hs Hr)
          as (Hset & Hu' & Hs' & Hr');
        rewrite Hset in *; rewrite Hr; clear Hset
    end.
  all: match goal with
    | Hne : String.eqb ?s ?r = false,
      Hs : find (byUser ?s) ?ws = Some ?sw,
      Hr : find (byUser ?r) ?ws = Some ?rw,
      Hu1 : unique_ids Wallet.id ?ws = true |- _ =>
        epose proof (tip_updates_found ws s r sw rw _ _ Hu1 Hne Hs Hr)
          as [Hfs Hfr];
        rewrite Hfs, Hfr
    end.
  all: split;
    [eexists; split; [rewrite Heqo; reflexivity|reflexivity]|].
  all: split; [rewrite ?Heqo0; cbn; f_equal; lia|].
  all: eexists; split;
    [first [eapply doc_set_transactions3|eapply doc_set_transactions2];
     [eassumption|..]; first [reflexivity|lia]
    |split; reflexivity].
Qed.

(** ** Credits and debits *)

Ltac unfold_run :=
  unfold try_catch, await, resolve, throw, new_Date, uuidv4,
    getWalletByUserId, createWallet, wallets_update, wallets_set,
    transactions_set, tips_set, referrals_set, referrals_update,
    firestore_write, commit,
    ReferralService.getUserById, ReferralService.getReferralByUsers.

Ltac store_simpl_goal :=
  cbn beta iota delta
    [wallets transactions tips referrals users nextUuid clock faults
     with_wallets with_transactions with_tips with_referrals with_nextUuid
     with_faults].

(** Run a computation forward on a store that commits every write. *)
Ltac run_reliable Hfaults :=
  unfold_run; repeat (store_simpl_goal; rewrite ?Hfaults).

Lemma find_updated ws userId0 w fields :
  find (byUser userId0) ws = Some w ->
  find (byUser userId0)
    (doc_update Wallet.id (Wallet.id w) (fun x => Wallet.spread x fields) ws)
  = Some (Wallet.spread w fields).
Proof.
  intros H. rewrite find_doc_update by (intros; apply spread_byUser).
  rewrite H. cbn [option_map]. rewrite Nat.eqb_refl. reflexivity.
Qed.

Lemma doc_set_transactions1 n txs i (t : Transaction.ITransaction) :
  ids_below Transaction.id n txs = true -> (n <= i)%nat ->
  doc_set Transaction.id i t txs = txs ++ [t].
Proof.
  intros Hb Hi. apply doc_set_fresh. eapply ids_below_fresh; eauto.
Qed.

(** [creditWallet] on an existing wallet: the balance and [totalDeposits]
    grow by the amount and one completed [deposit] is written, whatever the
    description says. *)
Lemma creditWallet_effects st userId0 amount description reference metadata w :
  store_ok st = true -> faults st = [] ->
  find (byUser userId0) (wallets st) = Some w ->
  exists st' w' t,
    creditWallet userId0 amount description reference metadata st
    = (Returned (succeeded (nextUuid st) (Wallet.balance w + amount)), st')
    /\ find (byUser userId0) (wallets st') = Some w'
    /\ Wallet.balance w' = Wallet.balance w + amount
    /\ totals w'
       = (Wallet.totalDeposits w + amount, Wallet.totalWithdrawals w,
          Wallet.totalTipsSent w, Wallet.totalTipsReceived w,
          Wallet.totalReferralEarnings w)
    /\ transactions st' = transactions st ++ [t]
    /\ entry t = (Transaction.deposit, userId0, amount)
    /\ is_completed t = true.
Proof.
  intros Hok Hf Hw. apply store_ok_parts in Hok.
  destruct Hok as (_ & _ & Ht & _).
  unfold creditWallet. run_reliable Hf. rewrite Hw. run_reliable Hf.
  rewrite (find_doc_exists Wallet.id _ _ _ Hw). run_reliable Hf.
  do 3 eexists. split; [reflexivity|]. store_simpl_goal.
  rewrite (find_updated _ _ _ _ Hw).
  rewrite (doc_set_transactions1 (nextUuid st)) by (assumption || lia).
  repeat split.
Qed.

(** [processReferralBonus] on an existing wallet: the balance and
    [totalReferralEarnings] grow by the bonus and one completed
    [referral_bonus] is written. *)
Lemma processReferralBonus_effects st referrerId referredId level bonusAmount w :
  store_ok st = true -> faults st = [] ->
  find (byUser referrerId) (wallets st) = Some w ->
  exists st' w' t,
    processReferralBonus referrerId referredId level bonusAmount st
    = (Returned (succeeded (nextUuid st) (Wallet.balance w + bonusAmount)),
       st')
    /\ find (byUser referrerId) (wallets st') = Some w'
    /\ Wallet.balance w' = Wallet.balance w + bonusAmount
    /\ totals w'
       = (Wallet.totalDeposits w, Wallet.totalWithdrawals w,
          Wallet.totalTipsSent w, Wallet.totalTipsReceived w,
          Wallet.totalReferralEarnings w + bonusAmount)
    /\ transactions st' = transactions st ++ [t]
    /\ entry t = (Transaction.referral_bonus, referrerId, bonusAmount)
    /\ is_completed t = true.
Proof.
  intros Hok Hf Hw. apply store_ok_parts in Hok.
  destruct Hok as (_ & _ & Ht & _).
  unfold processReferralBonus. run_reliable Hf. rewrite Hw. run_reliable Hf.
  rewrite (find_doc_exists Wallet.id _ _ _ Hw). run_reliable Hf.
  do 3 eexists. split; [reflexivity|]. store_simpl_goal.
  rewrite (find_updated _ _ _ _ Hw).
  rewrite (doc_set_transactions1 (nextUuid st)) by (assumption || lia).
  repeat split.
Qed.

(** The credit half of [processTip] on an existing recipient wallet: the
    balance and [totalTipsReceived] grow by the net amount and, among the
    transactions of the tip, one completed [tip_received] is the
    recipient's. *)
Lemma processTip_credit_effects st senderId recipientId G platform description
    isAnonymous sender w :
  store_ok st = true -> faults st = [] ->
  String.eqb senderId recipientId = false ->
  find (byUser senderId) (wallets st) = Some sender ->
  G <= Wallet.balance sender ->
  find (byUser recipientId) (wallets st) = Some w ->
  exists st' w' written t,
    processTip senderId recipientId G platform description isAnonymous st
    = (Returned (succeeded (nextUuid st) (Wallet.balance sender - G)), st')
    /\ find (byUser recipientId) (wallets st') = Some w'
    /\ Wallet.balance w' = Wallet.balance w + (G - tipFee platform G)
    /\ totals w'
       = (Wallet.totalDeposits w, Wallet.totalWithdrawals w,
          Wallet.totalTipsSent w,
          Wallet.totalTipsReceived w + (G - tipFee platform G),
          Wallet.totalReferralEarnings w)
    /\ transactions st' = transactions st ++ written
    /\ filter (has_type Transaction.tip_received) written = [t]
    /\ entry t
       = (Transaction.tip_received, recipientId, G - tipFee platform G)
    /\ is_completed t = true.
Proof.
  intros Hok Hf Hne Hs HG Hw. apply store_ok_parts in Hok.
  destruct Hok as (Hu & _ & Ht & _).
  unfold processTip. rewrite Hne. run_reliable Hf. rewrite Hs, Hw.
  run_reliable Hf.
  replace (Wallet.balance sender <? G) with false
    by (symmetry; apply Z.ltb_ge; exact HG).
  run_reliable Hf.
  rewrite (find_doc_exists Wallet.id _ _ _ Hs). run_reliable Hf.
  rewrite doc_exists_update by reflexivity.
  rewrite (find_doc_exists Wallet.id _ _ _ Hw). run_reliable Hf.
  destruct (tip_updates_found (wallets st) senderId recipientId sender w
              {| Wallet.u_balance := Some (Wallet.balance sender - G);
                 Wallet.u_totalDeposits := None;
                 Wallet.u_totalWithdrawals := None;
                 Wallet.u_totalTipsSent :=
                   Some (Wallet.totalTipsSent sender + G);
                 Wallet.u_totalTipsReceived := None;
                 Wallet.u_totalReferralEarnings := None;
                 Wallet.u_lastTransactionAt := Some (clock st);
                 Wallet.u_updatedAt := Some (clock st) |}
              {| Wallet.u_balance :=
                   Some (Wallet.balance w + (G - tipFee platform G));
                 Wallet.u_totalDeposits := None;
                 Wallet.u_totalWithdrawals := None;
                 Wallet.u_totalTipsSent := None;
                 Wallet.u_totalTipsReceived :=
                   Some (Wallet.totalTipsReceived w + (G - tipFee platform G));
                 Wallet.u_totalReferralEarnings := None;
                 Wallet.u_lastTransactionAt := Some (clock st);
                 Wallet.u_updatedAt := Some (clock st) |}
              Hu Hne Hs Hw) as [_ Hfr].
  destruct (0 <? tipFee platform G) eqn:Efee; run_reliable Hf;
    do 4 eexists; (split; [reflexivity|]); store_simpl_goal;
    (split; [exact Hfr|]);
    (split; [reflexivity|]); (split; [reflexivity|]);
    (split;
     [first [eapply doc_set_transactions3|eapply doc_set_transactions2];
      [eassumption|..]; first [reflexivity|lia]|]);
    repeat split.
Qed.

(** C7, as the code has it.  On an existing wallet, a credit adds its
    amount to the balance, adds it to one running total and to no other,
    and writes exactly one completed transaction; the total and the type
    of the transaction are those of the operation that credits, whatever
    the reason given: [creditWallet] is the deposit ([totalDeposits], type
    [deposit]) for every description, [processReferralBonus] the referral
    bonus ([totalReferralEarnings], type [referral_bonus]) and the credit
    half of [processTip] the received tip ([totalTipsReceived], type
    [tip_received], for the net amount of the tip). *)
Theorem credit_by_category st userId0 amount w :
  store_ok st = true -> faults st = [] ->
  find (byUser userId0) (wallets st) = Some w ->
  (forall description reference metadata,
     exists st' w' t,
       creditWallet userId0 amount description reference metadata st
       = (Returned (succeeded (nextUuid st) (Wallet.balance w + amount)), st')
       /\ find (byUser userId0) (wallets st') = Some w'
       /\ Wallet.balance w' = Wallet.balance w + amount
       /\ totals w'
          = (Wallet.totalDeposits w + amount, Wallet.totalWithdrawals w,
             Wallet.totalTipsSent w, Wallet.totalTipsReceived w,
             Wallet.totalReferralEarnings w)
       /\ transactions st' = transactions st ++ [t]
       /\ entry t = (Transaction.deposit, userId0, amount)
       /\ is_completed t = true)
  /\ (forall referredId level,
        exists st' w' t,
          processReferralBonus userId0 referredId level amount st
          = (Returned (succeeded (nextUuid st) (Wallet.balance w + amount)),
             st')
          /\ find (byUser userId0) (wallets st') = Some w'
          /\ Wallet.balance w' = Wallet.balance w + amount
          /\ totals w'
             = (Wallet.totalDeposits w, Wallet.totalWithdrawals w,
                Wallet.totalTipsSent w, Wallet.totalTipsReceived w,
                Wallet.totalReferralEarnings w + amount)
          /\ transactions st' = transactions st ++ [t]
          /\ entry t = (Transaction.referral_bonus, userId0, amount)
          /\ is_completed t = true)
  /\ (forall senderId G platform description isAnonymous sender,
        String.eqb senderId userId0 = false ->
        find (byUser senderId) (wallets st) = Some sender ->
        G <= Wallet.balance sender ->
        amount = G - tipFee platform G ->
        exists st' w' written t,
          processTip senderId userId0 G platform description isAnonymous st
          = (Returned (succeeded (nextUuid st) (Wallet.balance sender - G)),
             st')
          /\ find (byUser userId0) (wallets st') = Some w'
          /\ Wallet.balance w' = Wallet.balance w + amount
          /\ totals w'
             = (Wallet.totalDeposits w, Wallet.totalWithdrawals w,
                Wallet.totalTipsSent w, Wallet.totalTipsReceived w + amount,
                Wallet.totalReferralEarnings w)
          /\ transactions st' = transactions st ++ written
          /\ filter (has_type Transaction.tip_received) written = [t]
          /\ entry t = (Transaction.tip_received, userId0, amount)
          /\ is_completed t = true).
Proof.
  intros Hok Hf Hw. split; [|split].
  - intros. apply creditWallet_effects; assumption.
  - intros. apply processReferralBonus_effects; assumption.
  - intros senderId G platform description isAnonymous sender Hne Hs HG ->.
    apply processTip_credit_effects; assumption.
Qed.

Lemma credit_by_category_witness :
  (exists st' w' t,
     creditWallet "bob" 250 "Wallet funding via Paystack" None None two_wallets
     = (Returned (succeeded 2%nat 250), st')
     /\ find (byUser "bob") (wallets st') = Some w'
     /\ Wallet.balance w' = 250
     /\ totals w' = (250, 0, 0, 0, 0)
     /\ transactions st' = [t]
     /\ entry t = (Transaction.deposit, "bob", 250)
     /\ is_completed t = true)
  /\ (exists st' w' t,
        processReferralBonus "bob" "carol" 1 250 two_wallets
        = (Returned (succeeded 2%nat 250), st')
        /\ find (byUser "bob") (wallets st') = Some w'
        /\ Wallet.balance w' = 250
        /\ totals w' = (0, 0, 0, 0, 250)
        /\ transactions st' = [t]
        /\ entry t = (Transaction.referral_bonus, "bob", 250)
        /\ is_completed t = true)
  /\ (exists st' w' written t,
        processTip "alice" "bob" 255 mobile_app None false two_wallets
        = (Returned (succeeded 2%nat 745), st')
        /\ find (byUser "bob") (wallets st') = Some w'
        /\ Wallet.balance w' = 250
        /\ totals w' = (0, 0, 0, 250, 0)
        /\ transactions st' = written
        /\ filter (has_type Transaction.tip_received) written = [t]
        /\ entry t = (Transaction.tip_received, "bob", 250)
        /\ is_completed t = true).
Proof.
  pose proof (credit_by_category two_wallets "bob" 250
                (wallet_with 1%nat "bob" 0)
                eq_refl eq_refl eq_refl) as (Hc & Hr & Ht).
  split; [exact (Hc "Wallet funding via Paystack" None None)|].
  split; [exact (Hr "carol" 1)|].
  exact (Ht "alice" 255 mobile_app None false
           (wallet_with 0%nat "alice" 1000)
           eq_refl eq_refl ltac:(cbn; lia) eq_refl).
Defined.

(** C7 fails on the code where the reason of a credit is not a deposit:
    the tip a creator receives through a tip link, and the refund of a
    withdrawal, are credited by [creditWallet], which takes the reason for
    a description and nothing more.  Bob is credited 490 with the reason
    "Tip received via link from Anonymous": his [totalDeposits] grows by
    490, his [totalTipsReceived] stays at 0, and the transaction written
    is a [deposit], not a [tip_received]. *)
Lemma tip_credited_as_deposit :
  fst (creditWallet "bob" 490 "Tip received via link from Anonymous"
         (Some "TIP_LINK_7_1700000000000") None two_wallets)
  = Returned (succeeded 2%nat 490)
  /\ option_map totals
       (find (byUser "bob")
          (wallets
             (snd (creditWallet "bob" 490
                     "Tip received via link from Anonymous"
                     (Some "TIP_LINK_7_1700000000000") None two_wallets))))
     = Some (490, 0, 0, 0, 0)
  /\ map entry
       (transactions
          (snd (creditWallet "bob" 490 "Tip received via link from Anonymous"
                  (Some "TIP_LINK_7_1700000000000") None two_wallets)))
     = [(Transaction.deposit, "bob", 490)]
  /\ ~ (exists w' t,
          find (byUser "bob")
            (wallets
               (snd (creditWallet "bob" 490
                       "Tip received via link from Anonymous"
                       (Some "TIP_LINK_7_1700000000000") None two_wallets)))
          = Some w'
          /\ Wallet.totalTipsReceived w' = 0 + 490
          /\ transactions
               (snd (creditWallet "bob" 490
                       "Tip received via link from Anonymous"
                       (Some "TIP_LINK_7_1700000000000") None two_wallets))
             = [t]
          /\ Transaction.type t = Transaction.tip_received).
Proof.
  split; [vm_compute; reflexivity|].
  split; [vm_compute; reflexivity|].
  split; [vm_compute; reflexivity|].
  intros (w' & t & Hw & Htotal & _). vm_compute in Hw.
  inversion Hw; subst w'. vm_compute in Htotal. discriminate Htotal.
Qed.

Lemma processTip_conservation_witness :
  (tipFee mobile_app 500 = Math_round (500 * 2) 100
   /\ 100 * tipFee mobile_app 500 <= 2 * 500 + 50
      < 100 * tipFee mobile_app 500 + 100)
  /\ (exists before,
        balanceOf "alice" two_wallets = Some before
        /\ balanceOf "alice"
             (snd (processTip "alice" "bob" 500 mobile_app None false
                     two_wallets))
           = Some (before - 500))
  /\ balanceOf "bob"
       (snd (processTip "alice" "bob" 500 mobile_app None false two_wallets))
     = Some (0 + (500 - 10))
  /\ exists written,
       transactions
         (snd (processTip "alice" "bob" 500 mobile_app None false two_wallets))
       = [] ++ written
       /\ map entry written
          = [(Transaction.fee, "alice", - 10)]
            ++ [(Transaction.tip_sent, "alice", - 500);
                (Transaction.tip_received, "bob", 500 - 10)]
       /\ forallb
            (fun t => match Transaction.status t with
                      | Transaction.completed => true
                      | _ => false
                      end)
            written = true.
Proof.
  assert (Hok : store_ok two_wallets = true) by (vm_compute; reflexivity).
  assert (Hrun : processTip "alice" "bob" 500 mobile_app None false two_wallets
                 = (Returned (succeeded 2%nat 500),
                    snd (processTip "alice" "bob" 500 mobile_app None false
                           two_wallets)))
    by (vm_compute; reflexivity).
  exact (processTip_conservation two_wallets "alice" "bob" 500 mobile_app None
           false (succeeded 2%nat 500) _ Hok Hrun eq_refl).
Defined.

(** C3 at work: the tip limits are never consulted.  A tip of 5, below
    the minimum of 10 that [validateTransactionLimits] sets for tips, and a
    tip of 60 000, above their maximum of 50 000, are both settled:
    [processTip] succeeds, moves the balances and writes the tip and its
    transactions. *)
Theorem processTip_ignores_limits :
  valid (validateTransactionLimits 0 (clock two_wallets) 5 tip []) = false
  /\ (let run := processTip "alice" "bob" 5 mobile_app None false two_wallets in
      fst run = Returned (succeeded 2%nat 995)
      /\ balanceOf "alice" (snd run) = Some 995
      /\ balanceOf "bob" (snd run) = Some 5
      /\ List.length (tips (snd run)) = 1%nat
      /\ List.length (transactions (snd run)) = 2%nat)
  /\ valid (validateTransactionLimits 0 (clock two_wallets) 60000 tip [])
     = false
  /\ (let rich :=
        with_wallets (fun _ => [wallet_with 0%nat "alice" 100000;
                                wallet_with 1%nat "bob" 0]) two_wallets in
      let run := processTip "alice" "bob" 60000 whatsapp None false rich in
      fst run = Returned (succeeded 2%nat 40000)
      /\ balanceOf "alice" (snd run) = Some 40000
      /\ balanceOf "bob" (snd run) = Some 58800
      /\ List.length (tips (snd run)) = 1%nat
      /\ List.length (transactions (snd run)) = 3%nat).
Proof. vm_compute. repeat split. Qed.

(** ** A tip whose credit is rejected *)

Lemma found_ids_differ ws senderId recipientId sender recipient :
  unique_ids Wallet.id ws = true ->
  String.eqb senderId recipientId = false ->
  find (byUser senderId) ws = Some sender ->
  find (byUser recipientId) ws = Some recipient ->
  Nat.eqb (Wallet.id recipient) (Wallet.id sender) = false.
Proof.
  intros Hu Hne Hs Hr. apply Nat.eqb_neq. intros E.
  pose proof (find_some _ _ Hs) as [Hins Hbs].
  pose proof (find_some _ _ Hr) as [Hinr Hbr].
  pose proof (unique_ids_inj Wallet.id ws recipient sender Hu Hinr Hins E).
  subst recipient. unfold byUser in *.
  apply String.eqb_eq in Hbs, Hbr. rewrite Hbs in Hbr. subst recipientId.
  rewrite String.eqb_refl in Hne. discriminate.
Qed.

(** After the sender's update alone, the sender's query returns the
    debited wallet and the recipient's query the wallet it returned
    before. *)
Lemma sender_update_found ws senderId recipientId sender recipient us :
  unique_ids Wallet.id ws = true ->
  String.eqb senderId recipientId = false ->
  find (byUser senderId) ws = Some sender ->
  find (byUser recipientId) ws = Some recipient ->
  find (byUser senderId)
    (doc_update Wallet.id (Wallet.id sender) (fun w => Wallet.spread w us) ws)
  = Some (Wallet.spread sender us)
  /\ find (byUser recipientId)
       (doc_update Wallet.id (Wallet.id sender) (fun w => Wallet.spread w us)
          ws)
     = Some recipient.
Proof.
  intros Hu Hne Hs Hr. split; [apply find_updated; assumption|].
  rewrite find_doc_update by (intros; apply spread_byUser).
  rewrite Hr. cbn [option_map].
  rewrite (found_ids_differ ws senderId recipientId sender recipient)
    by assumption.
  reflexivity.
Qed.

(** C4, as the code has it.  When the write of the recipient's wallet is
    rejected after the write of the sender's wallet committed, [processTip]
    reports the failure with the message of the rejection and stops there:
    the sender's balance stays debited by the gross amount (no compensating
    credit is made), the recipient's balance is what it was (zero in a
    wallet the tip has just created), and neither a tip record nor a
    transaction is written. *)
Theorem processTip_credit_rejected st senderId recipientId G platform
    description isAnonymous sender message rest :
  store_ok st = true ->
  String.eqb senderId recipientId = false ->
  find (byUser senderId) (wallets st) = Some sender ->
  G <= Wallet.balance sender ->
  faults st
  = (match find (byUser recipientId) (wallets st) with
     | Some _ => []
     | None => [None]
     end) ++ None :: Some message :: rest ->
  exists st',
    processTip senderId recipientId G platform description isAnonymous st
    = (Returned (failure message "Failed to process tip"), st')
    /\ balanceOf senderId st' = Some (Wallet.balance sender - G)
    /\ balanceOf recipientId st'
       = Some (or_zero (balanceOf recipientId st))
    /\ tips st' = tips st
    /\ transactions st' = transactions st
    /\ faults st' = rest.
Proof.
  intros Hok Hne Hs HG Hf. apply store_ok_parts in Hok.
  destruct Hok as (Hu & Hw & _).
  assert (Hlt : (Wallet.balance sender <? G) = false)
    by (apply Z.ltb_ge; exact HG).
  unfold processTip, balanceOf. rewrite Hne.
  destruct (find (byUser recipientId) (wallets st)) as [recipient|] eqn:Hr;
    cbn [app] in Hf.
  - run_reliable Hf. rewrite Hs, Hr. run_reliable Hf. rewrite Hlt.
    run_reliable Hf.
    rewrite (find_doc_exists Wallet.id _ _ _ Hs). run_reliable Hf.
    eexists. split; [reflexivity|]. store_simpl_goal.
    rewrite (proj1 (sender_update_found (wallets st) senderId recipientId
                      sender recipient _ Hu Hne Hs Hr)).
    rewrite (proj2 (sender_update_found (wallets st) senderId recipientId
                      sender recipient _ Hu Hne Hs Hr)).
    repeat split.
  - destruct (created_wallet_found (wallets st) (nextUuid st) senderId
                recipientId sender (Some (Wallet.currency sender)) (clock st)
                Hu Hw Hs Hr) as (Hset & Hu' & Hs' & Hr').
    run_reliable Hf. rewrite Hs, Hr. run_reliable Hf. rewrite Hlt.
    run_reliable Hf. rewrite Hset.
    rewrite (find_doc_exists Wallet.id _ _ _ Hs'). run_reliable Hf.
    eexists. split; [reflexivity|]. store_simpl_goal. rewrite Hset.
    rewrite (proj1 (sender_update_found _ senderId recipientId sender _ _
                      Hu' Hne Hs' Hr')).
    rewrite (proj2 (sender_update_found _ senderId recipientId sender _ _
                      Hu' Hne Hs' Hr')).
    repeat split.
Qed.

Lemma processTip_credit_rejected_witness :
  exists st',
    processTip "alice" "bob" 500 mobile_app None false second_write_fails
    = (Returned (failure "UNAVAILABLE" "Failed to process tip"), st')
    /\ balanceOf "alice" st' = Some (1000 - 500)
    /\ balanceOf "bob" st' = Some 0
    /\ tips st' = []
    /\ transactions st' = []
    /\ faults st' = [].
Proof.
  assert (Hok : store_ok second_write_fails = true)
    by (vm_compute; reflexivity).
  exact (processTip_credit_rejected second_write_fails "alice" "bob" 500
           mobile_app None false (wallet_with 0%nat "alice" 1000)
           "UNAVAILABLE" [] Hok eq_refl eq_refl ltac:(cbn; lia) eq_refl).
Defined.

(** C4 fails on the code: the sender's wallet is written, the write of
    the recipient's wallet is rejected, and the sender is left 500 short with
    no tip record at all, let alone one marked failed. *)
Lemma processTip_no_compensation :
  balanceOf "alice" second_write_fails = Some 1000
  /\ fst (processTip "alice" "bob" 500 mobile_app None false
            second_write_fails)
     = Returned (failure "UNAVAILABLE" "Failed to process tip")
  /\ balanceOf "alice"
       (snd (processTip "alice" "bob" 500 mobile_app None false
               second_write_fails))
     = Some 500
  /\ balanceOf "bob"
       (snd (processTip "alice" "bob" 500 mobile_app None false
               second_write_fails))
     = Some 0
  /\ tips (snd (processTip "alice" "bob" 500 mobile_app None false
                  second_write_fails))
     = []
  /\ ~ (balanceOf "alice"
          (snd (processTip "alice" "bob" 500 mobile_app None false
                  second_write_fails))
        = balanceOf "alice" second_write_fails
        /\ exists t,
             In t (tips (snd (processTip "alice" "bob" 500 mobile_app None
                                false second_write_fails)))
             /\ Tip.status t = Tip.failed).
Proof.
  vm_compute. repeat split. intros [H _]. discriminate H.
Qed.

(** ** Any outcome of a run *)

Lemma await_inv {A B} (m : Promise A) (k : A -> Promise B) st o st' :
  await m k st = (o, st') ->
  (exists a st1, m st = (Returned a, st1) /\ k a st1 = (o, st'))
  \/ (exists msg, m st = (Threw msg, st') /\ o = Threw msg).
Proof.
  unfold await. destruct (m st) as [[a|msg] st1]; intros H.
  - left. exists a, st1. split; [reflexivity|exact H].
  - right. exists msg. inversion H. split; reflexivity.
Qed.

Lemma try_catch_inv {A} (body : Promise A) handler st o st' :
  try_catch body handler st = (o, st') ->
  (exists a, body st = (Returned a, st') /\ o = Returned a)
  \/ (exists msg st1, body st = (Threw msg, st1)
                      /\ handler msg st1 = (o, st')).
Proof.
  unfold try_catch. destruct (body st) as [[a|msg] st1]; intros H.
  - left. exists a. inversion H. split; reflexivity.
  - right. exists msg, st1. split; [reflexivity|exact H].
Qed.

(** A write either commits its effect or leaves the collections alone. *)
Lemma firestore_write_inv effect st o st' :
  firestore_write effect st = (o, st') ->
  exists fs,
    (effect (with_faults fs st) = Some st' /\ o = Returned tt)
    \/ (st' = with_faults fs st /\ exists msg, o = Threw msg).
Proof.
  destruct o as [[]|msg]; intros H.
  - apply firestore_write_Returned in H. destruct H as [fs H].
    exists fs. left. split; [exact H|reflexivity].
  - apply firestore_write_Threw in H. destruct H as [fs H].
    exists fs. right. split; [exact H|exists msg; reflexivity].
Qed.

(** Follow a run to wherever it ended. *)
Ltac step_any :=
  match goal with
  | H : try_catch _ _ _ = (_, _) |- _ =>
      apply try_catch_inv in H;
      destruct H as [(? & H & ?)|(? & ? & H & ?)]
  | H : await _ _ _ = (_, _) |- _ =>
      apply await_inv in H;
      destruct H as [(? & ? & ? & H)|(? & H & ?)]
  | H : resolve _ _ = (_, _) |- _ => unfold resolve in H; inv H
  | H : throw _ _ = (_, _) |- _ => unfold throw in H; inv H
  | H : getWalletByUserId _ _ = (_, _) |- _ =>
      unfold getWalletByUserId in H; inv H
  | H : new_Date _ = (_, _) |- _ => unfold new_Date in H; inv H
  | H : uuidv4 _ = (_, _) |- _ => unfold uuidv4 in H; inv H
  | H : firestore_write _ _ = (_, _) |- _ =>
      apply firestore_write_inv in H;
      destruct H as [? [[H ?]|[? [? ?]]]]; cbn beta in H
  | H : wallets_update _ _ _ = (_, _) |- _ => unfold wallets_update in H
  | H : wallets_set _ _ _ = (_, _) |- _ => unfold wallets_set in H
  | H : transactions_set _ _ _ = (_, _) |- _ => unfold transactions_set in H
  | H : tips_set _ _ _ = (_, _) |- _ => unfold tips_set in H
  | H : createWallet _ _ _ = (_, _) |- _ => unfold createWallet in H
  | H : Some _ = Some _ |- _ => inv H
  | H : None = Some _ |- _ => discriminate H
  | H : Returned _ = Threw _ |- _ => discriminate H
  | H : Threw _ = Returned _ |- _ => discriminate H
  | H : Returned _ = Returned _ |- _ => inv H
  | H : Threw _ = Threw _ |- _ => inv H
  | H : (if ?b then _ else _) = Some _ |- _ => destruct b eqn:?
  | H : (if ?b then _ else _) _ = (_, _) |- _ => destruct b eqn:?
  | H : (match ?o with Some _ => _ | None => _ end) _ = (_, _) |- _ =>
      destruct o eqn:?
  end.

Ltac run_any := repeat (step_any; subst; store_simpl).

(** ** Balances stay non-negative *)

Lemma nonneg_update ws i fields b :
  forallb balance_nonneg ws = true ->
  Wallet.u_balance fields = Some b -> 0 <= b ->
  forallb balance_nonneg
    (doc_update Wallet.id i (fun w => Wallet.spread w fields) ws) = true.
Proof.
  intros Hws Hb Hnn. unfold doc_update.
  rewrite forallb_forall in *. intros w Hin.
  apply in_map_iff in Hin. destruct Hin as (x & <- & Hx).
  destruct (Nat.eqb (Wallet.id x) i); [|apply Hws; assumption].
  unfold balance_nonneg. cbn. rewrite Hb. cbn. apply Z.leb_le. exact Hnn.
Qed.

Lemma nonneg_set ws i w :
  forallb balance_nonneg ws = true -> balance_nonneg w = true ->
  forallb balance_nonneg (doc_set Wallet.id i w ws) = true.
Proof.
  intros Hws Hw. unfold doc_set, doc_update.
  destruct (doc_exists Wallet.id i ws).
  - rewrite forallb_forall in *. intros y Hin.
    apply in_map_iff in Hin. destruct Hin as (x & <- & Hx).
    destruct (Nat.eqb (Wallet.id x) i); [exact Hw|apply Hws; assumption].
  - rewrite forallb_app, Hws. cbn. rewrite Hw. reflexivity.
Qed.

Lemma found_nonneg ws p w :
  forallb balance_nonneg ws = true -> find p ws = Some w ->
  0 <= Wallet.balance w.
Proof.
  intros Hws Hf. apply find_some in Hf. destruct Hf as [Hin _].
  rewrite forallb_forall in Hws. apply Z.leb_le. exact (Hws w Hin).
Qed.

Lemma tipFee_le platform G : 0 <= G -> 0 <= G - tipFee platform G.
Proof. intros HG. pose proof (tipFee_half_up platform G). lia. Qed.

Ltac nonneg_facts :=
  repeat match goal with
  | Hst : forallb balance_nonneg ?ws = true, H : find _ ?ws = Some ?w |- _ =>
      lazymatch goal with
      | _ : 0 <= Wallet.balance w |- _ => fail
      | _ => pose proof (found_nonneg _ _ _ Hst H)
      end
  | H : (_ <=? _) = true |- _ => apply Z.leb_le in H
  | H : (_ <? _) = false |- _ => apply Z.ltb_ge in H
  | H : (_ <? _) = true |- _ => apply Z.ltb_lt in H
  end.

Ltac nonneg_writes :=
  repeat first
    [ assumption
    | eapply nonneg_update;
      [|reflexivity
       |cbn [Wallet.balance Wallet.createWalletData or_zero]; lia]
    | apply nonneg_set; [|reflexivity] ].

(** Each operation asked for a non-negative amount leaves all balances
    non-negative, wherever it stops. *)
Lemma perform_nonneg op st :
  amount_not_negative op = true ->
  balances_nonneg st = true ->
  balances_nonneg (snd (perform op st)) = true.
Proof.
  intros Ha Hst. destruct (perform op st) as [o st'] eqn:Hrun.
  cbn [snd]. unfold balances_nonneg in *.
  destruct op; cbn [perform amount_not_negative] in *;
    [unfold creditWallet in Hrun|unfold processReferralBonus in Hrun
    |unfold debitWallet in Hrun
    |unfold processTip in Hrun;
     pose proof (tipFee_le platform amount) as Hfee].
  all: run_any; nonneg_facts; try specialize (Hfee Ha); nonneg_writes.
Qed.

Lemma run_ops_nonneg ops st :
  forallb amount_not_negative ops = true ->
  balances_nonneg st = true ->
  balances_nonneg (run_ops ops st) = true.
Proof.
  revert st. induction ops as [|op ops IH]; intros st Ha Hst; [exact Hst|].
  cbn [forallb] in Ha. apply andb_prop in Ha. destruct Ha as [Hop Hops].
  cbn [run_ops]. apply IH; [exact Hops|].
  apply perform_nonneg; assumption.
Qed.

Lemma forallb_firstn {A} (p : A -> bool) n l :
  forallb p l = true -> forallb p (firstn n l) = true.
Proof.
  intros H. rewrite <- (firstn_skipn n l), forallb_app in H.
  apply andb_prop in H. apply H.
Qed.

(** C1, as the code has it.  From a store whose balances are all
    non-negative, after every operation of any sequence of credits
    ([creditWallet], [processReferralBonus]), debits ([debitWallet]) and
    tips ([processTip]) all balances are non-negative, whichever writes the
    store rejects, provided no credit and no tip is asked for a negative
    amount (a debit may be: its balance check covers it).  The operations
    run one after the other. *)
Theorem balances_stay_nonneg ops st n :
  forallb amount_not_negative ops = true ->
  balances_nonneg st = true ->
  balances_nonneg (run_ops (firstn n ops) st) = true.
Proof.
  intros Ha Hst. apply run_ops_nonneg; [|exact Hst].
  apply forallb_firstn. exact Ha.
Qed.

Lemma balances_stay_nonneg_witness :
  balances_nonneg
    (run_ops
       (firstn 3
          [Credit "bob" 250 "Wallet funding via Paystack" None None;
           Debit "bob" 300 "Withdrawal" None None None;
           SendTip "alice" "bob" 1000 whatsapp None false;
           Debit "alice" (-5) "Reversal" None None None])
       two_wallets)
  = true.
Proof.
  exact (balances_stay_nonneg
           [Credit "bob" 250 "Wallet funding via Paystack" None None;
            Debit "bob" 300 "Withdrawal" None None None;
            SendTip "alice" "bob" 1000 whatsapp None false;
            Debit "alice" (-5) "Reversal" None None None]
           two_wallets 3 eq_refl eq_refl).
Defined.

(** C1 fails on the code: [creditWallet] accepts a negative amount and
    writes the negative balance it leads to. *)
Lemma creditWallet_negative_balance :
  balances_nonneg two_wallets = true
  /\ fst (creditWallet "bob" (-1) "Adjustment" None None two_wallets)
     = Returned (succeeded 2%nat (-1))
  /\ balanceOf "bob"
       (run_ops [Credit "bob" (-1) "Adjustment" None None] two_wallets)
     = Some (-1)
  /\ balances_nonneg
       (run_ops [Credit "bob" (-1) "Adjustment" None None] two_wallets)
     = false.
Proof. vm_compute. repeat split. Qed.

(** ** No check on the sign of an amount *)

(** C10, as the code has it.  Neither [creditWallet] nor [debitWallet]
    looks at the sign of the amount.  On a store that commits its writes,
    [creditWallet] fails only for a missing wallet and otherwise adds the
    amount, zero or negative included, to the balance, which a negative
    amount lowers with no check that it stays non-negative; [debitWallet]
    fails for a missing wallet, fails with "Insufficient balance" when the
    balance is below the amount, and otherwise, that is exactly when
    [balance >= amount], subtracts the amount, so that a negative amount is
    accepted by every wallet whose balance is not below it (every
    non-negative balance in particular) and raises the balance. *)
Theorem credit_debit_amount_unchecked st userId0 amount :
  faults st = [] ->
  (forall description reference metadata,
     match find (byUser userId0) (wallets st) with
     | Some w =>
         exists st',
           creditWallet userId0 amount description reference metadata st
           = (Returned (succeeded (nextUuid st) (Wallet.balance w + amount)),
              st')
           /\ balanceOf userId0 st' = Some (Wallet.balance w + amount)
     | None =>
         creditWallet userId0 amount description reference metadata st
         = (Returned (failure "Wallet not found" "Failed to credit wallet"),
            st)
     end)
  /\ (forall description fee reference metadata,
        match find (byUser userId0) (wallets st) with
        | Some w =>
            if amount <=? Wallet.balance w then
              exists st',
                debitWallet userId0 amount description fee reference metadata
                  st
                = (Returned
                     (succeeded (nextUuid st) (Wallet.balance w - amount)),
                   st')
                /\ balanceOf userId0 st' = Some (Wallet.balance w - amount)
            else
              debitWallet userId0 amount description fee reference metadata st
              = (Returned
                   (failure "Insufficient balance" "Failed to debit wallet"),
                 st)
        | None =>
            debitWallet userId0 amount description fee reference metadata st
            = (Returned (failure "Wallet not found" "Failed to debit wallet"),
               st)
        end).
Proof.
  intros Hf. split.
  - intros description reference metadata.
    destruct (find (byUser userId0) (wallets st)) as [w|] eqn:Hw.
    + unfold creditWallet, balanceOf. run_reliable Hf. rewrite Hw.
      run_reliable Hf.
      rewrite (find_doc_exists Wallet.id _ _ _ Hw). run_reliable Hf.
      eexists. split; [reflexivity|]. store_simpl_goal.
      rewrite (find_updated _ _ _ _ Hw). reflexivity.
    + unfold creditWallet. run_reliable Hf. rewrite Hw. reflexivity.
  - intros description fee reference metadata.
    destruct (find (byUser userId0) (wallets st)) as [w|] eqn:Hw.
    + destruct (amount <=? Wallet.balance w) eqn:Ele.
      * assert (Hlt : (Wallet.balance w <? amount) = false)
          by (apply Z.ltb_ge; apply Z.leb_le; exact Ele).
        unfold debitWallet, balanceOf. run_reliable Hf. rewrite Hw.
        run_reliable Hf. rewrite Hlt. run_reliable Hf.
        rewrite (find_doc_exists Wallet.id _ _ _ Hw). run_reliable Hf.
        eexists. split; [reflexivity|]. store_simpl_goal.
        rewrite (find_updated _ _ _ _ Hw). reflexivity.
      * assert (Hlt : (Wallet.balance w <? amount) = true)
          by (apply Z.ltb_lt; apply Z.leb_gt; exact Ele).
        unfold debitWallet. run_reliable Hf. rewrite Hw.
        run_reliable Hf. rewrite Hlt. reflexivity.
    + unfold debitWallet. run_reliable Hf. rewrite Hw. reflexivity.
Qed.

Lemma credit_debit_amount_unchecked_witness :
  (exists st',
     creditWallet "bob" (-40) "Adjustment" None None two_wallets
     = (Returned (succeeded 2%nat (0 + -40)), st')
     /\ balanceOf "bob" st' = Some (0 + -40))
  /\ (exists st',
        debitWallet "alice" (-40) "Reversal" None None None two_wallets
        = (Returned (succeeded 2%nat (1000 - -40)), st')
        /\ balanceOf "alice" st' = Some (1000 - -40))
  /\ debitWallet "alice" 1001 "Withdrawal" None None None two_wallets
     = (Returned (failure "Insufficient balance" "Failed to debit wallet"),
        two_wallets)
  /\ debitWallet "carol" (-40) "Reversal" None None None two_wallets
     = (Returned (failure "Wallet not found" "Failed to debit wallet"),
        two_wallets).
Proof.
  split; [|split; [|split]].
  - exact (proj1 (credit_debit_amount_unchecked two_wallets "bob" (-40)
                    eq_refl) "Adjustment" None None).
  - exact (proj2 (credit_debit_amount_unchecked two_wallets "alice" (-40)
                    eq_refl) "Reversal" None None None).
  - exact (proj2 (credit_debit_amount_unchecked two_wallets "alice" 1001
                    eq_refl) "Withdrawal" None None None).
  - exact (proj2 (credit_debit_amount_unchecked two_wallets "carol" (-40)
                    eq_refl) "Reversal" None None None).
Defined.

(** C10 fails on the code in one corner: a wallet that a negative credit
    has taken to [-100] refuses the debit of the negative amount [-50],
    because its balance is below the amount. *)
Lemma debitWallet_negative_amount_refused :
  balanceOf "bob"
    (snd (creditWallet "bob" (-100) "Adjustment" None None two_wallets))
  = Some (-100)
  /\ faults (snd (creditWallet "bob" (-100) "Adjustment" None None
                    two_wallets))
     = []
  /\ debitWallet "bob" (-50) "Reversal" None None None
       (snd (creditWallet "bob" (-100) "Adjustment" None None two_wallets))
     = (Returned (failure "Insufficient balance" "Failed to debit wallet"),
        snd (creditWallet "bob" (-100) "Adjustment" None None two_wallets)).
Proof. vm_compute. repeat split. Qed.

(** ** The referral cascade on a store that commits its writes *)

Import ReferralService.

Lemma doc_update_fresh {D} (doc_id : D -> DocId) n i f c :
  ids_below doc_id n c = true -> (n <= i)%nat -> doc_update doc_id i f c = c.
Proof.
  intros Hb Hi. unfold doc_update, ids_below in *.
  induction c as [|d c IH]; cbn [map forallb] in *; [reflexivity|].
  apply andb_prop in Hb. destruct Hb as [Hd Hc]. apply Nat.ltb_lt in Hd.
  rewrite (IH Hc).
  replace (Nat.eqb (doc_id d) i) with false; [reflexivity|].
  symmetry. apply Nat.eqb_neq. lia.
Qed.

Lemma doc_update_last {D} (doc_id : D -> DocId) n i f c d :
  ids_below doc_id n c = true -> (n <= i)%nat -> doc_id d = i ->
  doc_update doc_id i f (c ++ [d]) = c ++ [f d].
Proof.
  intros Hb Hi <-. unfold doc_update. rewrite map_app.
  fold (doc_update doc_id (doc_id d) f c).
  rewrite (doc_update_fresh doc_id n) by assumption.
  cbn [map]. rewrite Nat.eqb_refl. reflexivity.
Qed.

Lemma doc_exists_last {D} (doc_id : D -> DocId) i c d :
  doc_id d = i -> doc_exists doc_id i (c ++ [d]) = true.
Proof.
  intros <-. rewrite doc_exists_app. unfold doc_exists at 2. cbn [existsb].
  rewrite Nat.eqb_refl. apply orb_true_iff. right. reflexivity.
Qed.

Lemma ids_below_app {D} (doc_id : D -> DocId) n c d :
  ids_below doc_id n c = true -> (doc_id d < n)%nat ->
  ids_below doc_id n (c ++ [d]) = true.
Proof.
  intros Hc Hd. unfold ids_below in *. rewrite forallb_app, Hc.
  cbn [forallb]. apply Nat.ltb_lt in Hd. rewrite Hd. reflexivity.
Qed.

Lemma hasWallet_update st userId0 i fields :
  match find (byUser userId0)
          (doc_update Wallet.id i (fun w => Wallet.spread w fields)
             (wallets st)) with
  | Some _ => true
  | None => false
  end = hasWallet userId0 st.
Proof.
  unfold hasWallet.
  rewrite find_doc_update by (intros; apply spread_byUser).
  destruct (find (byUser userId0) (wallets st)); reflexivity.
Qed.

(** What the referral cascade needs to know of [processReferralBonus]:
    it succeeds exactly when the referrer has a wallet, and touches neither
    the referrals nor the users. *)
Lemma processReferralBonus_reliable st referrerId referredId level bonusAmount :
  faults st = [] ->
  exists res st',
    processReferralBonus referrerId referredId level bonusAmount st
    = (Returned res, st')
    /\ WalletService.success res = hasWallet referrerId st
    /\ referrals st' = referrals st
    /\ users st' = users st
    /\ clock st' = clock st
    /\ faults st' = []
    /\ (nextUuid st <= nextUuid st')%nat
    /\ (forall u, hasWallet u st' = hasWallet u st).
Proof.
  intros Hf. unfold processReferralBonus.
  destruct (find (byUser referrerId) (wallets st)) as [w|] eqn:Hw.
  - run_reliable Hf. rewrite Hw. run_reliable Hf.
    rewrite (find_doc_exists Wallet.id _ _ _ Hw). run_reliable Hf.
    do 2 eexists. split; [reflexivity|]. store_simpl_goal.
    unfold hasWallet at 1. rewrite Hw.
    repeat split; try assumption; try lia.
    intros u. unfold hasWallet at 1. store_simpl_goal.
    apply hasWallet_update.
  - run_reliable Hf. rewrite Hw.
    do 2 eexists. split; [reflexivity|].
    unfold hasWallet at 1. rewrite Hw.
    repeat split; try assumption; try lia.
Qed.

(** A higher level of the cascade adds one record for its referrer,
    completed exactly when that referrer has a wallet to credit. *)
Lemma createHigherLevelReferral_reliable st referrerId referredId level
    platform :
  faults st = [] ->
  ids_below Referral.id (nextUuid st) (referrals st) = true ->
  level <> 0 ->
  exists st' rec,
    createHigherLevelReferral referrerId referredId level platform st
    = (Returned tt, st')
    /\ referrals st' = referrals st ++ [rec]
    /\ Referral.referrerId rec = referrerId
    /\ Referral.referredId rec = referredId
    /\ Referral.level rec = level
    /\ referral_completed rec = hasWallet referrerId st
    /\ users st' = users st
    /\ clock st' = clock st
    /\ faults st' = []
    /\ ids_below Referral.id (nextUuid st') (referrals st') = true
    /\ (forall u, hasWallet u st' = hasWallet u st).
Proof.
  intros Hf Hb Hl. unfold createHigherLevelReferral. run_reliable Hf.
  match goal with
  | |- context [processReferralBonus _ _ _ _ ?s] => set (st1 := s)
  end.
  destruct (processReferralBonus_reliable st1 referrerId referredId level
              (or_zero (REFERRAL_BONUSES level)))
    as (res & st2 & Hrun & Hsucc & Hrefs & Husers & Hclock & Hf2 & Hn & Hw2);
    [exact Hf|].
  rewrite Hrun. cbn iota.
  assert (Hlevel : (if level =? 0 then 1 else level) = level)
    by (destruct (Z.eqb_spec level 0); [contradiction|reflexivity]).
  change (hasWallet referrerId st1) with (hasWallet referrerId st) in Hsucc.
  cbn [referrals with_referrals with_nextUuid nextUuid st1] in Hrefs, Hn.
  rewrite (doc_set_fresh Referral.id (nextUuid st)) in Hrefs
    by (eapply ids_below_fresh; eauto).
  destruct (WalletService.success res) eqn:Hres.
  - rewrite Hf2, Hrefs, doc_exists_last by reflexivity. cbn iota.
    do 2 eexists. split; [reflexivity|]. store_simpl_goal.
    rewrite Hrefs.
    rewrite (doc_update_last Referral.id (nextUuid st))
      by first [assumption|reflexivity|lia].
    split; [reflexivity|]. cbn.
    rewrite Hlevel.
    repeat split; try assumption.
    apply ids_below_app; [|cbn; lia].
    eapply ids_below_mono; [eassumption|lia].
  - do 2 eexists. split; [reflexivity|]. rewrite Hrefs.
    split; [reflexivity|]. cbn. rewrite Hlevel.
    repeat split; try assumption.
    apply ids_below_app; [|cbn; lia].
    eapply ids_below_mono; [eassumption|lia].
Qed.

Lemma find_byId_id us userId0 u :
  find (byId userId0) us = Some u -> User.id u = userId0.
Proof.
  intros H. apply find_some in H. destruct H as [_ H].
  apply String.eqb_eq. exact H.
Qed.

(** Levels 2 and 3: a record for the referrer's referrer, if there is
    one, and then a record for that one's referrer, if there is one and the
    level-2 referrer passes the eligibility check. *)
Lemma processHigherLevelReferrals_reliable st referrerId referredId platform :
  faults st = [] ->
  ids_below Referral.id (nextUuid st) (referrals st) = true ->
  exists st' tail,
    processHigherLevelReferrals referrerId referredId platform st
    = (Returned tt, st')
    /\ referrals st' = referrals st ++ tail
    /\ users st' = users st
    /\ higher_level_records st referrerId referredId tail.
Proof.
  intros Hf Hb.
  unfold processHigherLevelReferrals, higher_level_records, referrerOf.
  run_reliable Hf.
  destruct (truthy match find (byId referrerId) (users st) with
                   | Some u => User.referredBy u
                   | None => None
                   end) as [level2Id|] eqn:H2.
  2:{ exists st, []. rewrite app_nil_r. repeat split. }
  destruct (createHigherLevelReferral_reliable st level2Id referredId 2
              platform Hf Hb ltac:(discriminate))
    as (st1 & l2 & Hrun1 & Hrefs1 & Hr1 & Hd1 & Hl1 & Hc1 & Hu1 & Hk1 & Hf1
        & Hb1 & Hw1).
  rewrite Hrun1. cbn iota. rewrite Hu1.
  unfold level3_eligible.
  destruct (find (byId level2Id) (users st)) as [u2|] eqn:Hu2.
  2:{ exists st1, [l2]. split; [reflexivity|]. split; [assumption|].
      split; [assumption|]. exists l2. repeat split; assumption. }
  destruct (truthy (User.referredBy u2)) as [level3Id|] eqn:H3.
  2:{ exists st1, [l2]. split; [reflexivity|]. split; [assumption|].
      split; [assumption|]. exists l2. repeat split; assumption. }
  unfold checkLevel3Eligibility. run_reliable Hf.
  rewrite (find_byId_id _ _ _ Hu2), Hu1, Hu2, Hk1. cbn iota.
  change (minActiveDate (clock st)) with (clock st - 30 * 86400000).
  destruct (timestamp_le_date (User.createdAt u2)
              (clock st - 30 * 86400000)) eqn:Hage.
  - destruct (createHigherLevelReferral_reliable st1 level3Id referredId 3
                platform Hf1 Hb1 ltac:(discriminate))
      as (st2 & l3 & Hrun2 & Hrefs2 & Hr2 & Hd2 & Hl2 & Hc2 & Hu2' & Hk2
          & Hf2 & Hb2 & Hw2).
    rewrite Hrun2. exists st2, [l2; l3]. split; [reflexivity|].
    split; [rewrite Hrefs2, Hrefs1, <- app_assoc; reflexivity|].
    split; [congruence|].
    exists l2. repeat split; try assumption.
    exists l3. repeat split; assumption.
  - exists st1, [l2]. split; [reflexivity|]. split; [assumption|].
    split; [assumption|]. exists l2. repeat split; assumption.
Qed.

Lemma higher_level_records_ext st st' referrerId referredId tail :
  users st' = users st -> clock st' = clock st ->
  (forall u, hasWallet u st' = hasWallet u st) ->
  higher_level_records st' referrerId referredId tail ->
  higher_level_records st referrerId referredId tail.
Proof.
  unfold higher_level_records, referrerOf, level3_eligible.
  intros -> -> Hw H.
  destruct (truthy match find (byId referrerId) (users st) with
                   | Some u => User.referredBy u
                   | None => None
                   end) as [level2Id|]; [|exact H].
  destruct H as (l2 & H). exists l2. rewrite <- Hw. exact H.
Qed.

(** The whole cascade.  A missing referrer and an existing referral of
    the pair stop it before anything is written; otherwise it adds the
    level-1 record, completed when the referrer has a wallet, and in that
    case only goes on to the higher levels. *)
Lemma processReferral_reliable st referrerId referredId platform :
  faults st = [] ->
  ids_below Referral.id (nextUuid st) (referrals st) = true ->
  exists res st',
    processReferral referrerId referredId platform st = (Returned res, st')
    /\ users st' = users st
    /\ match find (byId referrerId) (users st) with
       | None =>
           st' = st
           /\ res = {| success := false; referralId := None;
                       bonusProcessed := None;
                       error := Some "Referrer not found" |}
       | Some _ =>
           match find (byPair referrerId referredId) (referrals st) with
           | Some _ =>
               st' = st
               /\ res = {| success := false; referralId := None;
                           bonusProcessed := None;
                           error := Some "Referral already exists" |}
           | None =>
               exists l1 tail,
                 referrals st' = referrals st ++ l1 :: tail
                 /\ res = {| success := true;
                             referralId := Some (nextUuid st);
                             bonusProcessed :=
                               Some (hasWallet referrerId st);
                             error := None |}
                 /\ Referral.level l1 = 1
                 /\ Referral.referrerId l1 = referrerId
                 /\ Referral.referredId l1 = referredId
                 /\ referral_completed l1 = hasWallet referrerId st
                 /\ if hasWallet referrerId st
                    then higher_level_records st referrerId referredId tail
                    else tail = []
           end
       end.
Proof.
  intros Hf Hb. unfold processReferral. run_reliable Hf.
  destruct (find (byId referrerId) (users st)) as [r1|] eqn:Hr1.
  2:{ do 2 eexists. split; [reflexivity|]. repeat split. }
  destruct (find (byPair referrerId referredId) (referrals st)) eqn:Hpair.
  { do 2 eexists. split; [reflexivity|]. repeat split. }
  run_reliable Hf.
  match goal with
  | |- context [processReferralBonus _ _ _ _ ?s] => set (st1 := s)
  end.
  destruct (processReferralBonus_reliable st1 referrerId referredId 1
              (or_zero (REFERRAL_BONUSES 1)))
    as (res & st2 & Hrun & Hsucc & Hrefs & Husers & Hclock & Hf2 & Hn & Hw2);
    [exact Hf|].
  rewrite Hrun. cbn iota.
  change (hasWallet referrerId st1) with (hasWallet referrerId st) in Hsucc.
  cbn [referrals with_referrals with_nextUuid nextUuid users clock st1]
    in Hrefs, Hn, Husers, Hclock.
  rewrite (doc_set_fresh Referral.id (nextUuid st)) in Hrefs
    by (eapply ids_below_fresh; eauto).
  rewrite Hsucc.
  destruct (hasWallet referrerId st) eqn:Hw1.
  - rewrite Hf2, Hrefs, doc_exists_last by reflexivity. cbn iota.
    match goal with
    | |- context [processHigherLevelReferrals _ _ _ ?s] => set (st3 := s)
    end.
    assert (Hrefs3 : referrals st3
                     = referrals st
                       ++ [Referral.markCompleted
                             (WalletService.transactionId res) (clock st2)
                             (Referral.createReferralData
                                {| Referral.p_id := nextUuid st;
                                   Referral.p_referrerId := referrerId;
                                   Referral.p_referredId := referredId;
                                   Referral.p_level := Some 1;
                                   Referral.p_bonus := REFERRAL_BONUSES 1;
                                   Referral.p_status := Some Referral.pending;
                                   Referral.p_referralCode :=
                                     Some (User.referralCode r1);
                                   Referral.p_platform := Some platform |}
                                (clock st))]).
    { subst st3. cbn [referrals with_referrals]. rewrite Hrefs.
      apply (doc_update_last Referral.id (nextUuid st));
        first [assumption|reflexivity|lia]. }
    destruct (processHigherLevelReferrals_reliable st3 referrerId referredId
                platform)
      as (st4 & tail & Hrun4 & Hrefs4 & Husers4 & Htail).
    { exact Hf2. }
    { rewrite Hrefs3. apply ids_below_app; [|cbn; lia].
      eapply ids_below_mono; [eassumption|cbn; lia]. }
    rewrite Hrun4. do 2 eexists. split; [reflexivity|].
    split; [rewrite Husers4; exact Husers|].
    do 2 eexists. split; [rewrite Hrefs4, Hrefs3, <- app_assoc; reflexivity|].
    repeat split.
    apply (higher_level_records_ext st st3); assumption.
  - do 2 eexists. split; [reflexivity|]. split; [exact Husers|].
    do 2 eexists. split; [rewrite Hrefs; reflexivity|].
    repeat split.
Qed.

Lemma created_referrals_app st st' added :
  referrals st' = referrals st ++ added -> created_referrals st st' = added.
Proof.
  unfold created_referrals. intros ->.
  rewrite skipn_app, skipn_all, Nat.sub_diag. reflexivity.
Qed.

Lemma created_referrals_same st : created_referrals st st = [].
Proof. apply created_referrals_app. rewrite app_nil_r. reflexivity. Qed.

Lemma is_level_of l r k : Referral.level r = k -> is_level l r = (k =? l).
Proof. unfold is_level. intros ->. reflexivity. Qed.

(** When the cascade creates a level-3 record, in full. *)
Lemma level3_created_iff st referrerId referredId platform :
  store_ok st = true -> faults st = [] ->
  level_created 3 st (snd (processReferral referrerId referredId platform st))
  = true
  <-> ((exists r1, find (byId referrerId) (users st) = Some r1)
       /\ find (byPair referrerId referredId) (referrals st) = None
       /\ hasWallet referrerId st = true
       /\ exists level2Id level3Id,
            referrerOf referrerId st = Some level2Id
            /\ referrerOf level2Id st = Some level3Id
            /\ level3_eligible level2Id st = true).
Proof.
  intros Hok Hf. apply store_ok_parts in Hok.
  destruct Hok as (_ & _ & _ & _ & Hb).
  destruct (processReferral_reliable st referrerId referredId platform Hf Hb)
    as (res & st' & Hrun & Husers & Hcases).
  rewrite Hrun. cbn [snd]. unfold level_created.
  destruct (find (byId referrerId) (users st)) as [r1|].
  2:{ destruct Hcases as [-> _]. rewrite created_referrals_same. cbn.
      split; [discriminate|]. intros [[r1 H] _]. discriminate H. }
  destruct (find (byPair referrerId referredId) (referrals st)).
  { destruct Hcases as [-> _]. rewrite created_referrals_same. cbn.
    split; [discriminate|]. intros (_ & H & _). discriminate H. }
  destruct Hcases as (l1 & tail & Hrefs & _ & Hl1 & _ & _ & _ & Htail).
  rewrite (created_referrals_app _ _ _ Hrefs). cbn [existsb].
  rewrite (is_level_of 3 l1 1 Hl1). cbn [Z.eqb Pos.eqb orb].
  destruct (hasWallet referrerId st).
  2:{ subst tail. cbn. split; [discriminate|].
      intros (_ & _ & H & _). discriminate H. }
  unfold higher_level_records in Htail.
  destruct (referrerOf referrerId st) as [level2Id|].
  2:{ subst tail. cbn. split; [discriminate|].
      intros (_ & _ & _ & R2 & R3 & H & _). discriminate H. }
  destruct Htail as (l2 & Hl2 & _ & _ & _ & Htail).
  destruct (referrerOf level2Id st) as [level3Id|] eqn:E3.
  2:{ subst tail. cbn [existsb]. rewrite (is_level_of 3 l2 2 Hl2). cbn.
      split; [discriminate|].
      intros (_ & _ & _ & R2 & R3 & H2 & H3 & _).
      inversion H2; subst R2. rewrite E3 in H3. discriminate H3. }
  destruct (level3_eligible level2Id st) eqn:Eage.
  - destruct Htail as (l3 & Hl3 & _ & _ & ->). cbn [existsb].
    rewrite (is_level_of 3 l2 2 Hl2), (is_level_of 3 l3 3 Hl3). cbn.
    split; [|reflexivity]. intros _.
    split; [exists r1; reflexivity|]. split; [reflexivity|].
    split; [reflexivity|]. exists level2Id, level3Id. repeat split.
    + exact E3.
    + exact Eage.
  - subst tail. cbn [existsb]. rewrite (is_level_of 3 l2 2 Hl2). cbn.
    split; [discriminate|].
    intros (_ & _ & _ & R2 & R3 & H2 & _ & H4).
    inversion H2; subst R2. rewrite Eage in H4. discriminate H4.
Qed.

(** When the cascade records a completed level-2 referral, in full. *)
Lemma level2_completed_iff st referrerId referredId platform :
  store_ok st = true -> faults st = [] ->
  level_completed 2 st
    (snd (processReferral referrerId referredId platform st))
  = true
  <-> ((exists r1, find (byId referrerId) (users st) = Some r1)
       /\ find (byPair referrerId referredId) (referrals st) = None
       /\ hasWallet referrerId st = true
       /\ exists level2Id,
            referrerOf referrerId st = Some level2Id
            /\ hasWallet level2Id st = true).
Proof.
  intros Hok Hf. apply store_ok_parts in Hok.
  destruct Hok as (_ & _ & _ & _ & Hb).
  destruct (processReferral_reliable st referrerId referredId platform Hf Hb)
    as (res & st' & Hrun & Husers & Hcases).
  rewrite Hrun. cbn [snd]. unfold level_completed.
  destruct (find (byId referrerId) (users st)) as [r1|].
  2:{ destruct Hcases as [-> _]. rewrite created_referrals_same. cbn.
      split; [discriminate|]. intros [[r1 H] _]. discriminate H. }
  destruct (find (byPair referrerId referredId) (referrals st)).
  { destruct Hcases as [-> _]. rewrite created_referrals_same. cbn.
    split; [discriminate|]. intros (_ & H & _). discriminate H. }
  destruct Hcases as (l1 & tail & Hrefs & _ & Hl1 & _ & _ & _ & Htail).
  rewrite (created_referrals_app _ _ _ Hrefs). cbn [existsb].
  rewrite (is_level_of 2 l1 1 Hl1). cbn [Z.eqb Pos.eqb orb andb].
  destruct (hasWallet referrerId st).
  2:{ subst tail. cbn. split; [discriminate|].
      intros (_ & _ & H & _). discriminate H. }
  unfold higher_level_records in Htail.
  destruct (referrerOf referrerId st) as [level2Id|].
  2:{ subst tail. cbn. split; [discriminate|].
      intros (_ & _ & _ & R2 & H & _). discriminate H. }
  destruct Htail as (l2 & Hl2 & _ & _ & Hc2 & Htail).
  assert (Hgoal : forall rest,
            (forall l3, In l3 rest -> Referral.level l3 = 3) ->
            existsb (fun r => is_level 2 r && referral_completed r)
              (l2 :: rest) = hasWallet level2Id st).
  { intros rest Hrest. cbn [existsb].
    rewrite (is_level_of 2 l2 2 Hl2), Hc2. cbn [Z.eqb Pos.eqb andb].
    replace (existsb (fun r => is_level 2 r && referral_completed r) rest)
      with false; [apply orb_false_r|].
    symmetry. apply not_true_is_false. intros H.
    apply existsb_exists in H. destruct H as (l3 & Hin & H).
    rewrite (is_level_of 2 l3 3 (Hrest l3 Hin)) in H. discriminate H. }
  assert (Htail' : exists rest, tail = l2 :: rest
                                /\ forall l3, In l3 rest
                                              -> Referral.level l3 = 3).
  { destruct (referrerOf level2Id st);
      [destruct (level3_eligible level2Id st)|].
    - destruct Htail as (l3 & Hl3 & _ & _ & ->). exists [l3].
      split; [reflexivity|]. intros x [<-|[]]. exact Hl3.
    - exists []. split; [assumption|]. intros x [].
    - exists []. split; [assumption|]. intros x []. }
  destruct Htail' as (rest & -> & Hrest). rewrite (Hgoal rest Hrest).
  split.
  - intros Hw. split; [exists r1; reflexivity|]. split; [reflexivity|].
    split; [reflexivity|]. exists level2Id. split; [reflexivity|exact Hw].
  - intros (_ & _ & _ & R2 & H2 & Hw). inversion H2; subst R2. exact Hw.
Qed.

(** The comparison of the eligibility check holds for every account on
    record, whatever its age: the number a [Timestamp] stands for counts
    seconds from the year 1, and is far below the milliseconds of any date
    of our days. *)
Lemma level3_eligible_at_any_age st userId0 u :
  clock_of_our_days st ->
  find (byId userId0) (users st) = Some u ->
  level3_eligible userId0 st = true.
Proof.
  intros (Hclock & Husers & _) Hu. unfold level3_eligible. rewrite Hu.
  apply find_some in Hu. destruct Hu as [Hin _].
  specialize (Husers u Hin).
  unfold timestamp_le_date, timestamp_valueOf. apply Z.leb_le. lia.
Qed.

(** So the cascade creates a level-3 record whenever level 1 was paid
    and the chain of referrers is three long. *)
Lemma level3_created_at_any_age st referrerId referredId platform :
  store_ok st = true -> faults st = [] -> clock_of_our_days st ->
  level_created 3 st (snd (processReferral referrerId referredId platform st))
  = true
  <-> ((exists r1, find (byId referrerId) (users st) = Some r1)
       /\ find (byPair referrerId referredId) (referrals st) = None
       /\ hasWallet referrerId st = true
       /\ exists level2Id level3Id,
            referrerOf referrerId st = Some level2Id
            /\ referrerOf level2Id st = Some level3Id).
Proof.
  intros Hok Hf Hclock.
  rewrite (level3_created_iff st referrerId referredId platform Hok Hf).
  split.
  - intros (H1 & H2 & H3 & R2 & R3 & E2 & E3 & _).
    repeat (split; [assumption|]). exists R2, R3. split; assumption.
  - intros (H1 & H2 & H3 & R2 & R3 & E2 & E3).
    repeat (split; [assumption|]). exists R2, R3.
    split; [assumption|]. split; [assumption|].
    unfold referrerOf in E3.
    destruct (find (byId R2) (users st)) as [u2|] eqn:Hu2;
      [|discriminate E3].
    exact (level3_eligible_at_any_age st R2 u2 Hclock Hu2).
Qed.

(** C5 at work: the age of the level-2 referrer holds no bonus back.
    ref1 was referred by ref2 and ref2, whose account is ten days old, by
    ref3; all three have wallets.  [checkLevel3Eligibility] answers [true]
    for ref2, and the cascade for a newcomer referred by ref1 creates the
    level-3 record and pays ref3 its 25, where an account that young should
    have stopped the cascade at level 2. *)
Theorem level3_created_for_young_referrer :
  option_map (fun u => account_age u young_chain)
    (find (byId "ref2") (users young_chain))
  = Some (days 10)
  /\ thirty_days_old "ref2" young_chain = false
  /\ checkLevel3Eligibility "ref2" young_chain = (Returned true, young_chain)
  /\ level_created 3 young_chain
       (snd (processReferral "ref1" "newcomer" mobile_app young_chain))
     = true
  /\ map (fun r => (Referral.referrerId r, Referral.level r, Referral.bonus r,
                    referral_completed r))
       (referrals
          (snd (processReferral "ref1" "newcomer" mobile_app young_chain)))
     = [("ref1", 1, 100, true); ("ref2", 2, 50, true); ("ref3", 3, 25, true)]
  /\ balanceOf "ref3"
       (snd (processReferral "ref1" "newcomer" mobile_app young_chain))
     = Some 25.
Proof. vm_compute. repeat split. Qed.

(** Level 3 does not wait for level 2 either: ref2 has no wallet, so the
    level-2 referral stays pending, and the cascade creates the level-3
    record for ref3 all the same. *)
Lemma level3_created_with_level2_pending :
  map (fun r => (Referral.referrerId r, Referral.level r,
                 referral_completed r))
    (referrals (snd (processReferral "ref1" "newcomer" mobile_app
                       referral_chain)))
  = [("ref1", 1, true); ("ref2", 2, false); ("ref3", 3, true)]
  /\ level_created 3 referral_chain
       (snd (processReferral "ref1" "newcomer" mobile_app referral_chain))
     = true
  /\ level_completed 2 referral_chain
       (snd (processReferral "ref1" "newcomer" mobile_app referral_chain))
     = false.
Proof. vm_compute. repeat split. Qed.

(** ** Idempotence of the cascade *)

Lemma filter_none_of_find {A} (p q : A -> bool) l :
  find p l = None -> filter (fun x => p x && q x) l = [].
Proof.
  induction l as [|x l IH]; cbn [find filter]; [reflexivity|].
  destruct (p x); [discriminate|]. cbn [andb]. exact IH.
Qed.

(** C6.  A cascade for a pair that has a referrer on record and no
    referral yet, run twice in a row on a store that commits its writes:
    the first run succeeds; the second returns "Referral already exists" and
    leaves the store exactly as the first run left it, so it creates no
    record and credits no bonus; and the pair has exactly one level-1
    record. *)
Theorem processReferral_twice st referrerId referredId platform referrer :
  store_ok st = true -> faults st = [] ->
  find (byId referrerId) (users st) = Some referrer ->
  find (byPair referrerId referredId) (referrals st) = None ->
  exists first st1,
    processReferral referrerId referredId platform st = (Returned first, st1)
    /\ ReferralService.success first = true
    /\ processReferral referrerId referredId platform st1
       = (Returned {| success := false; referralId := None;
                      bonusProcessed := None;
                      error := Some "Referral already exists" |},
          st1)
    /\ List.length (level1_records referrerId referredId st1) = 1%nat.
Proof.
  intros Hok Hf Hr1 Hpair. apply store_ok_parts in Hok.
  destruct Hok as (_ & _ & _ & _ & Hb).
  destruct (processReferral_reliable st referrerId referredId platform Hf Hb)
    as (res & st1 & Hrun & Husers & Hcases).
  rewrite Hr1, Hpair in Hcases.
  destruct Hcases as (l1 & tail & Hrefs & -> & Hl1 & Hrr & Hrd & _ & Htail).
  assert (Hp1 : byPair referrerId referredId l1 = true).
  { unfold byPair. rewrite Hrr, Hrd, !String.eqb_refl. reflexivity. }
  exists {| success := true; referralId := Some (nextUuid st);
            bonusProcessed := Some (hasWallet referrerId st);
            error := None |}, st1.
  split; [exact Hrun|]. split; [reflexivity|]. split.
  - unfold processReferral. unfold_run. rewrite Husers, Hr1, Hrefs.
    rewrite (find_app_none _ _ _ Hpair). cbn [find]. rewrite Hp1.
    reflexivity.
  - unfold level1_records. rewrite Hrefs, filter_app.
    rewrite (filter_none_of_find _ _ _ Hpair). cbn [app filter].
    rewrite Hp1, (is_level_of 1 l1 1 Hl1). cbn [Z.eqb Pos.eqb andb].
    replace (filter (fun r => byPair referrerId referredId r && is_level 1 r)
               tail) with (@nil Referral.IReferral); [reflexivity|].
    symmetry.
    destruct (hasWallet referrerId st); [|subst tail; reflexivity].
    unfold higher_level_records in Htail.
    destruct (referrerOf referrerId st) as [level2Id|];
      [|subst tail; reflexivity].
    destruct Htail as (l2 & Hl2 & _ & _ & _ & Htail).
    assert (H2 : (byPair referrerId referredId l2 && is_level 1 l2) = false)
      by (rewrite (is_level_of 1 l2 2 Hl2); apply andb_false_r).
    destruct (referrerOf level2Id st);
      [destruct (level3_eligible level2Id st)|].
    + destruct Htail as (l3 & Hl3 & _ & _ & ->). cbn [filter].
      rewrite H2, (is_level_of 1 l3 3 Hl3), andb_false_r. reflexivity.
    + subst tail. cbn [filter]. rewrite H2. reflexivity.
    + subst tail. cbn [filter]. rewrite H2. reflexivity.
Qed.

Lemma processReferral_twice_witness :
  exists first st1,
    processReferral "ref1" "newcomer" mobile_app referral_chain_funded
    = (Returned first, st1)
    /\ ReferralService.success first = true
    /\ processReferral "ref1" "newcomer" mobile_app st1
       = (Returned {| success := false; referralId := None;
                      bonusProcessed := None;
                      error := Some "Referral already exists" |},
          st1)
    /\ List.length (level1_records "ref1" "newcomer" st1) = 1%nat.
Proof.
  assert (Hok : store_ok referral_chain_funded = true)
    by (vm_compute; reflexivity).
  exact (processReferral_twice referral_chain_funded "ref1" "newcomer"
           mobile_app
           (user_with "ref1" (1700000000000 - days 400) (Some "ref2"))
           Hok eq_refl eq_refl eq_refl).
Defined.

(** ** The scenarios of the specification *)

(** A sender with 1000 tips 500: the sender keeps 500, the recipient
    gains 490, and one fee transaction of 10 is written. *)
Example scenario_tip :
  balanceOf "alice"
    (snd (processTip "alice" "bob" 500 whatsapp None false two_wallets))
  = Some 500
  /\ balanceOf "bob"
       (snd (processTip "alice" "bob" 500 whatsapp None false two_wallets))
     = Some 490
  /\ map entry
       (transactions
          (snd (processTip "alice" "bob" 500 whatsapp None false
                  two_wallets)))
     = [(Transaction.fee, "alice", -10); (Transaction.tip_sent, "alice", -500);
        (Transaction.tip_received, "bob", 490)].
Proof. vm_compute. repeat split. Qed.

(** A level-2 referrer whose account is forty days old: the three
    levels are paid 100, 50 and 25. *)
Example scenario_three_levels :
  map (fun r => (Referral.referrerId r, Referral.level r, Referral.bonus r,
                 referral_completed r))
    (referrals
       (snd (processReferral "ref1" "newcomer" mobile_app
               referral_chain_funded)))
  = [("ref1", 1, 100, true); ("ref2", 2, 50, true); ("ref3", 3, 25, true)]
  /\ balanceOf "ref1"
       (snd (processReferral "ref1" "newcomer" mobile_app
               referral_chain_funded))
     = Some 100
  /\ balanceOf "ref2"
       (snd (processReferral "ref1" "newcomer" mobile_app
               referral_chain_funded))
     = Some 50
  /\ balanceOf "ref3"
       (snd (processReferral "ref1" "newcomer" mobile_app
               referral_chain_funded))
     = Some 25.
Proof. vm_compute. repeat split. Qed.

(** A withdrawal of 200 000 on a day whose withdrawals already total
    850 000 exceeds the daily limit of 1 000 000. *)
Example scenario_daily_withdrawal_limit :
  let earlier :=
    Transaction.createTransactionData
      {| Transaction.p_id := 0%nat; Transaction.p_userId := "alice";
         Transaction.p_type := Some Transaction.withdrawal;
         Transaction.p_amount := Some (-850000);
         Transaction.p_description := Some "Withdrawal";
         Transaction.p_status := Some Transaction.completed;
         Transaction.p_reference := None; Transaction.p_recipientId := None;
         Transaction.p_senderId := None; Transaction.p_currency := None;
         Transaction.p_fee := Some 0;
         Transaction.p_netAmount := Some 850000;
         Transaction.p_metadata := None |}
      (1700000000000 - 3600000) in
  validateTransactionLimits 3600000 1700000000000 200000 withdrawal [earlier]
  = {| valid := false;
       limitError := Some (DailyLimitExceeded withdrawal 1000000) |}.
Proof. vm_compute. reflexivity. Qed.

(** ** Well-formed stores stay well-formed *)

Section CollectionInvariants.

Context {D : Type} (doc_id : D -> DocId).

Lemma doc_exists_ids i (c c' : list D) :
  map doc_id c = map doc_id c' ->
  doc_exists doc_id i c = doc_exists doc_id i c'.
Proof.
  unfold doc_exists. revert c'.
  induction c as [|d c IH]; intros [|d' c'] H; try discriminate;
    [reflexivity|].
  cbn in *. inversion H as [[Hd Hc]]. rewrite Hd, (IH c' Hc). reflexivity.
Qed.

Lemma unique_ids_ids (c c' : list D) :
  map doc_id c = map doc_id c' ->
  unique_ids doc_id c = unique_ids doc_id c'.
Proof.
  revert c'.
  induction c as [|d c IH]; intros [|d' c'] H; try discriminate;
    [reflexivity|].
  cbn in *. inversion H as [[Hd Hc]].
  rewrite Hd, (IH c' Hc), (doc_exists_ids _ c c' Hc). reflexivity.
Qed.

Lemma map_id_update i f (c : list D) :
  (forall d, Nat.eqb (doc_id d) i = true -> doc_id (f d) = doc_id d) ->
  map doc_id (doc_update doc_id i f c) = map doc_id c.
Proof.
  intros Hf. unfold doc_update. rewrite map_map. apply map_ext_in.
  intros d _. destruct (Nat.eqb (doc_id d) i) eqn:E; [apply Hf; exact E|].
  reflexivity.
Qed.

Lemma unique_ids_update i f (c : list D) :
  (forall d, doc_id (f d) = doc_id d) ->
  unique_ids doc_id (doc_update doc_id i f c) = unique_ids doc_id c.
Proof.
  intros Hf. apply unique_ids_ids, map_id_update. intros d _. apply Hf.
Qed.

Lemma unique_ids_snoc (c : list D) d :
  unique_ids doc_id c = true -> doc_exists doc_id (doc_id d) c = false ->
  unique_ids doc_id (c ++ [d]) = true.
Proof.
  intros Hu Hd. induction c as [|x c IH]; [reflexivity|].
  cbn [app unique_ids] in *. apply andb_prop in Hu. destruct Hu as [Hx Hu].
  unfold doc_exists in Hd. cbn [existsb] in Hd.
  apply orb_false_iff in Hd. destruct Hd as [Hxd Hd].
  rewrite (IH Hu Hd), andb_true_r, doc_exists_app.
  apply negb_true_iff in Hx. rewrite Hx. unfold doc_exists. cbn [existsb].
  rewrite Nat.eqb_sym, Hxd. reflexivity.
Qed.

Lemma unique_ids_set i d (c : list D) :
  unique_ids doc_id c = true -> doc_id d = i ->
  unique_ids doc_id (doc_set doc_id i d c) = true.
Proof.
  intros Hu Hd. unfold doc_set.
  destruct (doc_exists doc_id i c) eqn:E.
  - rewrite (unique_ids_ids _ c); [exact Hu|]. apply map_id_update.
    intros x Hx. apply Nat.eqb_eq in Hx. congruence.
  - apply unique_ids_snoc; [exact Hu|]. rewrite Hd. exact E.
Qed.

Lemma ids_below_update n i f (c : list D) :
  ids_below doc_id n c = true ->
  (forall d, doc_id (f d) = doc_id d) ->
  ids_below doc_id n (doc_update doc_id i f c) = true.
Proof.
  unfold ids_below, doc_update. rewrite !forallb_forall.
  intros Hc Hf y Hy. apply in_map_iff in Hy. destruct Hy as (x & <- & Hx).
  destruct (Nat.eqb (doc_id x) i); [rewrite Hf|]; apply Hc; exact Hx.
Qed.

Lemma ids_below_set n i d (c : list D) :
  ids_below doc_id n c = true -> (doc_id d < n)%nat ->
  ids_below doc_id n (doc_set doc_id i d c) = true.
Proof.
  intros Hc Hd. unfold doc_set. destruct (doc_exists doc_id i c).
  - unfold ids_below, doc_update in *. rewrite forallb_forall in *.
    intros y Hy. apply in_map_iff in Hy. destruct Hy as (x & <- & Hx).
    destruct (Nat.eqb (doc_id x) i); [apply Nat.ltb_lt; exact Hd|].
    apply Hc. exact Hx.
  - apply ids_below_app; assumption.
Qed.

End CollectionInvariants.

Ltac store_ok_writes :=
  repeat first
    [ assumption
    | rewrite unique_ids_update by reflexivity
    | apply unique_ids_set; [|reflexivity]
    | apply ids_below_update; [|reflexivity]
    | apply ids_below_set; [|cbn; lia]
    | eapply ids_below_mono; [eassumption|lia] ].

Ltac store_ok_goal :=
  unfold store_ok in *; store_simpl;
  repeat match goal with
  | H : _ && _ = true |- _ => apply andb_prop in H; destruct H
  end;
  repeat (apply andb_true_intro; split);
  store_ok_writes.

(** Credits, debits and tips keep the store well-formed, wherever they
    stop. *)
Lemma perform_store_ok op st :
  store_ok st = true -> store_ok (snd (perform op st)) = true.
Proof.
  intros Hst. destruct (perform op st) as [o st'] eqn:Hrun. cbn [snd].
  destruct op; cbn [perform] in *;
    [unfold creditWallet in Hrun|unfold processReferralBonus in Hrun
    |unfold debitWallet in Hrun|unfold processTip in Hrun].
  all: run_any; store_ok_goal.
Qed.

Lemma processReferralBonus_store_ok referrerId referredId level bonusAmount
    st o st' :
  store_ok st = true ->
  processReferralBonus referrerId referredId level bonusAmount st = (o, st') ->
  store_ok st' = true.
Proof.
  intros Hst Hrun.
  pose proof (perform_store_ok
                (ReferralBonus referrerId referredId level bonusAmount) st Hst)
    as H.
  cbn [perform] in H. rewrite Hrun in H. exact H.
Qed.

Ltac step_referral :=
  match goal with
  | H : getUserById _ _ = (_, _) |- _ => unfold getUserById in H; inv H
  | H : getReferralByUsers _ _ _ = (_, _) |- _ =>
      unfold getReferralByUsers in H; inv H
  | H : referrals_set _ _ _ = (_, _) |- _ => unfold referrals_set in H
  | H : referrals_update _ _ _ = (_, _) |- _ => unfold referrals_update in H
  | H : checkLevel3Eligibility _ _ = (_, _) |- _ =>
      unfold checkLevel3Eligibility in H
  | H : (match truthy ?o with Some _ => _ | None => _ end) _ = (_, _) |- _ =>
      destruct (truthy o) eqn:?
  | H : processReferralBonus _ _ _ _ ?s = (_, ?s') |- _ =>
      let Hs := fresh "Hok" in
      assert (Hs : store_ok s = true) by (clear H; store_ok_goal);
      apply (processReferralBonus_store_ok _ _ _ _ _ _ _ Hs) in H
  end.

Ltac run_referral := repeat (first [step_any|step_referral]; subst; store_simpl).

Lemma createHigherLevelReferral_store_ok referrerId referredId level platform
    st o st' :
  store_ok st = true ->
  createHigherLevelReferral referrerId referredId level platform st
  = (o, st') ->
  store_ok st' = true.
Proof.
  intros Hst Hrun. unfold createHigherLevelReferral in Hrun.
  run_referral; store_ok_goal.
Qed.

Lemma processHigherLevelReferrals_store_ok referrerId referredId platform
    st o st' :
  store_ok st = true ->
  processHigherLevelReferrals referrerId referredId platform st = (o, st') ->
  store_ok st' = true.
Proof.
  intros Hst Hrun. unfold processHigherLevelReferrals in Hrun.
  repeat (run_referral;
          try match goal with
          | H : createHigherLevelReferral _ _ _ _ ?s = (_, ?s') |- _ =>
              let Hs := fresh "Hok" in
              assert (Hs : store_ok s = true) by (clear H; store_ok_goal);
              apply (createHigherLevelReferral_store_ok _ _ _ _ _ _ _ Hs) in H
          end).
  all: try match goal with H : ?e = true |- _ = ?e => rewrite H end.
  all: store_ok_goal.
Qed.

(** The referral cascade keeps the store well-formed, wherever it
    stops. *)
Lemma processReferral_store_ok referrerId referredId platform st :
  store_ok st = true ->
  store_ok (snd (processReferral referrerId referredId platform st)) = true.
Proof.
  intros Hst.
  destruct (processReferral referrerId referredId platform st) as [o st']
    eqn:Hrun.
  cbn [snd]. unfold processReferral in Hrun.
  repeat (run_referral;
          try match goal with
          | H : processHigherLevelReferrals _ _ _ ?s = (_, ?s') |- _ =>
              let Hs := fresh "Hok" in
              assert (Hs : store_ok s = true) by (clear H; store_ok_goal);
              apply (processHigherLevelReferrals_store_ok _ _ _ _ _ _ Hs)
                in H
          end).
  all: try match goal with H : ?e = true |- _ = ?e => rewrite H end.
  all: store_ok_goal.
Qed.

(** ** Wallets on demand *)

Lemma find_set_new ws userId0 i w :
  find (byUser userId0) ws = None -> byUser userId0 w = true ->
  find (byUser userId0) (doc_set Wallet.id i w ws) = Some w.
Proof.
  intros Hnone Hw. unfold doc_set.
  destruct (doc_exists Wallet.id i ws) eqn:He.
  - unfold doc_update, doc_exists in *.
    induction ws as [|x ws IH]; cbn in *; [discriminate|].
    destruct (byUser userId0 x) eqn:Hx; [discriminate|].
    destruct (Nat.eqb (Wallet.id x) i); cbn in *.
    + rewrite Hw. reflexivity.
    + rewrite Hx. apply IH; assumption.
  - rewrite find_app_none by assumption. cbn. rewrite Hw. reflexivity.
Qed.

(** X1. [ensureWalletExists] is idempotent: the wallet one call returns
    is the wallet every later call returns, whatever currency it is asked
    for, and the later call writes nothing. *)
Theorem ensureWalletExists_idempotent st userId0 currency0 currency1 w st' :
  ensureWalletExists userId0 currency0 st = (Returned w, st') ->
  ensureWalletExists userId0 currency1 st' = (Returned w, st')
  /\ Wallet.userId w = userId0.
Proof.
  intros Hrun. unfold ensureWalletExists in *.
  run_returned.
  - unfold await, getWalletByUserId. rewrite Heqo. split; [reflexivity|].
    apply find_some in Heqo. apply String.eqb_eq. apply Heqo.
  - unfold await, getWalletByUserId. store_simpl_goal.
    rewrite find_set_new; [split; reflexivity|assumption|].
    unfold byUser. cbn. apply String.eqb_refl.
Qed.

Lemma ensureWalletExists_idempotent_witness :
  exists w st',
    ensureWalletExists "carol" None two_wallets = (Returned w, st')
    /\ ensureWalletExists "carol" (Some "USD") st' = (Returned w, st')
    /\ Wallet.userId w = "carol".
Proof.
  assert (H : ensureWalletExists "carol" None two_wallets
              = (Returned (Wallet.createWalletData 2%nat "carol" None
                             1700000000000),
                 snd (ensureWalletExists "carol" None two_wallets)))
    by (vm_compute; reflexivity).
  do 2 eexists. split; [exact H|].
  exact (ensureWalletExists_idempotent _ _ _ (Some "USD") _ _ H).
Defined.

Lemma filter_perm {A} (f : A -> bool) l l' :
  Permutation l l' -> Permutation (filter f l) (filter f l').
Proof.
  intros H. induction H as [|x l l' H IH|x y l|l l' l'' H IH H' IH'].
  - constructor.
  - cbn [filter]. destruct (f x); [constructor|]; exact IH.
  - cbn [filter]. destruct (f x), (f y); try reflexivity. apply perm_swap.
  - eapply perm_trans; eassumption.
Qed.

Lemma find_filter_head {A} (p : A -> bool) l :
  find p l = hd_error (filter p l).
Proof.
  induction l as [|x l IH]; cbn [find filter]; [reflexivity|].
  destruct (p x); [reflexivity|exact IH].
Qed.

Lemma filter_byUser_other v userId0 w ws :
  Wallet.userId w = userId0 -> v <> userId0 ->
  filter (byUser v) (ws ++ [w]) = filter (byUser v) ws.
Proof.
  intros Hw Hne. rewrite filter_app. cbn [filter]. unfold byUser at 2.
  rewrite Hw.
  replace (String.eqb userId0 v) with false; [apply app_nil_r|].
  symmetry. apply String.eqb_neq. congruence.
Qed.

(** X2. [createWallet] does not look for a wallet of the user: whenever
    it returns, on a well-formed store, the collection holds one document
    more, under an identifier no wallet had, for that user, active, with a
    zero balance and zero totals, in the currency asked for or NGN.  The
    user has one wallet more than before, two when there was one already,
    and which of them a later query reads is for the order of the
    collection to say; the wallets of every other user, and what a query
    for them returns, are as before. *)
Theorem createWallet_adds_document st userId0 currency0 w st' :
  store_ok st = true ->
  createWallet userId0 currency0 st = (Returned w, st') ->
  Permutation (wallets st') (w :: wallets st)
  /\ ~ In (Wallet.id w) (map Wallet.id (wallets st))
  /\ Wallet.userId w = userId0
  /\ Wallet.balance w = 0
  /\ totals w = (0, 0, 0, 0, 0)
  /\ Wallet.isActive w = true
  /\ Wallet.currency w = or_string currency0 "NGN"
  /\ List.length (filter (byUser userId0) (wallets st'))
     = S (List.length (filter (byUser userId0) (wallets st)))
  /\ forall v,
       v <> userId0 ->
       filter (byUser v) (wallets st') = filter (byUser v) (wallets st)
       /\ find (byUser v) (wallets st') = find (byUser v) (wallets st).
Proof.
  intros Hok Hrun. apply store_ok_parts in Hok.
  destruct Hok as (_ & Hb & _). unfold createWallet in Hrun.
  run_returned.
  rewrite doc_set_fresh by (eapply ids_below_fresh; eauto).
  split; [apply Permutation_sym, Permutation_cons_append|].
  split.
  { cbn [Wallet.id Wallet.createWalletData]. intros Hin.
    apply in_map_iff in Hin. destruct Hin as (x & Hid & Hx).
    unfold ids_below in Hb. rewrite forallb_forall in Hb.
    specialize (Hb x Hx). apply Nat.ltb_lt in Hb. lia. }
  repeat (split; [reflexivity|]).
  split.
  { rewrite filter_app, length_app. cbn [filter]. unfold byUser at 2.
    cbn [Wallet.userId Wallet.createWalletData].
    rewrite String.eqb_refl. cbn [List.length]. lia. }
  intros v Hne.
  assert (Hf : filter (byUser v)
                 (wallets st
                  ++ [Wallet.createWalletData (nextUuid st) userId0 currency0
                        (clock st)])
               = filter (byUser v) (wallets st))
    by (apply (filter_byUser_other v userId0); [reflexivity|exact Hne]).
  split; [exact Hf|].
  rewrite !find_filter_head, Hf. reflexivity.
Qed.

(** Alice has a wallet with 1000 in it and is given another: she has
    two, of 1000 and of nothing, and Bob's is as it was. *)
Lemma createWallet_adds_document_witness :
  exists w st',
    createWallet "alice" (Some "USD") two_wallets = (Returned w, st')
    /\ Wallet.balance w = 0
    /\ List.length (filter (byUser "alice") (wallets st')) = 2%nat
    /\ Permutation
         (map Wallet.balance (filter (byUser "alice") (wallets st')))
         [0; 1000]
    /\ balanceOf "bob" st' = Some 0.
Proof.
  assert (H : createWallet "alice" (Some "USD") two_wallets
              = (Returned (Wallet.createWalletData 2%nat "alice" (Some "USD")
                             1700000000000),
                 snd (createWallet "alice" (Some "USD") two_wallets)))
    by (vm_compute; reflexivity).
  assert (Hok : store_ok two_wallets = true) by (vm_compute; reflexivity).
  do 2 eexists. split; [exact H|].
  destruct (createWallet_adds_document _ _ _ _ _ Hok H)
    as (Hperm & _ & Hu & Hb & _ & _ & _ & Hlen & Hother).
  split; [exact Hb|].
  split; [rewrite Hlen; vm_compute; reflexivity|].
  split.
  { eapply Permutation_trans;
      [apply Permutation_map, filter_perm; exact Hperm|].
    vm_compute. apply Permutation_refl. }
  unfold balanceOf.
  rewrite (proj2 (Hother "bob" ltac:(discriminate))). reflexivity.
Defined.

(** ** The balance a result reports *)

(** X3. The [newBalance] a successful credit, referral bonus, debit or
    tip reports is the balance [getWalletBalance] then reads for the
    account it was booked on (the sender, for a tip), and the
    [availableBalance] of that summary is the balance itself. *)
Theorem reported_balance_read_back op st res st' :
  store_ok st = true ->
  perform op st = (Returned res, st') ->
  WalletService.success res = true ->
  exists wb,
    getWalletBalance (account op) st' = (Returned wb, st')
    /\ newBalance res = Some (WalletBalance.balance wb)
    /\ WalletBalance.availableBalance wb = WalletBalance.balance wb.
Proof.
  intros Hok Hrun Hs. apply store_ok_parts in Hok.
  destruct Hok as (Hu & Hw & _).
  destruct op; cbn [perform account] in *;
    [unfold creditWallet in Hrun|unfold processReferralBonus in Hrun
    |unfold debitWallet in Hrun|unfold processTip in Hrun].
  all: apply try_catch_Returned in Hrun;
    destruct Hrun as [Hrun|(msg & st1 & _ & Hh)]; [|inv Hh; discriminate].
  all: run_returned.
  all: unfold getWalletBalance, await, getWalletByUserId; store_simpl_goal.
  all: try match goal with
    | Hs : find (byUser ?s) (wallets ?st) = Some ?sw,
      Hr : find (byUser ?r) (wallets ?st) = None,
      Hu : unique_ids Wallet.id (wallets ?st) = true,
      Hw : ids_below Wallet.id _ (wallets ?st) = true |- _ =>
        destruct (created_wallet_found (wallets st) (nextUuid st) s r sw
                    (Some (Wallet.currency sw)) (clock st) Hu Hw Hs Hr)
          as (Hset & Hu' & Hs' & Hr');
        rewrite Hset in *; clear Hset
    end.
  all: try match goal with
    | Hne : String.eqb ?s ?r = false,
      Hs : find (byUser ?s) ?ws = Some ?sw,
      Hr : find (byUser ?r) ?ws = Some ?rw,
      Hu1 : unique_ids Wallet.id ?ws = true |- _ =>
        epose proof (tip_updates_found ws s r sw rw _ _ Hu1 Hne Hs Hr)
          as [Hfs Hfr];
        rewrite Hfs
    end.
  all: try match goal with
    | H : find (byUser ?u) ?ws = Some ?w |- context [doc_update _ _ _ ?ws] =>
        rewrite (find_updated _ _ _ _ H)
    end.
  all: eexists; split; [reflexivity|split; reflexivity].
Qed.

Lemma reported_balance_read_back_witness :
  exists res st' wb,
    perform (SendTip "alice" "bob" 500 mobile_app None false) two_wallets
    = (Returned res, st')
    /\ getWalletBalance "alice" st' = (Returned wb, st')
    /\ newBalance res = Some (WalletBalance.balance wb)
    /\ WalletBalance.availableBalance wb = 500.
Proof.
  assert (Hok : store_ok two_wallets = true) by (vm_compute; reflexivity).
  assert (Hrun :
    perform (SendTip "alice" "bob" 500 mobile_app None false) two_wallets
    = (Returned (succeeded 2%nat 500),
       snd (perform (SendTip "alice" "bob" 500 mobile_app None false)
              two_wallets)))
    by (vm_compute; reflexivity).
  destruct (reported_balance_read_back _ _ _ _ Hok Hrun eq_refl)
    as (wb & Hget & Hnew & Hav).
  exists (succeeded 2%nat 500). eexists. exists wb.
  split; [exact Hrun|]. split; [exact Hget|]. split; [exact Hnew|].
  rewrite Hav. cbn in Hnew. congruence.
Defined.

(** ** Ordered queries and pages *)

Section OrderByFacts.

Context {D : Type} (key : D -> Z).

Lemma insert_desc_perm d l : Permutation (insert_desc key d l) (d :: l).
Proof.
  induction l as [|x l IH]; cbn; [reflexivity|].
  destruct (key x <? key d); [reflexivity|].
  rewrite IH. apply perm_swap.
Qed.

Lemma orderBy_desc_perm c : Permutation (orderBy_desc key c) c.
Proof.
  unfold orderBy_desc. induction c as [|d c IH]; cbn; [reflexivity|].
  rewrite insert_desc_perm. constructor. exact IH.
Qed.

Lemma insert_desc_sorted d l :
  descending key l -> descending key (insert_desc key d l).
Proof.
  unfold descending. induction l as [|x l IH]; intros Hl; cbn.
  - constructor; constructor.
  - inversion Hl as [|? ? Hl' Hx]; subst.
    destruct (key x <? key d) eqn:E.
    + apply Z.ltb_lt in E. constructor; [exact Hl|].
      constructor; [lia|].
      eapply Forall_impl; [|exact Hx]. cbn. intros; lia.
    + apply Z.ltb_ge in E. constructor; [apply IH; exact Hl'|].
      eapply Permutation_Forall;
        [apply Permutation_sym, insert_desc_perm|].
      constructor; assumption.
Qed.

Lemma orderBy_desc_sorted c : descending key (orderBy_desc key c).
Proof.
  unfold orderBy_desc. induction c as [|d c IH]; cbn.
  - constructor.
  - apply insert_desc_sorted. exact IH.
Qed.

Lemma sort_desc_acc c acc :
  descending key acc ->
  descending key (fold_left (fun sorted d => insert_desc key d sorted) c acc)
  /\ Permutation (fold_left (fun sorted d => insert_desc key d sorted) c acc)
       (acc ++ c).
Proof.
  revert acc. induction c as [|d c IH]; intros acc Hacc; cbn.
  - rewrite app_nil_r. split; [exact Hacc|reflexivity].
  - destruct (IH _ (insert_desc_sorted d acc Hacc)) as [Hs Hp].
    split; [exact Hs|]. rewrite Hp, insert_desc_perm.
    apply Permutation_middle.
Qed.

Lemma descending_firstn n l :
  descending key l -> descending key (firstn n l).
Proof.
  unfold descending. revert n. induction l as [|x l IH]; intros n Hl.
  - rewrite firstn_nil. constructor.
  - destruct n; cbn; [constructor|].
    inversion Hl as [|? ? Hl' Hx]; subst. constructor; [apply IH, Hl'|].
    rewrite Forall_forall in *. intros y Hy. apply Hx.
    rewrite <- (firstn_skipn n l). apply in_or_app. left. exact Hy.
Qed.

Lemma descending_skipn n l :
  descending key l -> descending key (skipn n l).
Proof.
  unfold descending. revert n. induction l as [|x l IH]; intros n Hl.
  - rewrite skipn_nil. constructor.
  - destruct n; cbn; [exact Hl|].
    inversion Hl; subst. apply IH. assumption.
Qed.

End OrderByFacts.

Lemma firstn_plus {A} n m (l : list A) :
  firstn (n + m) l = firstn n l ++ firstn m (skipn n l).
Proof.
  revert l. induction n as [|n IH]; intros l; [reflexivity|].
  destruct l as [|x l]; cbn; [rewrite firstn_nil; reflexivity|].
  f_equal. apply IH.
Qed.

Lemma In_firstn {A} n (l : list A) x : In x (firstn n l) -> In x l.
Proof.
  intros H. rewrite <- (firstn_skipn n l). apply in_or_app. left. exact H.
Qed.

Lemma In_skipn {A} n (l : list A) x : In x (skipn n l) -> In x l.
Proof.
  intros H. rewrite <- (firstn_skipn n l). apply in_or_app. right. exact H.
Qed.

(** X4. A page of [getTransactionHistory] holds at most [limit]
    transactions, each of them a transaction of the collection that
    belongs to the user, the newest first; reading it leaves the store as
    it was. *)
Theorem getTransactionHistory_page userId0 limit offset st :
  exists page,
    getTransactionHistory userId0 limit offset st = (Returned page, st)
    /\ (List.length page <= limit)%nat
    /\ (forall t, In t page ->
          Transaction.userId t = userId0 /\ In t (transactions st))
    /\ descending Transaction.createdAt page.
Proof.
  eexists. split; [reflexivity|]. split; [apply firstn_le_length|].
  split.
  - intros t Ht. apply In_firstn, In_skipn in Ht.
    apply (Permutation_in _ (orderBy_desc_perm _ _)) in Ht.
    apply filter_In in Ht. destruct Ht as [Hin Hu].
    split; [apply String.eqb_eq; exact Hu|exact Hin].
  - apply descending_firstn, descending_skipn, orderBy_desc_sorted.
Qed.

(** X5. Pages follow one another: the page of [limit] transactions at
    [offset] followed by the page of [limit'] at [offset + limit] is the
    page of [limit + limit'] at [offset], so that paging neither repeats
    nor skips a transaction. *)
Theorem getTransactionHistory_pages userId0 limit limit' offset st :
  exists first second,
    getTransactionHistory userId0 limit offset st = (Returned first, st)
    /\ getTransactionHistory userId0 limit' (offset + limit) st
       = (Returned second, st)
    /\ getTransactionHistory userId0 (limit + limit') offset st
       = (Returned (first ++ second), st).
Proof.
  do 2 eexists. split; [reflexivity|]. split; [reflexivity|].
  unfold getTransactionHistory. rewrite firstn_plus, skipn_skipn.
  rewrite (Nat.add_comm limit offset). reflexivity.
Qed.

(** X6. A page from the start that is long enough for all the
    transactions of a user holds each of them exactly once. *)
Theorem getTransactionHistory_complete userId0 limit st :
  (List.length (filter (byOwner userId0) (transactions st)) <= limit)%nat ->
  exists page,
    getTransactionHistory userId0 limit 0 st = (Returned page, st)
    /\ Permutation page (filter (byOwner userId0) (transactions st)).
Proof.
  intros Hlen. eexists. split; [reflexivity|]. cbn [skipn].
  rewrite firstn_all2; [apply orderBy_desc_perm|].
  rewrite (Permutation_length (orderBy_desc_perm _ _)). exact Hlen.
Qed.

Lemma getTransactionHistory_complete_witness :
  exists page,
    getTransactionHistory "alice" 50 0 after_tip = (Returned page, after_tip)
    /\ Permutation page
         (filter (byOwner "alice") (transactions after_tip)).
Proof.
  apply (getTransactionHistory_complete "alice" 50 after_tip).
  vm_compute. lia.
Defined.

(** ** Statistics of a wallet *)

Lemma count_fold currentMonth l s0 :
  0 <= WalletStatistics.largestTransaction s0 ->
  let s := fold_left (WalletStatistics.count currentMonth) l s0 in
  WalletStatistics.totalTransactions s = WalletStatistics.totalTransactions s0
  /\ WalletStatistics.averageTransactionAmount s
     = WalletStatistics.averageTransactionAmount s0
  /\ WalletStatistics.totalDeposits s
     = WalletStatistics.totalDeposits s0
       + sum_abs (of_type Transaction.deposit l)
  /\ WalletStatistics.totalWithdrawals s
     = WalletStatistics.totalWithdrawals s0
       + sum_abs (of_type Transaction.withdrawal l)
  /\ WalletStatistics.totalTipsSent s
     = WalletStatistics.totalTipsSent s0
       + sum_abs (of_type Transaction.tip_sent l)
  /\ WalletStatistics.totalTipsReceived s
     = WalletStatistics.totalTipsReceived s0
       + sum_abs (of_type Transaction.tip_received l)
  /\ WalletStatistics.totalReferralEarnings s
     = WalletStatistics.totalReferralEarnings s0
       + sum_abs (of_type Transaction.referral_bonus l)
  /\ WalletStatistics.largestTransaction s
     = Z.max (WalletStatistics.largestTransaction s0) (max_abs l)
  /\ WalletStatistics.deposits (WalletStatistics.monthlyStats s)
     = WalletStatistics.deposits (WalletStatistics.monthlyStats s0)
       + sum_abs (of_type_counted_since Transaction.deposit currentMonth l)
  /\ WalletStatistics.withdrawals (WalletStatistics.monthlyStats s)
     = WalletStatistics.withdrawals (WalletStatistics.monthlyStats s0)
       + sum_abs (of_type_counted_since Transaction.withdrawal currentMonth l)
  /\ WalletStatistics.tips (WalletStatistics.monthlyStats s)
     = WalletStatistics.tips (WalletStatistics.monthlyStats s0)
       + sum_abs (of_type_counted_since Transaction.tip_sent currentMonth l).
Proof.
  revert s0. induction l as [|t l IH]; intros s0 Hl; cbn zeta.
  - cbn. repeat split; lia.
  - cbn [fold_left].
    specialize (IH (WalletStatistics.count currentMonth s0 t)).
    cbn zeta in IH.
    destruct IH as (H1 & H2 & H3 & H4 & H5 & H6 & H7 & H8 & H9 & H10 & H11).
    { unfold WalletStatistics.count, Math_abs.
      destruct (Transaction.type t); cbn;
        destruct (WalletStatistics.largestTransaction s0
                  <? Z.abs (Transaction.amount t)); lia. }
    rewrite H1, H2, H3, H4, H5, H6, H7, H8, H9, H10, H11.
    unfold of_type, of_type_counted_since, sum_abs, max_abs, has_type,
      WalletStatistics.count, Math_abs.
    cbn [filter fold_right].
    destruct (Transaction.type t);
      destruct (timestamp_ge_date (Transaction.createdAt t) currentMonth);
      destruct (WalletStatistics.largestTransaction s0
                <? Z.abs (Transaction.amount t)) eqn:E;
      cbn;
      try (apply Z.ltb_lt in E); try (apply Z.ltb_ge in E);
      repeat split; lia.
Qed.

Lemma sum_abs_by_type l :
  sum_abs l
  = sum_abs (of_type Transaction.deposit l)
    + sum_abs (of_type Transaction.withdrawal l)
    + sum_abs (of_type Transaction.tip_sent l)
    + sum_abs (of_type Transaction.tip_received l)
    + sum_abs (of_type Transaction.referral_bonus l)
    + sum_abs (of_type Transaction.fee l).
Proof.
  unfold of_type, has_type, sum_abs.
  induction l as [|t l IH]; cbn [filter fold_right]; [reflexivity|].
  rewrite IH. destruct (Transaction.type t); cbn [fold_right]; lia.
Qed.

Lemma getDate_range utcOffset now : 1 <= getDate utcOffset now <= 31.
Proof.
  unfold getDate. cbv zeta.
  match goal with
  | |- _ <= ?doy - (153 * ?mp + 2) / 5 + 1 <= _ =>
      pose proof (Z.div_mod (5 * doy + 2) 153 ltac:(lia));
      pose proof (Z.mod_pos_bound (5 * doy + 2) 153 ltac:(lia));
      pose proof (Z.div_mod (153 * mp + 2) 5 ltac:(lia));
      pose proof (Z.mod_pos_bound (153 * mp + 2) 5 ltac:(lia));
      generalize dependent ((153 * mp + 2) / 5);
      generalize dependent ((153 * mp + 2) mod 5);
      generalize dependent ((5 * doy + 2) mod 153);
      generalize dependent mp; generalize dependent doy
  end.
  intros. lia.
Qed.

(** The first day of the month is at most 31 days back. *)
Lemma startOfMonth_bounds utcOffset now :
  now - 31 * msPerDay < startOfMonth utcOffset now <= now.
Proof.
  unfold startOfMonth, setHours0.
  pose proof (getDate_range utcOffset now) as Hd.
  set (x := now - (getDate utcOffset now - 1) * msPerDay).
  pose proof (Z.mod_pos_bound (x + utcOffset) msPerDay
                ltac:(unfold msPerDay; lia)) as Hm.
  unfold msPerDay in *. subst x. nia.
Qed.

(** No [Timestamp] of our days is at or after, as JavaScript compares
    them, a [Date] of the last 31 days. *)
Lemma timestamp_ge_date_never now stored date :
  64878875676 <= now -> stored <= now -> now - 31 * 86400000 < date ->
  timestamp_ge_date stored date = false.
Proof.
  intros Hnow Hstored Hdate. unfold timestamp_ge_date, timestamp_valueOf.
  apply Z.leb_gt. lia.
Qed.

Lemma of_type_counted_since_none ty now since l :
  64878875676 <= now -> now - 31 * 86400000 < since ->
  (forall t, In t l -> Transaction.createdAt t <= now) ->
  of_type_counted_since ty since l = [].
Proof.
  intros Hnow Hsince Hl. unfold of_type_counted_since.
  induction l as [|t l IH]; cbn [filter]; [reflexivity|].
  rewrite (timestamp_ge_date_never now) by
    (first [assumption|apply Hl; left; reflexivity]).
  rewrite andb_false_r. apply IH. intros x Hx. apply Hl. right. exact Hx.
Qed.

(** A page of the history holds transactions of the store. *)
Lemma page_in_store userId0 limit offset st t :
  In t (firstn limit
          (skipn offset
             (orderBy_desc Transaction.createdAt
                (filter (byOwner userId0) (transactions st))))) ->
  In t (transactions st).
Proof.
  intros H. apply In_firstn, In_skipn in H.
  apply (Permutation_in _ (orderBy_desc_perm _ _)) in H.
  apply filter_In in H. apply H.
Qed.

Lemma history_in_store userId0 limit offset st page t :
  fst (getTransactionHistory userId0 limit offset st) = Returned page ->
  In t page -> In t (transactions st).
Proof.
  unfold getTransactionHistory. cbn [fst]. intros H Ht.
  injection H as <-. exact (page_in_store _ _ _ _ _ Ht).
Qed.

Lemma clock_of_our_days_check st :
  (64878875676 <=? clock st)
  && forallb (fun u => User.createdAt u <=? clock st) (users st)
  && forallb (fun t => Transaction.createdAt t <=? clock st)
       (transactions st)
  = true ->
  clock_of_our_days st.
Proof.
  intros H. apply andb_true_iff in H. destruct H as [H Ht].
  apply andb_true_iff in H. destruct H as [Hc Hu].
  rewrite forallb_forall in Hu, Ht.
  split; [apply Z.leb_le; exact Hc|].
  split; intros x Hx; apply Z.leb_le; auto.
Qed.

(** X7. [getWalletStatistics] reads the 1000 newest transactions of the
    user and nothing else: it counts them, gives for each of the five
    categories the sum of the absolute amounts of the transactions of that
    type, and as the largest transaction the largest absolute amount of
    them all; it never changes the store.  The monthly figures count, of
    the deposits, withdrawals and tips sent, those whose stored date, the
    [Timestamp] it is, compares at or after the first day of the month:
    on a store of our days none does, and the three monthly figures are
    zero whatever was booked this month. *)
Theorem getWalletStatistics_totals utcOffset userId0 st :
  exists page stats,
    getTransactionHistory userId0 1000 0 st = (Returned page, st)
    /\ getWalletStatistics utcOffset userId0 st = (Returned stats, st)
    /\ WalletStatistics.totalTransactions stats = List.length page
    /\ (List.length page <= 1000)%nat
    /\ WalletStatistics.totalDeposits stats
       = sum_abs (of_type Transaction.deposit page)
    /\ WalletStatistics.totalWithdrawals stats
       = sum_abs (of_type Transaction.withdrawal page)
    /\ WalletStatistics.totalTipsSent stats
       = sum_abs (of_type Transaction.tip_sent page)
    /\ WalletStatistics.totalTipsReceived stats
       = sum_abs (of_type Transaction.tip_received page)
    /\ WalletStatistics.totalReferralEarnings stats
       = sum_abs (of_type Transaction.referral_bonus page)
    /\ WalletStatistics.largestTransaction stats = max_abs page
    /\ WalletStatistics.monthlyStats stats
       = {| WalletStatistics.deposits :=
              sum_abs (of_type_counted_since Transaction.deposit
                         (startOfMonth utcOffset (clock st)) page);
            WalletStatistics.withdrawals :=
              sum_abs (of_type_counted_since Transaction.withdrawal
                         (startOfMonth utcOffset (clock st)) page);
            WalletStatistics.tips :=
              sum_abs (of_type_counted_since Transaction.tip_sent
                         (startOfMonth utcOffset (clock st)) page) |}
    /\ (clock_of_our_days st ->
        WalletStatistics.monthlyStats stats
        = {| WalletStatistics.deposits := 0;
             WalletStatistics.withdrawals := 0;
             WalletStatistics.tips := 0 |}).
Proof.
  do 2 eexists. split; [reflexivity|].
  unfold getWalletStatistics, try_catch, await, getTransactionHistory,
    new_Date, resolve.
  split; [reflexivity|].
  set (page := firstn 1000 _).
  assert (Hpage : forall t, In t page -> In t (transactions st))
    by (intros t Ht; exact (page_in_store _ _ _ _ _ Ht)).
  pose proof (count_fold (startOfMonth utcOffset (clock st)) page
                (WalletStatistics.empty (List.length page))
                ltac:(cbn; lia)) as H.
  cbn zeta in H.
  destruct H as (H1 & H2 & H3 & H4 & H5 & H6 & H7 & H8 & H9 & H10 & H11).
  cbn [WalletStatistics.average WalletStatistics.totalTransactions
       WalletStatistics.totalDeposits WalletStatistics.totalWithdrawals
       WalletStatistics.totalTipsSent WalletStatistics.totalTipsReceived
       WalletStatistics.totalReferralEarnings
       WalletStatistics.largestTransaction WalletStatistics.monthlyStats].
  rewrite H1, H3, H4, H5, H6, H7, H8.
  split; [reflexivity|]. split; [apply firstn_le_length|].
  cbn [WalletStatistics.empty WalletStatistics.totalTransactions
       WalletStatistics.totalDeposits WalletStatistics.totalWithdrawals
       WalletStatistics.totalTipsSent WalletStatistics.totalTipsReceived
       WalletStatistics.totalReferralEarnings
       WalletStatistics.largestTransaction].
  repeat (split; [reflexivity|]).
  split.
  { apply Z.max_r. unfold max_abs, Math_abs.
    clear. induction page as [|t l IH]; cbn; lia. }
  match goal with
  | |- ?m = ?figures /\ _ => assert (Hm : m = figures)
  end.
  { destruct (WalletStatistics.monthlyStats _) as [d w t] eqn:E.
    cbn in H9, H10, H11. subst d w t. reflexivity. }
  split; [exact Hm|].
  intros (Hclock & _ & Hdated). rewrite Hm.
  pose proof (startOfMonth_bounds utcOffset (clock st)) as [Hstart _].
  unfold msPerDay in Hstart.
  rewrite !(of_type_counted_since_none _ (clock st)) by
    (first [assumption|intros x Hx; apply Hdated, Hpage; exact Hx]).
  reflexivity.
Qed.

(** Alice tipped Bob 500 a moment ago: her statistics show the tip in
    the total of the tips sent, and no tip this month. *)
Lemma getWalletStatistics_totals_witness :
  exists stats,
    getWalletStatistics 0 "alice" after_tip = (Returned stats, after_tip)
    /\ WalletStatistics.totalTipsSent stats = 500
    /\ WalletStatistics.monthlyStats stats
       = {| WalletStatistics.deposits := 0;
            WalletStatistics.withdrawals := 0;
            WalletStatistics.tips := 0 |}.
Proof.
  destruct (getWalletStatistics_totals 0 "alice" after_tip)
    as (page & stats & Hpage & Hrun & _ & _ & _ & _ & Htips & _ & _ & _ & _
        & Hmonth).
  exists stats. split; [exact Hrun|].
  assert (Hp : fst (getTransactionHistory "alice" 1000 0 after_tip)
               = Returned page) by (rewrite Hpage; reflexivity).
  assert (Hsum : forall p,
            fst (getTransactionHistory "alice" 1000 0 after_tip)
            = Returned p ->
            sum_abs (of_type Transaction.tip_sent p) = 500).
  { intros p Hq. vm_compute in Hq. inversion Hq. vm_compute. reflexivity. }
  split; [rewrite Htips; exact (Hsum page Hp)|].
  apply Hmonth. apply clock_of_our_days_check. vm_compute. reflexivity.
Defined.

(** X8. The average of [getWalletStatistics] divides the sum of the
    five category totals by the number of transactions read: a [fee]
    transaction adds to the number (and can be the largest transaction)
    but its amount is in no total. *)
Theorem getWalletStatistics_average utcOffset userId0 st :
  exists page stats,
    getTransactionHistory userId0 1000 0 st = (Returned page, st)
    /\ getWalletStatistics utcOffset userId0 st = (Returned stats, st)
    /\ WalletStatistics.totalDeposits stats
       + WalletStatistics.totalWithdrawals stats
       + WalletStatistics.totalTipsSent stats
       + WalletStatistics.totalTipsReceived stats
       + WalletStatistics.totalReferralEarnings stats
       = sum_abs page - sum_abs (of_type Transaction.fee page)
    /\ WalletStatistics.averageTransactionAmount stats
       = match page with
         | [] => 0%Q
         | _ :: _ =>
             Qmake (sum_abs page - sum_abs (of_type Transaction.fee page))
               (Pos.of_nat (List.length page))
         end.
Proof.
  do 2 eexists. split; [reflexivity|].
  unfold getWalletStatistics, try_catch, await, getTransactionHistory,
    new_Date, resolve.
  split; [reflexivity|].
  set (page := firstn 1000 _).
  pose proof (count_fold (startOfMonth utcOffset (clock st)) page
                (WalletStatistics.empty (List.length page))
                ltac:(cbn; lia)) as H.
  cbn zeta in H.
  destruct H as (H1 & H2 & H3 & H4 & H5 & H6 & H7 & _).
  cbn [WalletStatistics.average WalletStatistics.totalTransactions
       WalletStatistics.totalDeposits WalletStatistics.totalWithdrawals
       WalletStatistics.totalTipsSent WalletStatistics.totalTipsReceived
       WalletStatistics.totalReferralEarnings
       WalletStatistics.averageTransactionAmount].
  rewrite H1, H2, H3, H4, H5, H6, H7.
  cbn [WalletStatistics.empty WalletStatistics.totalTransactions
       WalletStatistics.totalDeposits WalletStatistics.totalWithdrawals
       WalletStatistics.totalTipsSent WalletStatistics.totalTipsReceived
       WalletStatistics.totalReferralEarnings
       WalletStatistics.averageTransactionAmount].
  pose proof (sum_abs_by_type page) as Hsum.
  split; [lia|].
  destruct page as [|t l]; [reflexivity|].
  cbn [List.length]. rewrite <- Pos.of_nat_succ. f_equal. lia.
Qed.

(** ** Withdrawals *)

Lemma notification_inv userId0 transactionType amount currency reference
    st o st' :
  NotificationService.sendTransactionNotification userId0 transactionType
    amount currency reference st = (o, st') ->
  o = Returned tt
  /\ exists fs, st' = with_faults fs (with_nextUuid (S (nextUuid st)) st).
Proof.
  unfold NotificationService.sendTransactionNotification. intros H.
  run_any; (split; [reflexivity|eexists; reflexivity]).
Qed.

Lemma getTransactionHistory_inv userId0 limit offset st o st' :
  getTransactionHistory userId0 limit offset st = (o, st') ->
  getTransactionHistory userId0 limit offset st' = (o, st') /\ st' = st.
Proof.
  unfold getTransactionHistory. intros H.
  assert (E : st' = st) by (injection H; intros; congruence).
  subst st'. split; [exact H|reflexivity].
Qed.

(** Steps of the code outside the ledger core. *)
Ltac step_more :=
  match goal with
  | H : external _ _ = (_, _) |- _ => unfold external in H; inv H
  | H : getTransactionHistory _ _ _ _ = (_, _) |- _ =>
      apply getTransactionHistory_inv in H;
      let E := fresh "Hpage" in
      destruct H as [E H]; apply (f_equal fst) in E; cbn [fst] in E
  | H : NotificationService.sendTransactionNotification _ _ _ _ _ _
        = (_, _) |- _ =>
      apply notification_inv in H; destruct H as (? & ? & ?)
  | H : transactions_update _ _ _ = (_, _) |- _ =>
      unfold transactions_update in H
  | H : (_, _) = (_, _) |- _ => inv H
  end.

Ltac run_more := repeat (first [step_any|step_more]; subst; store_simpl).

Lemma withdrawalFee_half_up amount :
  1000 * withdrawalFee amount <= 23 * amount + 500
  < 1000 * withdrawalFee amount + 1000.
Proof.
  assert (H : withdrawalFee amount = (46 * amount + 1000) / 2000)
    by (unfold withdrawalFee, Math_round; f_equal; lia).
  rewrite H.
  pose proof (Z.div_mod (46 * amount + 1000) 2000 ltac:(lia)).
  pose proof (Z.mod_pos_bound (46 * amount + 1000) 2000 ltac:(lia)). lia.
Qed.

Lemma find_update_other ws userId0 v w fields :
  unique_ids Wallet.id ws = true ->
  find (byUser userId0) ws = Some w ->
  String.eqb v userId0 = false ->
  find (byUser v)
    (doc_update Wallet.id (Wallet.id w) (fun x => Wallet.spread x fields) ws)
  = find (byUser v) ws.
Proof.
  intros Hu Hw Hne.
  rewrite find_doc_update by (intros; apply spread_byUser).
  destruct (find (byUser v) ws) as [x|] eqn:Hx; [|reflexivity].
  cbn [option_map].
  destruct (Nat.eqb (Wallet.id x) (Wallet.id w)) eqn:E; [|reflexivity].
  apply Nat.eqb_eq in E.
  pose proof (find_some _ _ Hx) as [Hinx Hbx].
  pose proof (find_some _ _ Hw) as [Hinw Hbw].
  pose proof (unique_ids_inj Wallet.id ws x w Hu Hinx Hinw E). subst x.
  unfold byUser in *. apply String.eqb_eq in Hbx, Hbw.
  rewrite <- Hbx, Hbw, String.eqb_refl in Hne. discriminate.
Qed.

Lemma fold_left_sum_abs l :
  fold_left (fun sum t => sum + Math_abs (Transaction.amount t)) l 0
  = sum_abs l.
Proof.
  induction l as [|t l IH]; [reflexivity|].
  cbn [fold_left]. rewrite fold_left_sum_shift, IH, sum_abs_cons.
  unfold Math_abs. lia.
Qed.

(** The sum the daily cap of a withdrawal is checked against: the
    absolute amounts of the withdrawals read whose [Timestamp] compares at
    or after [today]. *)
Lemma todayWithdrawals_sum today l :
  fold_left (fun sum t => sum + Math_abs (Transaction.amount t))
    (todayWithdrawals today l) 0
  = sum_abs (of_type_counted_since Transaction.withdrawal today l).
Proof.
  rewrite fold_left_sum_abs. f_equal.
  unfold todayWithdrawals, of_type_counted_since. apply filter_ext.
  intros t. unfold has_type. rewrite andb_comm.
  destruct (Transaction.type t); reflexivity.
Qed.

(** X9. A withdrawal that succeeds passed every check: the user has a
    wallet, the amount is between 100 and 500,000 and within the
    balance, the withdrawals counted for today among the 100 newest
    transactions of the user plus the amount stay within 1,000,000, the
    gateway resolved the account to the name given, and it accepted a
    transfer of the amount less the fee under a reference drawn for it.
    The withdrawals counted for today are those whose stored date, the
    [Timestamp] it is, compares at or after the [Date] of local midnight:
    on a store of our days none is, so that the check of the daily total
    holds no withdrawal back. *)
Theorem processWithdrawal_checks paystack utcOffset userId0 amount
    accountNumber bankCode accountName description st res st' :
  processWithdrawal paystack utcOffset userId0 amount accountNumber bankCode
    accountName description st = (Returned res, st') ->
  WalletService.success res = true ->
  exists w account transfer page,
    find (byUser userId0) (wallets st) = Some w
    /\ (100 <= amount <= 500000 /\ amount <= Wallet.balance w)
    /\ getTransactionHistory userId0 100 0 st = (Returned page, st)
    /\ sum_abs
         (of_type_counted_since Transaction.withdrawal
            (setHours0 utcOffset (clock st)) page)
       + amount <= 1000000
    /\ (clock_of_our_days st ->
        of_type_counted_since Transaction.withdrawal
          (setHours0 utcOffset (clock st)) page = [])
    /\ Paystack.validateAccount paystack accountNumber bankCode
       = Returned account
    /\ Paystack.account_status account = true
    /\ Paystack.account_name account = accountName
    /\ Paystack.initiateTransfer paystack (amount - withdrawalFee amount)
         accountNumber bankCode accountName
         (or_string description "Givta Wallet Withdrawal")
         ("WD_" ++ number_text (Z.of_nat (nextUuid st)))
       = Returned transfer
    /\ Paystack.transfer_status transfer = true
    /\ newBalance res = Some (Wallet.balance w - amount).
Proof.
  intros Hrun Hs. unfold processWithdrawal in Hrun.
  apply try_catch_Returned in Hrun.
  destruct Hrun as [Hrun|(msg & st1 & _ & Hh)]; [|inv Hh; discriminate].
  run_more.
  do 4 eexists. split; [reflexivity|].
  apply negb_false_iff in Heqb, Heqb2, Heqb3, Heqb4.
  apply Z.ltb_ge in Heqb0, Heqb1. apply String.eqb_eq in Heqb3.
  unfold validateTransactionLimits in Heqb. cbn [limits minimum maximum] in Heqb.
  destruct (amount <? 100) eqn:Emin; [discriminate|].
  destruct (500000 <? amount) eqn:Emax; [discriminate|].
  apply Z.ltb_ge in Emin, Emax.
  rewrite todayWithdrawals_sum in Heqb1.
  split; [lia|].
  split; [unfold getTransactionHistory in *; cbn [fst] in Hpage;
          rewrite Hpage; reflexivity|].
  split; [eassumption|].
  split.
  { intros (Hclock & _ & Hdated).
    match goal with
    | |- of_type_counted_since _ (setHours0 _ (clock ?s)) _ = [] =>
        pose proof (setHours0_midnight utcOffset (clock s)) as [_ [_ Hday]];
        unfold msPerDay in Hday;
        apply (of_type_counted_since_none _ (clock s)); [assumption|lia|]
    end.
    intros t Ht. apply Hdated.
    exact (history_in_store _ _ _ _ _ _ Hpage Ht). }
  repeat (split; [eassumption|]). reflexivity.
Qed.

(** Alice withdrew 450 000 and 400 000 earlier today; a withdrawal of
    200 000 more goes through all the same, because none of the day's
    withdrawals is counted. *)
Lemma processWithdrawal_checks_witness :
  exists res st' page,
    processWithdrawal accepting_gateway 3600000 "alice" 200000 "0123456789"
      "058" "Alice A" None busy_wallets = (Returned res, st')
    /\ WalletService.success res = true
    /\ getTransactionHistory "alice" 100 0 busy_wallets
       = (Returned page, busy_wallets)
    /\ sum_abs
         (of_type_since Transaction.withdrawal
            (local_midnight 3600000 (clock busy_wallets)) page)
       = 850000
    /\ of_type_counted_since Transaction.withdrawal
         (setHours0 3600000 (clock busy_wallets)) page = []
    /\ balanceOf "alice" st' = Some 1800000.
Proof.
  assert (Hrun :
    processWithdrawal accepting_gateway 3600000 "alice" 200000 "0123456789"
      "058" "Alice A" None busy_wallets
    = (Returned (succeeded 7%nat 1800000),
       snd (processWithdrawal accepting_gateway 3600000 "alice" 200000
              "0123456789" "058" "Alice A" None busy_wallets)))
    by (vm_compute; reflexivity).
  destruct (processWithdrawal_checks _ _ _ _ _ _ _ _ _ _ _ Hrun eq_refl)
    as (w & _ & _ & page & _ & _ & Hpage & _ & Hnone & _).
  do 2 eexists. exists page. split; [exact Hrun|].
  split; [reflexivity|]. split; [exact Hpage|].
  assert (Hp : fst (getTransactionHistory "alice" 100 0 busy_wallets)
               = Returned page) by (rewrite Hpage; reflexivity).
  split.
  { revert Hp. generalize page. intros p Hq. vm_compute in Hq.
    inversion Hq. vm_compute. reflexivity. }
  split.
  { apply Hnone. apply clock_of_our_days_check. vm_compute. reflexivity. }
  vm_compute. reflexivity.
Defined.

(** X10. A withdrawal that succeeds books the whole amount: the
    balance of the wallet falls and its [totalWithdrawals] grows by the
    amount, the other totals and the wallets of other users stay, and two
    transactions are appended, a [withdrawal] of minus the amount, still
    [pending], that carries the fee, the net amount sent to the bank and
    the reference of the transfer, and a completed [fee] of minus the fee.
    The fee is 2.3% of the amount rounded to the nearest unit, halves
    up. *)
Theorem processWithdrawal_books paystack utcOffset userId0 amount
    accountNumber bankCode accountName description st res st' w :
  store_ok st = true ->
  find (byUser userId0) (wallets st) = Some w ->
  processWithdrawal paystack utcOffset userId0 amount accountNumber bankCode
    accountName description st = (Returned res, st') ->
  WalletService.success res = true ->
  (1000 * withdrawalFee amount <= 23 * amount + 500
   < 1000 * withdrawalFee amount + 1000)
  /\ (exists w',
        find (byUser userId0) (wallets st') = Some w'
        /\ Wallet.balance w' = Wallet.balance w - amount
        /\ totals w'
           = (Wallet.totalDeposits w, Wallet.totalWithdrawals w + amount,
              Wallet.totalTipsSent w, Wallet.totalTipsReceived w,
              Wallet.totalReferralEarnings w))
  /\ (forall v, String.eqb v userId0 = false ->
        find (byUser v) (wallets st') = find (byUser v) (wallets st))
  /\ exists booked charged,
       transactions st' = transactions st ++ [booked; charged]
       /\ transactionId res = Some (Transaction.id booked)
       /\ entry booked = (Transaction.withdrawal, userId0, - amount)
       /\ Transaction.status booked = Transaction.pending
       /\ Transaction.fee_ booked = Some (withdrawalFee amount)
       /\ Transaction.netAmount booked = - (amount - withdrawalFee amount)
       /\ (exists transfer,
             Paystack.initiateTransfer paystack
               (amount - withdrawalFee amount) accountNumber bankCode
               accountName (or_string description "Givta Wallet Withdrawal")
               ("WD_" ++ number_text (Z.of_nat (nextUuid st)))
             = Returned transfer
             /\ Transaction.reference booked
                = Some (Paystack.transfer_reference transfer))
       /\ entry charged = (Transaction.fee, userId0, - withdrawalFee amount)
       /\ is_completed charged = true.
Proof.
  intros Hok Hw Hrun Hs. split; [apply withdrawalFee_half_up|].
  apply store_ok_parts in Hok. destruct Hok as (Hu & _ & Ht & _).
  unfold processWithdrawal in Hrun.
  apply try_catch_Returned in Hrun.
  destruct Hrun as [Hrun|(msg & st1 & _ & Hh)]; [|inv Hh; discriminate].
  run_more.
  match goal with
  | H : find (byUser userId0) (wallets _) = Some _ |- _ => rename H into Hw
  end.
  split; [eexists; split; [apply find_updated; exact Hw|split; reflexivity]|].
  split; [intros v Hv; apply (find_update_other _ userId0); assumption|].
  do 2 eexists. split.
  { eapply doc_set_transactions2;
      [eassumption|reflexivity|reflexivity|lia|lia|lia]. }
  split; [reflexivity|]. split; [reflexivity|]. split; [reflexivity|].
  split; [reflexivity|]. split; [reflexivity|].
  split; [eexists; split; [eassumption|reflexivity]|].
  split; reflexivity.
Qed.

Lemma processWithdrawal_books_witness :
  balanceOf "alice" two_wallets = Some 1000
  /\ balanceOf "alice" after_withdrawal = Some 500
  /\ withdrawalFee 500 = 12.
Proof.
  assert (Hok : store_ok two_wallets = true) by (vm_compute; reflexivity).
  assert (Hw : find (byUser "alice") (wallets two_wallets)
               = Some (wallet_with 0%nat "alice" 1000))
    by (vm_compute; reflexivity).
  assert (Hrun :
    processWithdrawal accepting_gateway 0 "alice" 500 "0123456789" "058"
      "Alice A" None two_wallets
    = (Returned (succeeded 3%nat 500), after_withdrawal))
    by (vm_compute; reflexivity).
  destruct (processWithdrawal_books _ _ _ _ _ _ _ _ _ _ _ _ Hok Hw Hrun
              eq_refl)
    as (Hfee & (w' & Hw' & Hb & _) & _).
  split; [unfold balanceOf; rewrite Hw; reflexivity|].
  split; [unfold balanceOf; rewrite Hw'; cbn [option_map]; rewrite Hb;
          reflexivity|].
  lia.
Defined.

Lemma firestore_write_reliable effect st o st' :
  faults st = [] ->
  firestore_write effect st = (o, st') ->
  match effect st with
  | Some s => o = Returned tt /\ st' = s
  | None => st' = st /\ exists msg, o = Threw msg
  end.
Proof.
  intros Hf. unfold firestore_write, commit. rewrite Hf.
  destruct (effect st); intros H; inv H.
  - split; reflexivity.
  - split; [reflexivity|eexists; reflexivity].
Qed.

Lemma doc_exists_set {D} (doc_id : D -> DocId) i n d c :
  doc_id d = n ->
  doc_exists doc_id i (doc_set doc_id n d c)
  = doc_exists doc_id i c || Nat.eqb n i.
Proof.
  intros En. unfold doc_set.
  destruct (doc_exists doc_id n c) eqn:E.
  - unfold doc_exists, doc_update in *.
    destruct (Nat.eqb n i) eqn:Ei.
    + rewrite orb_true_r. apply Nat.eqb_eq in Ei. subst i.
      induction c as [|x c IH]; cbn [map existsb] in *; [discriminate|].
      destruct (Nat.eqb (doc_id x) n) eqn:Ex.
      * rewrite En, Nat.eqb_refl. reflexivity.
      * rewrite Ex. cbn [orb] in *. apply IH. exact E.
    + rewrite orb_false_r. clear E.
      induction c as [|x c IH]; cbn [map existsb]; [reflexivity|].
      rewrite IH. destruct (Nat.eqb (doc_id x) n) eqn:Ex; [|reflexivity].
      rewrite En, Ei. apply Nat.eqb_eq in Ex. rewrite Ex, Ei. reflexivity.
  - rewrite doc_exists_app. unfold doc_exists at 2. cbn [existsb].
    rewrite En, orb_false_r. reflexivity.
Qed.

(** Follow a run on a store that commits every write: the statements
    that do not write first, then the earliest write, whose store is
    known by then. *)
Ltac step_pure :=
  match goal with
  | H : try_catch _ _ _ = (_, _) |- _ =>
      apply try_catch_inv in H;
      destruct H as [(? & H & ?)|(? & ? & H & ?)]
  | H : await _ _ _ = (_, _) |- _ =>
      apply await_inv in H;
      destruct H as [(? & ? & ? & H)|(? & H & ?)]
  | H : resolve _ _ = (_, _) |- _ => unfold resolve in H; inv H
  | H : throw _ _ = (_, _) |- _ => unfold throw in H; inv H
  | H : getWalletByUserId _ _ = (_, _) |- _ =>
      unfold getWalletByUserId in H; inv H
  | H : new_Date _ = (_, _) |- _ => unfold new_Date in H; inv H
  | H : uuidv4 _ = (_, _) |- _ => unfold uuidv4 in H; inv H
  | H : wallets_update _ _ _ = (_, _) |- _ => unfold wallets_update in H
  | H : wallets_set _ _ _ = (_, _) |- _ => unfold wallets_set in H
  | H : transactions_set _ _ _ = (_, _) |- _ => unfold transactions_set in H
  | H : transactions_update _ _ _ = (_, _) |- _ =>
      unfold transactions_update in H
  | H : tips_set _ _ _ = (_, _) |- _ => unfold tips_set in H
  | H : referrals_set _ _ _ = (_, _) |- _ => unfold referrals_set in H
  | H : referrals_update _ _ _ = (_, _) |- _ => unfold referrals_update in H
  | H : createWallet _ _ _ = (_, _) |- _ => unfold createWallet in H
  | H : Some _ = Some _ |- _ => inv H
  | H : None = Some _ |- _ => discriminate H
  | H : Returned _ = Threw _ |- _ => discriminate H
  | H : Threw _ = Returned _ |- _ => discriminate H
  | H : Returned _ = Returned _ |- _ => inv H
  | H : Threw _ = Threw _ |- _ => inv H
  | H : (if ?b then _ else _) = Some _ |- _ => destruct b eqn:?
  | H : (if ?b then _ else _) _ = (_, _) |- _ => destruct b eqn:?
  | H : (match ?o with Some _ => _ | None => _ end) _ = (_, _) |- _ =>
      destruct o eqn:?
  | H : match (if ?b then _ else _) with Some _ => _ | None => _ end |- _ =>
      destruct b eqn:?; cbn beta iota in H
  | H : _ = Returned tt /\ _ = _ |- _ => destruct H
  | H : _ = _ /\ (exists _, _ = Threw _) |- _ => destruct H as (? & ? & ?)
  | Hw : find (byUser ?u) ?ws = Some ?w,
    He : doc_exists Wallet.id (Wallet.id ?w) ?ws = false |- _ =>
      rewrite (find_doc_exists Wallet.id _ _ _ Hw) in He; discriminate He
  | He : doc_exists Wallet.id _ (doc_update Wallet.id _ _ _) = false |- _ =>
      rewrite (doc_exists_update Wallet.id) in He by reflexivity
  | He : doc_exists Wallet.id _ (doc_set Wallet.id _ _ _) = false |- _ =>
      rewrite (doc_exists_set Wallet.id) in He by reflexivity;
      cbn [Wallet.id Wallet.createWalletData] in He;
      rewrite ?Nat.eqb_refl, ?orb_true_r in He;
      try discriminate He;
      apply orb_false_iff in He; destruct He as [He _]
  end.

Ltac step_write :=
  match goal with
  | H : firestore_write _ ?s = (_, _) |- _ =>
      let Hs := fresh "Hs" in
      assert (Hs : faults s = []) by (store_simpl_goal; assumption);
      apply (firestore_write_reliable _ _ _ _ Hs) in H; clear Hs;
      cbn beta iota in H
  end.

Ltac run_reliably :=
  repeat (first [step_pure|step_more|step_write]; subst; store_simpl).

(** X11. On a store that commits its writes [processWithdrawal] always
    returns a result, and a result that is not a success means that
    nothing was written: no wallet, transaction or other document
    differs from before the call. *)
Theorem processWithdrawal_refused paystack utcOffset userId0 amount
    accountNumber bankCode accountName description st :
  faults st = [] ->
  exists res st',
    processWithdrawal paystack utcOffset userId0 amount accountNumber
      bankCode accountName description st = (Returned res, st')
    /\ (WalletService.success res = false -> same_documents st st').
Proof.
  intros Hf.
  destruct (processWithdrawal paystack utcOffset userId0 amount accountNumber
              bankCode accountName description st) as [o st'] eqn:Hrun.
  unfold processWithdrawal in Hrun. unfold same_documents.
  apply try_catch_inv in Hrun.
  destruct Hrun as [(a & Hrun & ->)|(msg & st1 & Hrun & Hh)].
  - do 2 eexists. split; [reflexivity|]. intros Hs.
    run_reliably; discriminate.
  - inv Hh. do 2 eexists. split; [reflexivity|]. intros _.
    run_reliably;
      try match goal with s : Store |- _ = _ => destruct s; reflexivity end.
Qed.

Lemma processWithdrawal_refused_witness :
  exists res st',
    processWithdrawal accepting_gateway 0 "alice" 5000 "0123456789" "058"
      "Alice A" None two_wallets = (Returned res, st')
    /\ (WalletService.success res = false -> same_documents two_wallets st').
Proof.
  apply (processWithdrawal_refused accepting_gateway 0 "alice" 5000
           "0123456789" "058" "Alice A" None two_wallets).
  reflexivity.
Defined.

(** X12. An amount below 100 or above 500,000 is refused with the text
    of the limit, before the balance is looked at and before the gateway
    is asked, on any store: nothing is written. *)
Theorem processWithdrawal_out_of_range paystack utcOffset userId0 amount
    accountNumber bankCode accountName description st w :
  find (byUser userId0) (wallets st) = Some w ->
  amount < 100 \/ 500000 < amount ->
  processWithdrawal paystack utcOffset userId0 amount accountNumber bankCode
    accountName description st
  = (Returned
       {| WalletService.success := false; transactionId := None;
          newBalance := None;
          WalletService.error :=
            Some (if amount <? 100
                  then "Minimum withdrawal amount is ₦100"
                  else "Maximum withdrawal amount is ₦500,000") |},
     st).
Proof.
  intros Hw Hrange.
  unfold processWithdrawal, try_catch, await, getWalletByUserId, new_Date,
    throw, resolve.
  rewrite Hw. unfold validateTransactionLimits.
  cbn [limits minimum maximum].
  destruct (amount <? 100) eqn:Emin; [reflexivity|].
  destruct (500000 <? amount) eqn:Emax; [reflexivity|].
  apply Z.ltb_ge in Emin, Emax. lia.
Qed.

Lemma processWithdrawal_out_of_range_witness :
  fst (processWithdrawal accepting_gateway 0 "bob" 50 "0123456789" "058"
         "Alice A" None two_wallets)
  = Returned
      {| WalletService.success := false; transactionId := None;
         newBalance := None;
         WalletService.error := Some "Minimum withdrawal amount is ₦100" |}.
Proof.
  assert (Hw : find (byUser "bob") (wallets two_wallets)
               = Some (wallet_with 1%nat "bob" 0))
    by (vm_compute; reflexivity).
  rewrite (processWithdrawal_out_of_range accepting_gateway 0 "bob" 50
             "0123456789" "058" "Alice A" None two_wallets _ Hw
             ltac:(left; lia)).
  reflexivity.
Defined.

Lemma withdrawal_within_limits utcOffset now amount :
  100 <= amount <= 500000 ->
  validateTransactionLimits utcOffset now amount withdrawal []
  = {| valid := true; limitError := None |}.
Proof.
  intros H. unfold validateTransactionLimits.
  cbn [limits minimum maximum dailyLimit].
  replace (amount <? 100) with false by (symmetry; apply Z.ltb_ge; lia).
  replace (500000 <? amount) with false by (symmetry; apply Z.ltb_ge; lia).
  unfold todayTotal, todayTransactions. cbn [filter fold_left].
  replace (1000000 <? 0 + amount) with false
    by (symmetry; apply Z.ltb_ge; lia).
  reflexivity.
Qed.

Ltac withdrawal_to_transfer H Hf w amount :=
  destruct H as (Hw & Hrange & Hbal & Hday & (account & Hacc & Hst & Hname)
                 & Htr & Hts);
  unfold processWithdrawal, external, getTransactionHistory;
  run_reliable Hf; rewrite Hw; run_reliable Hf;
  rewrite (withdrawal_within_limits _ _ _ Hrange);
  cbn [valid negb];
  replace (Wallet.balance w <? amount) with false
    by (symmetry; apply Z.ltb_ge; lia);
  cbn [skipn]; rewrite todayWithdrawals_sum;
  match goal with
  | |- context [1000000 <? ?total + amount] =>
      replace (1000000 <? total + amount) with false
        by (symmetry; apply Z.ltb_ge; exact Hday)
  end;
  rewrite Hacc, Hst, Hname, String.eqb_refl; cbn [negb];
  run_reliable Hf; rewrite Htr, Hts; cbn [negb];
  run_reliable Hf.

(** X13. The transfer is asked for before the wallet is debited: when
    the gateway has accepted the transfer and the write that debits the
    wallet is then rejected, [processWithdrawal] reports the failure, and
    the wallet keeps its balance and no transaction is recorded. *)
Theorem processWithdrawal_debit_rejected paystack utcOffset userId0 amount
    accountNumber bankCode accountName description st w transfer message
    rest :
  transfer_accepted paystack utcOffset userId0 amount accountNumber bankCode
    accountName description st w transfer ->
  faults st = Some message :: rest ->
  processWithdrawal paystack utcOffset userId0 amount accountNumber bankCode
    accountName description st
  = (Returned (failure message "Failed to process withdrawal"),
     with_faults rest (with_nextUuid (S (nextUuid st)) st)).
Proof.
  intros H Hf. withdrawal_to_transfer H Hf w amount. reflexivity.
Qed.

(** X14. When the debit commits and the write of the withdrawal
    transaction is then rejected, [processWithdrawal] reports the failure
    although the transfer was accepted and the wallet is debited, and no
    transaction records it. *)
Theorem processWithdrawal_record_rejected paystack utcOffset userId0 amount
    accountNumber bankCode accountName description st w transfer message
    rest :
  transfer_accepted paystack utcOffset userId0 amount accountNumber bankCode
    accountName description st w transfer ->
  faults st = None :: Some message :: rest ->
  exists st',
    processWithdrawal paystack utcOffset userId0 amount accountNumber
      bankCode accountName description st
    = (Returned (failure message "Failed to process withdrawal"), st')
    /\ balanceOf userId0 st' = Some (Wallet.balance w - amount)
    /\ transactions st' = transactions st.
Proof.
  intros H Hf. withdrawal_to_transfer H Hf w amount.
  rewrite (find_doc_exists Wallet.id _ _ _ Hw). run_reliable Hf.
  eexists. split; [reflexivity|]. unfold balanceOf. store_simpl_goal.
  rewrite (find_updated _ _ _ _ Hw). split; reflexivity.
Qed.

Lemma alice_transfer_accepted fs :
  transfer_accepted accepting_gateway 0 "alice" 500 "0123456789" "058"
    "Alice A" None (with_faults fs two_wallets)
    (wallet_with 0%nat "alice" 1000)
    {| Paystack.transfer_status := true; Paystack.transfer_message := None;
       Paystack.transfer_reference := "WD_2" |}.
Proof.
  unfold transfer_accepted.
  split; [vm_compute; reflexivity|]. split; [lia|].
  split; [vm_compute; discriminate|].
  split; [vm_compute; discriminate|].
  split; [eexists; split; [reflexivity|split; reflexivity]|].
  split; [vm_compute; reflexivity|reflexivity].
Defined.

Lemma processWithdrawal_debit_rejected_witness :
  processWithdrawal accepting_gateway 0 "alice" 500 "0123456789" "058"
    "Alice A" None (with_faults [Some "UNAVAILABLE"] two_wallets)
  = (Returned (failure "UNAVAILABLE" "Failed to process withdrawal"),
     with_faults []
       (with_nextUuid 3%nat (with_faults [Some "UNAVAILABLE"] two_wallets))).
Proof.
  exact (processWithdrawal_debit_rejected accepting_gateway 0 "alice" 500
           "0123456789" "058" "Alice A" None
           (with_faults [Some "UNAVAILABLE"] two_wallets) _ _ "UNAVAILABLE"
           [] (alice_transfer_accepted [Some "UNAVAILABLE"]) eq_refl).
Defined.

Lemma processWithdrawal_record_rejected_witness :
  exists st',
    processWithdrawal accepting_gateway 0 "alice" 500 "0123456789" "058"
      "Alice A" None (with_faults [None; Some "UNAVAILABLE"] two_wallets)
    = (Returned (failure "UNAVAILABLE" "Failed to process withdrawal"), st')
    /\ balanceOf "alice" st' = Some 500
    /\ transactions st' = [].
Proof.
  exact (processWithdrawal_record_rejected accepting_gateway 0 "alice" 500
           "0123456789" "058" "Alice A" None
           (with_faults [None; Some "UNAVAILABLE"] two_wallets) _ _
           "UNAVAILABLE" []
           (alice_transfer_accepted [None; Some "UNAVAILABLE"]) eq_refl).
Defined.

(** ** The transfer webhook *)

Lemma signature_check_passes secret signature expectedSignature :
  signature_accepted secret signature expectedSignature ->
  match truthy secret, truthy signature with
  | Some _, Some signature0 =>
      negb (String.eqb signature0 expectedSignature)
  | _, _ => false
  end = false.
Proof.
  intros [H|[H|H]]; rewrite H.
  - reflexivity.
  - destruct (truthy secret); reflexivity.
  - destruct (truthy secret); [|reflexivity].
    rewrite String.eqb_refl. reflexivity.
Qed.

Lemma byReference_markStatus reference status0 now completedAt0 t :
  PaymentsRoutes.byReference reference
    (PaymentsRoutes.markStatus status0 now completedAt0 t)
  = PaymentsRoutes.byReference reference t.
Proof. reflexivity. Qed.

(** One delivery of a [transfer.failed] or [transfer.reversed] event
    for a withdrawal of a user with a wallet, on a store that commits its
    writes. *)
Lemma webhook_refund_step secret signature expectedSignature event reference
    st t w :
  store_ok st = true -> faults st = [] ->
  signature_accepted secret signature expectedSignature ->
  transfer_undone event ->
  find (PaymentsRoutes.byReference reference) (transactions st) = Some t ->
  find (byUser (Transaction.userId t)) (wallets st) = Some w ->
  exists st' w' t' refund,
    PaymentsRoutes.paystackTransferWebhook secret signature expectedSignature
      event reference st = (Returned 200, st')
    /\ store_ok st' = true /\ faults st' = []
    /\ find (byUser (Transaction.userId t)) (wallets st') = Some w'
    /\ Wallet.balance w'
       = Wallet.balance w + Math_abs (Transaction.amount t)
    /\ totals w'
       = (Wallet.totalDeposits w + Math_abs (Transaction.amount t),
          Wallet.totalWithdrawals w, Wallet.totalTipsSent w,
          Wallet.totalTipsReceived w, Wallet.totalReferralEarnings w)
    /\ find (PaymentsRoutes.byReference reference) (transactions st')
       = Some t'
    /\ t' = PaymentsRoutes.markStatus Transaction.failed (clock st) None t
    /\ transactions st'
       = doc_update Transaction.id (Transaction.id t)
           (PaymentsRoutes.markStatus Transaction.failed (clock st) None)
           (transactions st)
         ++ [refund]
    /\ is_completed refund = true
    /\ entry refund
       = (Transaction.deposit, Transaction.userId t,
          Math_abs (Transaction.amount t))
    /\ Transaction.reference refund = Some reference.
Proof.
  intros Hok Hf Hsig Hev Ht Hw.
  pose proof Hok as Hparts. apply store_ok_parts in Hparts.
  destruct Hparts as (Hu & Hwb & Htb & Htips & Hrefs).
  unfold PaymentsRoutes.paystackTransferWebhook.
  rewrite (signature_check_passes _ _ _ Hsig).
  assert (Hevent : String.eqb event "transfer.success" = false
                   /\ String.eqb event "transfer.failed"
                      || String.eqb event "transfer.reversed" = true)
    by (destruct Hev; subst event; split; reflexivity).
  destruct Hevent as [E1 E2]. rewrite E1, E2.
  unfold creditWallet, transactions_update. run_reliable Hf.
  rewrite Ht. run_reliable Hf. rewrite Hw. run_reliable Hf.
  rewrite (find_doc_exists Wallet.id _ _ _ Hw). run_reliable Hf.
  rewrite (doc_set_transactions1 (nextUuid st)) by (assumption || lia).
  assert (Hex : doc_exists Transaction.id (Transaction.id t)
                  (transactions st ++ [Transaction.createTransactionData
                     {| Transaction.p_id := nextUuid st;
                        Transaction.p_userId := Transaction.userId t;
                        Transaction.p_type := Some Transaction.deposit;
                        Transaction.p_amount :=
                          Some (Math_abs (Transaction.amount t));
                        Transaction.p_description :=
                          Some "Withdrawal refund - transfer failed";
                        Transaction.p_status := Some Transaction.completed;
                        Transaction.p_reference := Some reference;
                        Transaction.p_recipientId := None;
                        Transaction.p_senderId := None;
                        Transaction.p_currency := Some (Wallet.currency w);
                        Transaction.p_fee := Some 0;
                        Transaction.p_netAmount :=
                          Some (Math_abs (Transaction.amount t));
                        Transaction.p_metadata := None |} (clock st)])
                = true).
  { rewrite doc_exists_app, (find_doc_exists Transaction.id _ _ _ Ht).
    reflexivity. }
  rewrite Hex. run_reliable Hf.
  do 4 eexists. split; [reflexivity|]. store_simpl_goal.
  split.
  { unfold store_ok. store_simpl_goal.
    repeat (apply andb_true_intro; split).
    - rewrite unique_ids_update by reflexivity. exact Hu.
    - apply ids_below_update; [|reflexivity].
      eapply ids_below_mono; [eassumption|lia].
    - apply ids_below_update; [|reflexivity].
      apply ids_below_set; [|cbn; lia].
      eapply ids_below_mono; [eassumption|lia].
    - eapply ids_below_mono; [eassumption|lia].
    - eapply ids_below_mono; [eassumption|lia]. }
  rewrite (doc_set_transactions1 (nextUuid st)) by (assumption || lia).
  split; [assumption|].
  split; [apply find_updated; exact Hw|].
  split; [reflexivity|]. split; [reflexivity|].
  split.
  { rewrite find_doc_update by (intros; apply byReference_markStatus).
    rewrite (find_app_some _ _ _ _ Ht). cbn [option_map].
    rewrite Nat.eqb_refl. reflexivity. }
  split; [reflexivity|].
  split.
  { unfold doc_update. rewrite map_app.
    cbn [map Transaction.id Transaction.createTransactionData
         Transaction.p_id].
    replace (Nat.eqb (nextUuid st) (Transaction.id t)) with false;
      [reflexivity|].
    symmetry. apply Nat.eqb_neq. apply find_some in Ht.
    destruct Ht as [Hin _].
    unfold ids_below in Htb. rewrite forallb_forall in Htb.
    specialize (Htb t Hin). apply Nat.ltb_lt in Htb. lia. }
  split; [reflexivity|split; reflexivity].
Qed.

(** X15. A [transfer.failed] or [transfer.reversed] event that passes
    the signature check (which a request without signature does) refunds
    the withdrawal it names: the wallet of its owner is credited the
    absolute amount, booked as a completed [deposit] under the same
    reference, so that [totalDeposits] grows while [totalWithdrawals]
    stays, and the withdrawal is marked [failed].  The status the
    withdrawal had before plays no part. *)
Theorem webhook_refund secret signature expectedSignature event reference
    st t w :
  store_ok st = true -> faults st = [] ->
  signature_accepted secret signature expectedSignature ->
  transfer_undone event ->
  find (PaymentsRoutes.byReference reference) (transactions st) = Some t ->
  find (byUser (Transaction.userId t)) (wallets st) = Some w ->
  exists st' w' refund,
    PaymentsRoutes.paystackTransferWebhook secret signature expectedSignature
      event reference st = (Returned 200, st')
    /\ find (byUser (Transaction.userId t)) (wallets st') = Some w'
    /\ Wallet.balance w'
       = Wallet.balance w + Math_abs (Transaction.amount t)
    /\ totals w'
       = (Wallet.totalDeposits w + Math_abs (Transaction.amount t),
          Wallet.totalWithdrawals w, Wallet.totalTipsSent w,
          Wallet.totalTipsReceived w, Wallet.totalReferralEarnings w)
    /\ find (PaymentsRoutes.byReference reference) (transactions st')
       = Some (PaymentsRoutes.markStatus Transaction.failed (clock st) None t)
    /\ In refund (transactions st')
    /\ entry refund
       = (Transaction.deposit, Transaction.userId t,
          Math_abs (Transaction.amount t))
    /\ Transaction.reference refund = Some reference
    /\ is_completed refund = true.
Proof.
  intros Hok Hf Hsig Hev Ht Hw.
  destruct (webhook_refund_step _ _ _ _ _ _ _ _ Hok Hf Hsig Hev Ht Hw)
    as (st' & w' & t' & refund & Hrun & _ & _ & Hw' & Hb & Htot & Ht' & ->
        & Htxs & Hc & He & Hr).
  exists st', w', refund.
  repeat (split; [assumption|]).
  split; [rewrite Htxs; apply in_or_app; right; left; reflexivity|].
  repeat split; assumption.
Qed.

Lemma webhook_refund_witness :
  exists st',
    PaymentsRoutes.paystackTransferWebhook (Some "sk_live") None ""
      "transfer.failed" "WD_2" after_withdrawal = (Returned 200, st')
    /\ balanceOf "alice" after_withdrawal = Some 500
    /\ balanceOf "alice" st' = Some 1000.
Proof.
  assert (Hok : store_ok after_withdrawal = true)
    by (vm_compute; reflexivity).
  assert (Hf : faults after_withdrawal = []) by (vm_compute; reflexivity).
  assert (Ht : exists t,
            find (PaymentsRoutes.byReference "WD_2")
              (transactions after_withdrawal) = Some t
            /\ Transaction.userId t = "alice"
            /\ Transaction.amount t = -500)
    by (vm_compute; eexists; repeat split).
  destruct Ht as (t & Ht & Hu & Ha).
  assert (Hw : exists w,
            find (byUser "alice") (wallets after_withdrawal) = Some w
            /\ Wallet.balance w = 500)
    by (vm_compute; eexists; repeat split).
  destruct Hw as (w & Hw & Hb).
  rewrite <- Hu in Hw.
  destruct (webhook_refund (Some "sk_live") None "" "transfer.failed" "WD_2"
              after_withdrawal t w Hok Hf
              ltac:(right; left; reflexivity) ltac:(left; reflexivity)
              Ht Hw)
    as (st' & w' & refund & Hrun & Hw' & Hb' & _).
  exists st'. split; [exact Hrun|].
  rewrite Hu in Hw, Hw'. unfold balanceOf. rewrite Hw, Hw'. cbn [option_map].
  rewrite Hb', Hb, Ha. split; reflexivity.
Defined.

(** X16. The webhook keeps no record of the events it has handled:
    the same [transfer.failed] event delivered twice refunds the
    withdrawal twice. *)
Theorem webhook_refund_twice secret signature expectedSignature event
    reference st t w :
  store_ok st = true -> faults st = [] ->
  signature_accepted secret signature expectedSignature ->
  transfer_undone event ->
  find (PaymentsRoutes.byReference reference) (transactions st) = Some t ->
  find (byUser (Transaction.userId t)) (wallets st) = Some w ->
  exists st1 st2,
    PaymentsRoutes.paystackTransferWebhook secret signature expectedSignature
      event reference st = (Returned 200, st1)
    /\ PaymentsRoutes.paystackTransferWebhook secret signature
         expectedSignature event reference st1 = (Returned 200, st2)
    /\ balanceOf (Transaction.userId t) st
       = Some (Wallet.balance w)
    /\ balanceOf (Transaction.userId t) st2
       = Some (Wallet.balance w + 2 * Math_abs (Transaction.amount t)).
Proof.
  intros Hok Hf Hsig Hev Ht Hw.
  destruct (webhook_refund_step _ _ _ _ _ _ _ _ Hok Hf Hsig Hev Ht Hw)
    as (st1 & w1 & t1 & _ & Hrun1 & Hok1 & Hf1 & Hw1 & Hb1 & _ & Ht1 & Et1
        & _).
  assert (Hu1 : Transaction.userId t1 = Transaction.userId t)
    by (subst t1; reflexivity).
  assert (Ha1 : Transaction.amount t1 = Transaction.amount t)
    by (subst t1; reflexivity).
  rewrite <- Hu1 in Hw1.
  destruct (webhook_refund_step _ _ _ _ _ _ _ _ Hok1 Hf1 Hsig Hev Ht1 Hw1)
    as (st2 & w2 & _ & _ & Hrun2 & _ & _ & Hw2 & Hb2 & _).
  exists st1, st2. split; [exact Hrun1|]. split; [exact Hrun2|].
  unfold balanceOf. rewrite Hu1 in Hw2. rewrite Hw, Hw2. cbn [option_map].
  split; [reflexivity|]. f_equal. rewrite Hb2, Hb1, Ha1. lia.
Qed.

Lemma webhook_refund_twice_witness :
  exists st1 st2,
    PaymentsRoutes.paystackTransferWebhook None None "" "transfer.failed"
      "WD_2" after_withdrawal = (Returned 200, st1)
    /\ PaymentsRoutes.paystackTransferWebhook None None ""
         "transfer.failed" "WD_2" st1 = (Returned 200, st2)
    /\ balanceOf "alice" st2 = Some 1500.
Proof.
  assert (Hok : store_ok after_withdrawal = true)
    by (vm_compute; reflexivity).
  assert (Hf : faults after_withdrawal = []) by (vm_compute; reflexivity).
  assert (Ht : exists t,
            find (PaymentsRoutes.byReference "WD_2")
              (transactions after_withdrawal) = Some t
            /\ Transaction.userId t = "alice"
            /\ Transaction.amount t = -500)
    by (vm_compute; eexists; repeat split).
  destruct Ht as (t & Ht & Hu & Ha).
  assert (Hw : exists w,
            find (byUser "alice") (wallets after_withdrawal) = Some w
            /\ Wallet.balance w = 500)
    by (vm_compute; eexists; repeat split).
  destruct Hw as (w & Hw & Hb).
  rewrite <- Hu in Hw.
  destruct (webhook_refund_twice None None "" "transfer.failed" "WD_2"
              after_withdrawal t w Hok Hf
              ltac:(left; reflexivity) ltac:(left; reflexivity) Ht Hw)
    as (st1 & st2 & Hrun1 & Hrun2 & _ & Hb2).
  exists st1, st2. split; [exact Hrun1|]. split; [exact Hrun2|].
  rewrite Hu, Hb, Ha in Hb2. exact Hb2.
Defined.

(** X17. A request whose signature is not the expected one, when a
    secret is configured, is answered 400 and changes nothing, whatever
    the event. *)
Theorem webhook_bad_signature secret signature expectedSignature event
    reference st key given :
  truthy secret = Some key ->
  truthy signature = Some given ->
  given <> expectedSignature ->
  PaymentsRoutes.paystackTransferWebhook secret signature expectedSignature
    event reference st = (Returned 400, st).
Proof.
  intros Hk Hs Hne. unfold PaymentsRoutes.paystackTransferWebhook.
  rewrite Hk, Hs. apply String.eqb_neq in Hne. rewrite Hne. reflexivity.
Qed.

Lemma webhook_bad_signature_witness :
  PaymentsRoutes.paystackTransferWebhook (Some "sk_live") (Some "forged")
    "3a7bd3e2" "transfer.failed" "WD_2" after_withdrawal
  = (Returned 400, after_withdrawal).
Proof.
  apply (webhook_bad_signature (Some "sk_live") (Some "forged") "3a7bd3e2"
           "transfer.failed" "WD_2" after_withdrawal "sk_live" "forged").
  - reflexivity.
  - reflexivity.
  - discriminate.
Defined.

(** X18. Only [transfer.failed] and [transfer.reversed] move money: any
    other event, [transfer.success] among them, leaves every wallet as it
    was, whatever the store does with the writes. *)
Theorem webhook_other_events secret signature expectedSignature event
    reference st :
  ~ transfer_undone event ->
  wallets (snd (PaymentsRoutes.paystackTransferWebhook secret signature
                  expectedSignature event reference st))
  = wallets st.
Proof.
  intros Hev.
  destruct (PaymentsRoutes.paystackTransferWebhook secret signature
              expectedSignature event reference st) as [o st'] eqn:Hrun.
  cbn [snd]. unfold PaymentsRoutes.paystackTransferWebhook in Hrun.
  destruct (String.eqb event "transfer.failed"
            || String.eqb event "transfer.reversed") eqn:E.
  { exfalso. apply Hev. apply orb_true_iff in E.
    destruct E as [E|E]; apply String.eqb_eq in E; [left|right]; exact E. }
  run_more; reflexivity.
Qed.

Lemma webhook_other_events_witness :
  wallets (snd (PaymentsRoutes.paystackTransferWebhook None None ""
                  "transfer.success" "WD_2" after_withdrawal))
  = wallets after_withdrawal.
Proof.
  apply (webhook_other_events None None "" "transfer.success" "WD_2"
           after_withdrawal).
  intros [H|H]; discriminate H.
Defined.

(** A withdrawal whose checks pass, on a store that commits its
    writes. *)
Lemma processWithdrawal_reliable paystack utcOffset userId0 amount
    accountNumber bankCode accountName description st w transfer :
  store_ok st = true -> faults st = [] ->
  transfer_accepted paystack utcOffset userId0 amount accountNumber bankCode
    accountName description st w transfer ->
  exists st' w' booked charged,
    processWithdrawal paystack utcOffset userId0 amount accountNumber
      bankCode accountName description st
    = (Returned (succeeded (S (nextUuid st)) (Wallet.balance w - amount)),
       st')
    /\ store_ok st' = true /\ faults st' = [] /\ clock st' = clock st
    /\ find (byUser userId0) (wallets st') = Some w'
    /\ Wallet.balance w' = Wallet.balance w - amount
    /\ totals w'
       = (Wallet.totalDeposits w, Wallet.totalWithdrawals w + amount,
          Wallet.totalTipsSent w, Wallet.totalTipsReceived w,
          Wallet.totalReferralEarnings w)
    /\ transactions st' = transactions st ++ [booked; charged]
    /\ Transaction.id booked = S (nextUuid st)
    /\ Transaction.id charged = S (S (nextUuid st))
    /\ entry booked = (Transaction.withdrawal, userId0, - amount)
    /\ Transaction.reference booked
       = Some (Paystack.transfer_reference transfer)
    /\ Transaction.status booked = Transaction.pending
    /\ entry charged = (Transaction.fee, userId0, - withdrawalFee amount)
    /\ is_completed charged = true.
Proof.
  intros Hok Hf H.
  pose proof Hok as Hparts. apply store_ok_parts in Hparts.
  destruct Hparts as (Hu & Hwb & Htb & Htips & Hrefs).
  withdrawal_to_transfer H Hf w amount.
  rewrite (find_doc_exists Wallet.id _ _ _ Hw).
  unfold NotificationService.sendTransactionNotification.
  run_reliable Hf.
  do 4 eexists. split; [reflexivity|]. store_simpl_goal.
  split.
  { unfold store_ok. store_simpl_goal.
    repeat (apply andb_true_intro; split).
    - rewrite unique_ids_update by reflexivity. exact Hu.
    - apply ids_below_update; [|reflexivity].
      eapply ids_below_mono; [eassumption|lia].
    - apply ids_below_set; [|cbn; lia]. apply ids_below_set; [|cbn; lia].
      eapply ids_below_mono; [eassumption|lia].
    - eapply ids_below_mono; [eassumption|lia].
    - eapply ids_below_mono; [eassumption|lia]. }
  split; [assumption|]. split; [reflexivity|].
  split; [apply find_updated; exact Hw|].
  split; [reflexivity|]. split; [reflexivity|].
  split.
  { eapply doc_set_transactions2;
      [eassumption|reflexivity|reflexivity|lia|lia|lia]. }
  repeat (split; [reflexivity|]). reflexivity.
Qed.

(** X19. On a store that commits its writes a withdrawal whose checks
    pass and whose transfer the gateway accepts succeeds, and reports the
    balance less the whole amount. *)
Theorem processWithdrawal_accepted paystack utcOffset userId0 amount
    accountNumber bankCode accountName description st w transfer :
  store_ok st = true -> faults st = [] ->
  transfer_accepted paystack utcOffset userId0 amount accountNumber bankCode
    accountName description st w transfer ->
  exists res st',
    processWithdrawal paystack utcOffset userId0 amount accountNumber
      bankCode accountName description st = (Returned res, st')
    /\ WalletService.success res = true
    /\ newBalance res = Some (Wallet.balance w - amount)
    /\ balanceOf userId0 st' = Some (Wallet.balance w - amount).
Proof.
  intros Hok Hf H.
  destruct (processWithdrawal_reliable _ _ _ _ _ _ _ _ _ _ _ Hok Hf H)
    as (st' & w' & _ & _ & Hrun & _ & _ & _ & Hw' & Hb & _).
  do 2 eexists. split; [exact Hrun|].
  split; [reflexivity|]. split; [reflexivity|].
  unfold balanceOf. rewrite Hw'. cbn [option_map]. rewrite Hb. reflexivity.
Qed.

Lemma processWithdrawal_accepted_witness :
  exists res st',
    processWithdrawal accepting_gateway 0 "alice" 500 "0123456789" "058"
      "Alice A" None two_wallets = (Returned res, st')
    /\ WalletService.success res = true
    /\ newBalance res = Some 500
    /\ balanceOf "alice" st' = Some 500.
Proof.
  assert (Hok : store_ok two_wallets = true) by (vm_compute; reflexivity).
  exact (processWithdrawal_accepted accepting_gateway 0 "alice" 500
           "0123456789" "058" "Alice A" None two_wallets _ _ Hok eq_refl
           (alice_transfer_accepted [])).
Defined.

(** X20. A withdrawal followed by the failure of its transfer: the
    refund restores the balance, but the wallet then shows both a
    withdrawal and a deposit of the amount, and the fee transaction of the
    withdrawal stays completed beside the failed withdrawal and the
    refund. *)
Theorem withdrawal_then_transfer_failed paystack utcOffset userId0 amount
    accountNumber bankCode accountName description st w transfer secret
    signature expectedSignature event :
  store_ok st = true -> faults st = [] ->
  transfer_accepted paystack utcOffset userId0 amount accountNumber bankCode
    accountName description st w transfer ->
  find (PaymentsRoutes.byReference (Paystack.transfer_reference transfer))
    (transactions st) = None ->
  signature_accepted secret signature expectedSignature ->
  transfer_undone event ->
  exists res st1 st2 w2 booked charged refund,
    processWithdrawal paystack utcOffset userId0 amount accountNumber
      bankCode accountName description st = (Returned res, st1)
    /\ WalletService.success res = true
    /\ PaymentsRoutes.paystackTransferWebhook secret signature
         expectedSignature event (Paystack.transfer_reference transfer) st1
       = (Returned 200, st2)
    /\ find (byUser userId0) (wallets st2) = Some w2
    /\ Wallet.balance w2 = Wallet.balance w
    /\ totals w2
       = (Wallet.totalDeposits w + amount, Wallet.totalWithdrawals w + amount,
          Wallet.totalTipsSent w, Wallet.totalTipsReceived w,
          Wallet.totalReferralEarnings w)
    /\ transactions st2 = transactions st ++ [booked; charged; refund]
    /\ entry booked = (Transaction.withdrawal, userId0, - amount)
    /\ Transaction.status booked = Transaction.failed
    /\ entry charged = (Transaction.fee, userId0, - withdrawalFee amount)
    /\ is_completed charged = true
    /\ entry refund = (Transaction.deposit, userId0, amount)
    /\ is_completed refund = true.
Proof.
  intros Hok Hf H Hfresh Hsig Hev.
  assert (Hrange : 100 <= amount) by (destruct H as (_ & [? _] & _); lia).
  destruct (processWithdrawal_reliable _ _ _ _ _ _ _ _ _ _ _ Hok Hf H)
    as (st1 & w1 & booked & charged & Hrun & Hok1 & Hf1 & Hc1 & Hw1 & Hb1
        & Htot1 & Htxs1 & Hid & Hidc & Heb & Hrb & Hsb & Hec & Hcc).
  assert (Hub : Transaction.userId booked = userId0)
    by (unfold entry in Heb; congruence).
  assert (Hab : Transaction.amount booked = - amount)
    by (unfold entry in Heb; congruence).
  assert (Htb : Transaction.type booked = Transaction.withdrawal)
    by (unfold entry in Heb; congruence).
  assert (Ht1 : find (PaymentsRoutes.byReference
                        (Paystack.transfer_reference transfer))
                  (transactions st1) = Some booked).
  { rewrite Htxs1, find_app_none by exact Hfresh. cbn [find].
    unfold PaymentsRoutes.byReference. rewrite Hrb, Htb, String.eqb_refl.
    reflexivity. }
  rewrite <- Hub in Hw1.
  destruct (webhook_refund_step _ _ _ _ _ _ _ _ Hok1 Hf1 Hsig Hev Ht1 Hw1)
    as (st2 & w2 & t2 & refund & Hrun2 & _ & _ & Hw2 & Hb2 & Htot2 & _ & Et2
        & Htxs2 & Hcr & Her & _).
  rewrite Hub in Hw2, Her. rewrite Hab in Hb2, Htot2, Her.
  replace (Math_abs (- amount)) with amount in *
    by (unfold Math_abs; lia).
  exists (succeeded (S (nextUuid st)) (Wallet.balance w - amount)), st1, st2,
    w2, (PaymentsRoutes.markStatus Transaction.failed (clock st1) None booked),
    charged, refund.
  split; [exact Hrun|]. split; [reflexivity|]. split; [exact Hrun2|].
  split; [exact Hw2|]. split; [lia|].
  split.
  { rewrite Htot2. unfold totals in Htot1. inversion Htot1. reflexivity. }
  split.
  { rewrite Htxs2, Htxs1. unfold doc_update. rewrite map_app.
    fold (doc_update Transaction.id (Transaction.id booked)
            (PaymentsRoutes.markStatus Transaction.failed (clock st1) None)
            (transactions st)).
    apply store_ok_parts in Hok. destruct Hok as (_ & _ & Htb0 & _).
    rewrite (doc_update_fresh Transaction.id (nextUuid st))
      by (assumption || (rewrite Hid; lia)).
    cbn [map]. rewrite Nat.eqb_refl, Hidc, Hid.
    replace (Nat.eqb (S (S (nextUuid st))) (S (nextUuid st))) with false
      by (symmetry; apply Nat.eqb_neq; lia).
    rewrite <- app_assoc. reflexivity. }
  split; [exact Heb|]. split; [reflexivity|].
  repeat (split; [assumption|]). assumption.
Qed.

Lemma withdrawal_then_transfer_failed_witness :
  exists st2,
    PaymentsRoutes.paystackTransferWebhook None None "" "transfer.failed"
      "WD_2" after_withdrawal = (Returned 200, st2)
    /\ balanceOf "alice" st2 = Some 1000
    /\ option_map totals (find (byUser "alice") (wallets st2))
       = Some (500, 500, 0, 0, 0).
Proof.
  assert (Hok : store_ok two_wallets = true) by (vm_compute; reflexivity).
  pose proof (alice_transfer_accepted []) as Hacc.
  destruct (withdrawal_then_transfer_failed accepting_gateway 0 "alice" 500
              "0123456789" "058" "Alice A" None two_wallets _ _ None None ""
              "transfer.failed" Hok eq_refl Hacc eq_refl
              ltac:(left; reflexivity) ltac:(left; reflexivity))
    as (res & st1 & st2 & w2 & booked & charged & refund & Hrun & _ & Hrun2
        & Hw2 & Hb & Htot & _).
  assert (E : st1 = after_withdrawal)
    by (unfold after_withdrawal; rewrite Hrun; reflexivity).
  rewrite E in Hrun2. exists st2. split; [exact Hrun2|].
  unfold balanceOf. rewrite Hw2. cbn [option_map]. rewrite Hb, Htot.
  split; reflexivity.
Defined.

(** ** The books of every wallet balance *)

Lemma balanced_update ws i fields w :
  (forall x, In x ws -> Wallet.id x = i -> x = w) ->
  balanced (Wallet.spread w fields) = true ->
  forallb balanced ws = true ->
  forallb balanced
    (doc_update Wallet.id i (fun x => Wallet.spread x fields) ws) = true.
Proof.
  intros Hx Hw Hws. unfold doc_update. rewrite forallb_forall in *.
  intros y Hy. apply in_map_iff in Hy. destruct Hy as (x & <- & Hin).
  destruct (Nat.eqb (Wallet.id x) i) eqn:E; [|apply Hws; exact Hin].
  apply Nat.eqb_eq in E. rewrite (Hx x Hin E). exact Hw.
Qed.

Lemma balanced_set ws i w :
  balanced w = true -> forallb balanced ws = true ->
  forallb balanced (doc_set Wallet.id i w ws) = true.
Proof.
  intros Hw Hws. unfold doc_set, doc_update.
  destruct (doc_exists Wallet.id i ws).
  - rewrite forallb_forall in *. intros y Hy.
    apply in_map_iff in Hy. destruct Hy as (x & <- & Hx).
    destruct (Nat.eqb (Wallet.id x) i); [exact Hw|apply Hws; assumption].
  - rewrite forallb_app, Hws. cbn. rewrite Hw. reflexivity.
Qed.

Lemma found_target ws p w :
  unique_ids Wallet.id ws = true -> find p ws = Some w ->
  forall x, In x ws -> Wallet.id x = Wallet.id w -> x = w.
Proof.
  intros Hu Hw x Hx E. apply find_some in Hw. destruct Hw as [Hin _].
  exact (unique_ids_inj Wallet.id ws x w Hu Hx Hin E).
Qed.

Lemma found_balanced ws p w :
  forallb balanced ws = true -> find p ws = Some w -> balanced w = true.
Proof.
  intros Hws Hw. apply find_some in Hw. destruct Hw as [Hin _].
  rewrite forallb_forall in Hws. exact (Hws w Hin).
Qed.

Lemma found_below ws p w n :
  ids_below Wallet.id n ws = true -> find p ws = Some w ->
  (Wallet.id w < n)%nat.
Proof.
  intros Hb Hw. apply find_some in Hw. destruct Hw as [Hin _].
  unfold ids_below in Hb. rewrite forallb_forall in Hb.
  apply Nat.ltb_lt. exact (Hb w Hin).
Qed.

Lemma target_after_update ws i j fields w :
  (forall x, In x ws -> Wallet.id x = i -> x = w) ->
  i <> j ->
  forall x,
    In x (doc_update Wallet.id j (fun y => Wallet.spread y fields) ws) ->
    Wallet.id x = i -> x = w.
Proof.
  intros Hx Hij x Hin E. unfold doc_update in Hin.
  apply in_map_iff in Hin. destruct Hin as (y & <- & Hy).
  destruct (Nat.eqb (Wallet.id y) j) eqn:Ej.
  - apply Nat.eqb_eq in Ej. rewrite spread_id in E. congruence.
  - apply Hx; assumption.
Qed.

Lemma target_after_set ws i n new w :
  (forall x, In x ws -> Wallet.id x = i -> x = w) ->
  i <> n -> Wallet.id new = n ->
  forall x, In x (doc_set Wallet.id n new ws) -> Wallet.id x = i -> x = w.
Proof.
  intros Hx Hin En x Hxin E. unfold doc_set, doc_update in Hxin.
  destruct (doc_exists Wallet.id n ws).
  - apply in_map_iff in Hxin. destruct Hxin as (y & <- & Hy).
    destruct (Nat.eqb (Wallet.id y) n); [congruence|].
    apply Hx; assumption.
  - apply in_app_or in Hxin. destruct Hxin as [Hy|[<-|[]]].
    + apply Hx; assumption.
    + congruence.
Qed.

Lemma target_new ws n new :
  ids_below Wallet.id n ws = true -> Wallet.id new = n ->
  forall x, In x (doc_set Wallet.id n new ws) -> Wallet.id x = n -> x = new.
Proof.
  intros Hb En x Hxin E.
  rewrite doc_set_fresh in Hxin by (eapply ids_below_fresh; eauto).
  apply in_app_or in Hxin. destruct Hxin as [Hy|[<-|[]]]; [|reflexivity].
  exfalso. unfold ids_below in Hb. rewrite forallb_forall in Hb.
  specialize (Hb x Hy). apply Nat.ltb_lt in Hb. lia.
Qed.

Ltac ids_differ :=
  first
    [ intros E; symmetry in E; revert E; apply Nat.eqb_neq;
      eapply found_ids_differ; eassumption
    | apply Nat.eqb_neq; eapply found_ids_differ; eassumption
    | repeat match goal with
        | Hb : ids_below Wallet.id ?n ?ws = true,
          H : find _ ?ws = Some ?w |- _ =>
            lazymatch goal with
            | _ : (Wallet.id w < n)%nat |- _ => fail
            | _ => pose proof (found_below _ _ _ _ Hb H)
            end
        end;
      cbn [Wallet.id Wallet.createWalletData]; lia ].

Ltac solve_target :=
  first
    [ eapply found_target; eassumption
    | apply target_after_update; [solve_target|ids_differ]
    | apply target_after_set; [solve_target|ids_differ|reflexivity]
    | apply target_new; [eassumption|reflexivity] ].

Ltac balanced_spread :=
  match goal with
  | H : balanced ?w = true |- balanced (Wallet.spread ?w _) = true =>
      unfold balanced in *; cbn; apply Z.eqb_eq in H; apply Z.eqb_eq; lia
  | |- balanced (Wallet.spread (Wallet.createWalletData _ _ _ _) _) = true =>
      unfold balanced; cbn; apply Z.eqb_eq; lia
  end.

Ltac balanced_writes :=
  repeat first
    [ assumption
    | apply balanced_set; [reflexivity|]
    | match goal with
      | |- forallb balanced
             (doc_update Wallet.id (Wallet.id ?w) _ _) = true =>
          apply (balanced_update _ _ _ w); [solve_target|balanced_spread|]
      end ].

Lemma perform_balanced op st :
  store_ok st = true ->
  ledger_balanced st = true ->
  ledger_balanced (snd (perform op st)) = true.
Proof.
  intros Hok Hst. destruct (perform op st) as [o st'] eqn:Hrun.
  cbn [snd]. unfold ledger_balanced in *.
  apply store_ok_parts in Hok. destruct Hok as (Hu & Hwb & _).
  destruct op; cbn [perform] in *;
    [unfold creditWallet in Hrun|unfold processReferralBonus in Hrun
    |unfold debitWallet in Hrun
    |unfold processTip in Hrun].
  all: run_any; try assumption.
  all: repeat match goal with
    | Hst : forallb balanced ?ws = true, H : find _ ?ws = Some ?w |- _ =>
        lazymatch goal with
        | _ : balanced w = true |- _ => fail
        | _ => pose proof (found_balanced _ _ _ Hst H)
        end
    end.
  all: balanced_writes.
Qed.

(** X21. The books of every wallet stay balanced: when each wallet's
    balance is its deposits, tips received and referral earnings less its
    withdrawals and tips sent, as it is for a new wallet, it is so again
    after any sequence of credits, referral bonuses, debits and tips, for
    any amounts and whichever writes the store rejects. *)
Theorem books_stay_balanced ops st :
  store_ok st = true ->
  ledger_balanced st = true ->
  ledger_balanced (run_ops ops st) = true.
Proof.
  revert st. induction ops as [|op ops IH]; intros st Hok Hst; [exact Hst|].
  cbn [run_ops]. apply IH.
  - apply perform_store_ok. exact Hok.
  - apply perform_balanced; assumption.
Qed.

Lemma books_stay_balanced_witness :
  ledger_balanced
    (run_ops [Credit "alice" 1000 "top up" None None;
              SendTip "alice" "bob" 500 mobile_app None false;
              Debit "bob" 100 "cash out" (Some 5) None None]
       new_wallets) = true.
Proof.
  apply books_stay_balanced; vm_compute; reflexivity.
Defined.

(** X22. A withdrawal and the transfer webhook keep the books balanced
    as well, wherever they stop. *)
Theorem withdrawal_keeps_books_balanced paystack utcOffset userId0 amount
    accountNumber bankCode accountName description secret signature
    expectedSignature event reference st :
  store_ok st = true ->
  ledger_balanced st = true ->
  ledger_balanced
    (snd (processWithdrawal paystack utcOffset userId0 amount accountNumber
            bankCode accountName description st)) = true
  /\ ledger_balanced
       (snd (PaymentsRoutes.paystackTransferWebhook secret signature
               expectedSignature event reference st)) = true.
Proof.
  intros Hok Hst. split.
  - destruct (processWithdrawal paystack utcOffset userId0 amount
                accountNumber bankCode accountName description st)
      as [o st'] eqn:Hrun.
    cbn [snd]. unfold ledger_balanced in *.
    apply store_ok_parts in Hok. destruct Hok as (Hu & Hwb & _).
    unfold processWithdrawal in Hrun. run_more; try assumption.
    all: repeat match goal with
      | Hst : forallb balanced ?ws = true, H : find _ ?ws = Some ?w |- _ =>
          lazymatch goal with
          | _ : balanced w = true |- _ => fail
          | _ => pose proof (found_balanced _ _ _ Hst H)
          end
      end.
    all: balanced_writes.
  - destruct (PaymentsRoutes.paystackTransferWebhook secret signature
                expectedSignature event reference st) as [o st'] eqn:Hrun.
    cbn [snd]. unfold PaymentsRoutes.paystackTransferWebhook in Hrun.
    repeat (run_more;
            try match goal with
            | H : creditWallet ?u ?a ?d ?r ?m ?s = (_, ?s') |- _ =>
                let Hb := fresh "Hb" in
                assert (Hb : ledger_balanced s' = true)
                  by (pose proof (perform_balanced (Credit u a d r m) s)
                        as Hp;
                      cbn [perform] in Hp; rewrite H in Hp; apply Hp;
                      assumption);
                clear H
            end).
    all: assumption.
Qed.

(** Alice, who funded her wallet with 1000 and withdrew 400, withdraws
    300 more, or else the transfer of the 400 fails and the webhook gives
    them back: her wallet is written either way, and the books balance. *)
Lemma withdrawal_keeps_books_balanced_witness :
  balanceOf "alice" alice_withdrew = Some 600
  /\ balanceOf "alice"
       (snd (processWithdrawal accepting_gateway 0 "alice" 300 "0123456789"
               "058" "Alice A" None alice_withdrew))
     = Some 300
  /\ ledger_balanced
       (snd (processWithdrawal accepting_gateway 0 "alice" 300 "0123456789"
               "058" "Alice A" None alice_withdrew)) = true
  /\ balanceOf "alice"
       (snd (PaymentsRoutes.paystackTransferWebhook None None ""
               "transfer.failed" "WD_3" alice_withdrew))
     = Some 1000
  /\ ledger_balanced
       (snd (PaymentsRoutes.paystackTransferWebhook None None ""
               "transfer.failed" "WD_3" alice_withdrew)) = true.
Proof.
  assert (Hok : store_ok alice_withdrew = true) by (vm_compute; reflexivity).
  assert (Hst : ledger_balanced alice_withdrew = true)
    by (vm_compute; reflexivity).
  destruct (withdrawal_keeps_books_balanced accepting_gateway 0 "alice" 300
              "0123456789" "058" "Alice A" None None None ""
              "transfer.failed" "WD_3" alice_withdrew Hok Hst) as [H1 H2].
  split; [vm_compute; reflexivity|].
  split; [vm_compute; reflexivity|].
  split; [exact H1|].
  split; [vm_compute; reflexivity|exact H2].
Defined.

(** ** Tips and debits: what a refusal and a success leave behind *)

(** X23. On a store that commits its writes [processTip] always
    returns, and a tip that is refused moves no money: no transaction and
    no tip is written and every wallet is as it was.  The one trace it can
    leave is an empty wallet, created for a recipient who had none before
    the balance of the sender was found too small. *)
Theorem processTip_refused st senderId recipientId amount platform
    description isAnonymous :
  store_ok st = true -> faults st = [] ->
  exists res st',
    processTip senderId recipientId amount platform description isAnonymous
      st = (Returned res, st')
    /\ (WalletService.success res = false ->
        transactions st' = transactions st
        /\ tips st' = tips st
        /\ (wallets st' = wallets st
            \/ exists w,
                 wallets st' = wallets st ++ [w]
                 /\ hasWallet recipientId st = false
                 /\ Wallet.userId w = recipientId
                 /\ Wallet.balance w = 0)).
Proof.
  intros Hok Hf. apply store_ok_parts in Hok.
  destruct Hok as (_ & Hwb & _).
  destruct (processTip senderId recipientId amount platform description
              isAnonymous st) as [o st'] eqn:Hrun.
  unfold processTip in Hrun.
  apply try_catch_inv in Hrun.
  destruct Hrun as [(a & Hrun & ->)|(msg & st1 & Hrun & Hh)].
  - do 2 eexists. split; [reflexivity|]. intros Hs.
    run_reliably; discriminate.
  - inv Hh. do 2 eexists. split; [reflexivity|]. intros _.
    run_reliably.
    all: try (split; [reflexivity|split; [reflexivity|left; reflexivity]]).
    all: split; [reflexivity|split; [reflexivity|right]].
    all: eexists; split;
      [apply doc_set_fresh; eapply ids_below_fresh; eauto|].
    all: unfold hasWallet;
      match goal with H : find _ _ = None |- _ => rewrite H end.
    all: repeat split.
Qed.

Lemma processTip_refused_witness :
  exists res st',
    processTip "alice" "carol" 5000 mobile_app None false two_wallets
    = (Returned res, st')
    /\ (WalletService.success res = false ->
        transactions st' = transactions two_wallets
        /\ tips st' = tips two_wallets
        /\ (wallets st' = wallets two_wallets
            \/ exists w,
                 wallets st' = wallets two_wallets ++ [w]
                 /\ hasWallet "carol" two_wallets = false
                 /\ Wallet.userId w = "carol"
                 /\ Wallet.balance w = 0)).
Proof.
  apply (processTip_refused two_wallets "alice" "carol" 5000 mobile_app None
           false).
  - vm_compute. reflexivity.
  - reflexivity.
Defined.

(** X24. A debit that succeeds takes the amount, and only the amount,
    from the balance and adds it to [totalWithdrawals]; it writes one
    completed [withdrawal] of minus the amount that records the fee it was
    given (none counts as 0) and the amount less the fee as net amount, but
    the fee itself is charged to nobody. *)
Theorem debitWallet_books st userId0 amount description fee reference
    metadata res st' w :
  store_ok st = true ->
  find (byUser userId0) (wallets st) = Some w ->
  debitWallet userId0 amount description fee reference metadata st
  = (Returned res, st') ->
  WalletService.success res = true ->
  newBalance res = Some (Wallet.balance w - amount)
  /\ (exists w',
        find (byUser userId0) (wallets st') = Some w'
        /\ Wallet.balance w' = Wallet.balance w - amount
        /\ totals w'
           = (Wallet.totalDeposits w, Wallet.totalWithdrawals w + amount,
              Wallet.totalTipsSent w, Wallet.totalTipsReceived w,
              Wallet.totalReferralEarnings w))
  /\ (forall v, String.eqb v userId0 = false ->
        find (byUser v) (wallets st') = find (byUser v) (wallets st))
  /\ exists t,
       transactions st' = transactions st ++ [t]
       /\ transactionId res = Some (Transaction.id t)
       /\ entry t = (Transaction.withdrawal, userId0, - amount)
       /\ Transaction.fee_ t = Some (or_else fee 0)
       /\ Transaction.netAmount t = amount - or_else fee 0
       /\ is_completed t = true.
Proof.
  intros Hok Hw Hrun Hs.
  apply store_ok_parts in Hok. destruct Hok as (Hu & _ & Ht & _).
  unfold debitWallet in Hrun.
  apply try_catch_Returned in Hrun.
  destruct Hrun as [Hrun|(msg & st1 & _ & Hh)]; [|inv Hh; discriminate].
  run_more.
  match goal with
  | H : find (byUser userId0) (wallets _) = Some _ |- _ => rename H into Hw
  end.
  split; [reflexivity|].
  split; [eexists; split; [apply find_updated; exact Hw|split; reflexivity]|].
  split; [intros v Hv; apply (find_update_other _ userId0); assumption|].
  eexists. split.
  { eapply doc_set_transactions1; [eassumption|lia]. }
  repeat split.
Qed.

Lemma debitWallet_books_witness :
  exists res st',
    debitWallet "alice" 400 "cash out" (Some 25) None None two_wallets
    = (Returned res, st')
    /\ balanceOf "alice" st' = Some 600.
Proof.
  assert (Hok : store_ok two_wallets = true) by (vm_compute; reflexivity).
  assert (Hw : find (byUser "alice") (wallets two_wallets)
               = Some (wallet_with 0%nat "alice" 1000))
    by (vm_compute; reflexivity).
  assert (Hrun :
    debitWallet "alice" 400 "cash out" (Some 25) None None two_wallets
    = (Returned (succeeded 2%nat 600),
       snd (debitWallet "alice" 400 "cash out" (Some 25) None None
              two_wallets)))
    by (vm_compute; reflexivity).
  destruct (debitWallet_books _ _ _ _ _ _ _ _ _ _ Hok Hw Hrun eq_refl)
    as (_ & (w' & Hw' & Hb & _) & _).
  do 2 eexists. split; [exact Hrun|].
  unfold balanceOf. rewrite Hw'. cbn [option_map]. rewrite Hb. reflexivity.
Defined.

(** ** The sweep of the pending bonuses *)

Lemma processReferralBonus_run st referrerId referredId level bonusAmount :
  store_ok st = true -> faults st = [] ->
  match find (byUser referrerId) (wallets st) with
  | None =>
      processReferralBonus referrerId referredId level bonusAmount st
      = (Returned (failure "Referrer wallet not found"
                     "Failed to process referral bonus"), st)
  | Some w =>
      exists st1 w1,
        processReferralBonus referrerId referredId level bonusAmount st
        = (Returned (succeeded (nextUuid st) (Wallet.balance w + bonusAmount)),
           st1)
        /\ store_ok st1 = true /\ faults st1 = []
        /\ clock st1 = clock st /\ users st1 = users st
        /\ referrals st1 = referrals st
        /\ find (byUser referrerId) (wallets st1) = Some w1
        /\ Wallet.balance w1 = Wallet.balance w + bonusAmount
        /\ (forall v, String.eqb v referrerId = false ->
              find (byUser v) (wallets st1) = find (byUser v) (wallets st))
  end.
Proof.
  intros Hok Hf.
  destruct (find (byUser referrerId) (wallets st)) as [w|] eqn:Hw.
  - destruct (processReferralBonus referrerId referredId level bonusAmount st)
      as [o st1] eqn:Hrun.
    pose proof (processReferralBonus_store_ok _ _ _ _ _ _ _ Hok Hrun) as Hok1.
    apply store_ok_parts in Hok. destruct Hok as (Hu & _).
    revert Hrun. unfold processReferralBonus. run_reliable Hf.
    rewrite Hw. run_reliable Hf.
    rewrite (find_doc_exists Wallet.id _ _ _ Hw). run_reliable Hf.
    intros Hrun. inv Hrun. do 2 eexists. split; [reflexivity|].
    store_simpl_goal.
    split; [exact Hok1|]. split; [assumption|].
    split; [reflexivity|]. split; [reflexivity|]. split; [reflexivity|].
    split; [apply find_updated; exact Hw|]. split; [reflexivity|].
    intros v Hv. apply (find_update_other _ referrerId); assumption.
  - unfold processReferralBonus. run_reliable Hf. rewrite Hw. reflexivity.
Qed.

Lemma Forall2_same {A} (R : A -> A -> Prop) l :
  (forall x, R x x) -> Forall2 R l l.
Proof. intros H. induction l; constructor; auto. Qed.

Lemma Forall2_map_left {A B C} (R : B -> C -> Prop) (g : A -> B) l l' :
  Forall2 R (map g l) l' -> Forall2 (fun x y => R (g x) y) l l'.
Proof.
  revert l'. induction l as [|x l IH]; intros l' H; inversion H; subst;
    constructor; auto.
Qed.

Lemma Forall2_weaken_in {A B} (R R' : A -> B -> Prop) l l' :
  Forall2 R l l' -> (forall x y, In x l -> R x y -> R' x y) ->
  Forall2 R' l l'.
Proof.
  intros H. induction H as [|x y l l' Hxy H IH]; intros Himp; constructor.
  - apply Himp; [left; reflexivity|exact Hxy].
  - apply IH. intros a b Ha. apply Himp. right. exact Ha.
Qed.

Lemma sumBonus_cons r rs :
  sumBonus (r :: rs) = Referral.bonus r + sumBonus rs.
Proof.
  unfold sumBonus. cbn [fold_left].
  rewrite (fold_left_sum_shift Referral.bonus). lia.
Qed.

Lemma existsb_same {A} (f g : A -> bool) l :
  (forall a, f a = g a) -> existsb f l = existsb g l.
Proof.
  intros H. induction l as [|a l IH]; cbn; [reflexivity|].
  rewrite H, IH. reflexivity.
Qed.

Lemma swept_by_credited d rest st st2 transactionId x y :
  ~ In (Referral.id d) (map Referral.id rest) ->
  (forall a, credited st2 a = credited st a) ->
  clock st2 = clock st ->
  credited st d = true ->
  swept_by rest st2
    (if Nat.eqb (Referral.id x) (Referral.id d)
     then Referral.markCompleted transactionId (clock st) x
     else x) y ->
  swept_by (d :: rest) st x y.
Proof.
  intros Hnotin Hcred Hclock Hd. unfold swept_by. cbn [existsb].
  rewrite Hclock, Hd, andb_true_r, (Nat.eqb_sym (Referral.id d)).
  rewrite (existsb_same _ (fun d0 => Nat.eqb (Referral.id d0) (Referral.id x)
                                     && credited st d0))
    by (intros a; destruct (Nat.eqb (Referral.id x) (Referral.id d));
        rewrite Hcred; reflexivity).
  destruct (Nat.eqb (Referral.id x) (Referral.id d)) eqn:E; cbn [orb].
  - assert (Hnone : existsb (fun d0 => Nat.eqb (Referral.id d0)
                                         (Referral.id x)
                                       && credited st d0) rest = false).
    { apply Nat.eqb_eq in E. rewrite E.
      apply not_true_is_false. intros Hex. apply existsb_exists in Hex.
      destruct Hex as (d0 & Hin & Hd0). apply andb_prop in Hd0.
      destruct Hd0 as [Hid _]. apply Nat.eqb_eq in Hid.
      apply Hnotin. rewrite <- Hid. apply in_map. exact Hin. }
    rewrite Hnone. intros ->. eexists. reflexivity.
  - trivial.
Qed.

Lemma swept_by_skipped d rest st x y :
  credited st d = false ->
  swept_by rest st x y -> swept_by (d :: rest) st x y.
Proof.
  intros Hd. unfold swept_by. cbn [existsb].
  rewrite Hd, andb_false_r. trivial.
Qed.

Lemma hasWallet_after_bonus st st1 referrerId w w1 :
  find (byUser referrerId) (wallets st) = Some w ->
  find (byUser referrerId) (wallets st1) = Some w1 ->
  (forall v, String.eqb v referrerId = false ->
     find (byUser v) (wallets st1) = find (byUser v) (wallets st)) ->
  forall u, hasWallet u st1 = hasWallet u st.
Proof.
  intros Hw Hw1 Hother u. unfold hasWallet.
  destruct (String.eqb u referrerId) eqn:E.
  - apply String.eqb_eq in E. subst u. rewrite Hw, Hw1. reflexivity.
  - rewrite (Hother u E). reflexivity.
Qed.

Lemma processPendingDocs_reliable docs :
  forall counters st,
    store_ok st = true -> faults st = [] ->
    NoDup (map Referral.id docs) ->
    (forall d, In d docs ->
       doc_exists Referral.id (Referral.id d) (referrals st) = true) ->
    exists st',
      processPendingDocs docs counters st
      = (Returned
           {| PendingBonuses.processed :=
                (PendingBonuses.processed counters
                 + List.length (filter (credited st) docs))%nat;
              PendingBonuses.failed :=
                (PendingBonuses.failed counters
                 + List.length
                     (filter (fun d => negb (credited st d)) docs))%nat |},
         st')
      /\ store_ok st' = true /\ faults st' = []
      /\ clock st' = clock st /\ users st' = users st
      /\ (forall u, hasWallet u st' = hasWallet u st)
      /\ Forall2 (swept_by docs st) (referrals st) (referrals st')
      /\ (forall u,
            balanceOf u st'
            = option_map
                (fun b => b + sumBonus
                                (filter (fun d => credited st d
                                                  && byReferrer u d) docs))
                (balanceOf u st))
      /\ (forallb (fun d => negb (credited st d)) docs = true -> st' = st).
Proof.
  induction docs as [|d rest IH]; intros counters st Hok Hf Hnd Hex.
  - exists st. cbn [processPendingDocs filter List.length].
    rewrite !Nat.add_0_r. destruct counters as [p f].
    split; [reflexivity|].
    repeat (split; [reflexivity || assumption|]).
    split; [apply Forall2_same; intros x; reflexivity|].
    split; [|reflexivity].
    intros u. unfold balanceOf. cbn [filter]. unfold sumBonus. cbn.
    destruct (find (byUser u) (wallets st)); cbn; [f_equal; lia|reflexivity].
  - inversion Hnd as [|? ? Hnotin Hnd']; subst.
    pose proof (processReferralBonus_run st (Referral.referrerId d)
                  (Referral.referredId d) (Referral.level d)
                  (Referral.bonus d) Hok Hf) as Hbonus.
    cbn [processPendingDocs].
    destruct (find (byUser (Referral.referrerId d)) (wallets st)) as [w|]
      eqn:Hw.
    + destruct Hbonus as (st1 & w1 & Hrun & Hok1 & Hf1 & Hc1 & Hus1 & Hr1
                          & Hw1 & Hb1 & Hother).
      pose proof (hasWallet_after_bonus _ _ _ _ _ Hw Hw1 Hother) as Hhas1.
      set (st2 := with_referrals
                    (doc_update Referral.id (Referral.id d)
                       (Referral.markCompleted (Some (nextUuid st))
                          (clock st1)))
                    st1).
      assert (Hok2 : store_ok st2 = true).
      { subst st2. clear - Hok1. store_ok_goal. }
      destruct (IH {| PendingBonuses.processed :=
                        S (PendingBonuses.processed counters);
                      PendingBonuses.failed :=
                        PendingBonuses.failed counters |} st2 Hok2)
        as (st' & Hrest & Hok' & Hf' & Hc' & Hus' & Hhas' & Hsw' & Hbal'
            & Hsame').
      { subst st2. store_simpl_goal. exact Hf1. }
      { exact Hnd'. }
      { intros x Hx. subst st2. store_simpl_goal.
        rewrite (doc_exists_update Referral.id) by reflexivity.
        rewrite Hr1. apply Hex. right. exact Hx. }
      assert (Hcred : forall x, credited st2 x = credited st x)
        by (intros x; unfold credited; subst st2; apply Hhas1).
      assert (Hclock : clock st2 = clock st) by (subst st2; exact Hc1).
      assert (Hd : credited st d = true)
        by (unfold credited, hasWallet; rewrite Hw; reflexivity).
      rewrite (filter_ext _ _ Hcred) in Hrest.
      rewrite (filter_ext (fun x => negb (credited st2 x))
                 (fun x => negb (credited st x))) in Hrest
        by (intros x; rewrite Hcred; reflexivity).
      exists st'. split.
      { unfold await at 1, try_catch. unfold await at 1. rewrite Hrun.
        cbn [WalletService.success succeeded WalletService.transactionId].
        unfold await, new_Date, referrals_update, firestore_write, commit,
          resolve.
        rewrite Hf1, Hr1, (Hex d (or_introl eq_refl)).
        fold st2. rewrite Hrest. cbn [filter]. rewrite Hd. cbn [negb].
        cbn [PendingBonuses.processed PendingBonuses.failed List.length].
        rewrite Nat.add_succ_r. reflexivity. }
      split; [exact Hok'|]. split; [exact Hf'|].
      split; [congruence|].
      split; [rewrite Hus'; subst st2; exact Hus1|].
      split; [intros u; rewrite Hhas'; subst st2; apply Hhas1|].
      split.
      { assert (Hrefs2 : referrals st2
                         = doc_update Referral.id (Referral.id d)
                             (Referral.markCompleted (Some (nextUuid st))
                                (clock st))
                             (referrals st))
          by (subst st2; store_simpl_goal; rewrite Hr1, Hc1; reflexivity).
        rewrite Hrefs2 in Hsw'. unfold doc_update in Hsw'.
        apply Forall2_map_left in Hsw'.
        eapply Forall2_weaken_in; [exact Hsw'|].
        intros x y _ Hxy. cbn beta in Hxy.
        exact (swept_by_credited _ _ _ _ _ _ _ Hnotin Hcred Hclock Hd Hxy). }
      split.
      { intros u. rewrite Hbal'.
        rewrite (filter_ext (fun x => credited st2 x && byReferrer u x)
                   (fun x => credited st x && byReferrer u x))
          by (intros x; rewrite Hcred; reflexivity).
        cbn [filter]. rewrite Hd. cbn [andb].
        assert (Hb2 : balanceOf u st2 = balanceOf u st1)
          by (subst st2; reflexivity).
        rewrite Hb2. unfold balanceOf, byReferrer.
        destruct (String.eqb (Referral.referrerId d) u) eqn:E.
        - apply String.eqb_eq in E. subst u. rewrite Hw, Hw1.
          cbn [option_map]. rewrite sumBonus_cons, Hb1. f_equal. lia.
        - rewrite Hother by (rewrite String.eqb_sym; exact E).
          reflexivity. }
      intros Hall. cbn [forallb] in Hall. rewrite Hd in Hall.
      discriminate Hall.
    + assert (Hd : credited st d = false)
        by (unfold credited, hasWallet; rewrite Hw; reflexivity).
      destruct (IH {| PendingBonuses.processed :=
                        PendingBonuses.processed counters;
                      PendingBonuses.failed :=
                        S (PendingBonuses.failed counters) |} st Hok Hf Hnd')
        as (st' & Hrest & Hok' & Hf' & Hc' & Hus' & Hhas' & Hsw' & Hbal'
            & Hsame').
      { intros x Hx. apply Hex. right. exact Hx. }
      exists st'. split.
      { unfold await at 1, try_catch. unfold await at 1. rewrite Hbonus.
        cbn [WalletService.success failure]. unfold resolve at 1.
        rewrite Hrest. cbn [filter]. rewrite Hd. cbn [negb].
        cbn [PendingBonuses.processed PendingBonuses.failed List.length].
        rewrite Nat.add_succ_r. reflexivity. }
      repeat (split; [assumption|]).
      split.
      { eapply Forall2_weaken_in; [exact Hsw'|].
        intros x y _ Hxy. apply swept_by_skipped; assumption. }
      split.
      { intros u. rewrite Hbal'. cbn [filter]. rewrite Hd. reflexivity. }
      intros Hall. apply Hsame'. cbn [forallb] in Hall.
      apply andb_prop in Hall. apply Hall.
Qed.

Lemma filter_twice {A} (f g : A -> bool) l :
  filter f (filter g l) = filter (fun x => g x && f x) l.
Proof.
  induction l as [|x l IH]; cbn [filter]; [reflexivity|].
  destruct (g x); cbn [filter andb]; [destruct (f x)|]; rewrite IH;
    reflexivity.
Qed.

Lemma unique_ids_NoDup {D} (doc_id : D -> DocId) c :
  unique_ids doc_id c = true -> NoDup (map doc_id c).
Proof.
  induction c as [|d c IH]; cbn [unique_ids map]; intros H; constructor.
  - apply andb_prop in H. destruct H as [Hd _].
    apply negb_true_iff in Hd. intros Hin. apply in_map_iff in Hin.
    destruct Hin as (x & Ex & Hx).
    assert (doc_exists doc_id (doc_id d) c = true); [|congruence].
    unfold doc_exists. apply existsb_exists. exists x.
    split; [exact Hx|apply Nat.eqb_eq; exact Ex].
  - apply IH. apply andb_prop in H. apply H.
Qed.

Lemma NoDup_map_filter {A B} (f : A -> B) (p : A -> bool) l :
  NoDup (map f l) -> NoDup (map f (filter p l)).
Proof.
  induction l as [|x l IH]; cbn [map filter]; intros H; [constructor|].
  inversion H as [|? ? Hnotin Hnd]; subst.
  destruct (p x); [|apply IH; exact Hnd].
  cbn [map]. constructor; [|apply IH; exact Hnd].
  intros Hin. apply Hnotin. apply in_map_iff in Hin.
  destruct Hin as (y & Ey & Hy). apply filter_In in Hy.
  rewrite <- Ey. apply in_map. apply Hy.
Qed.

Lemma swept_by_pending st x :
  unique_ids Referral.id (referrals st) = true ->
  In x (referrals st) ->
  existsb (fun d => Nat.eqb (Referral.id d) (Referral.id x) && credited st d)
    (filter isPending (referrals st))
  = payable st x.
Proof.
  intros Hu Hx. unfold payable. fold (credited st x).
  destruct (isPending x && credited st x) eqn:E.
  - apply andb_prop in E. destruct E as [Hp Hc].
    apply existsb_exists. exists x. split.
    + apply filter_In. split; assumption.
    + rewrite Nat.eqb_refl, Hc. reflexivity.
  - apply not_true_is_false. intros Hex. apply existsb_exists in Hex.
    destruct Hex as (d & Hd & Hm). apply filter_In in Hd.
    destruct Hd as [Hin Hp]. apply andb_prop in Hm. destruct Hm as [Hid Hc].
    apply Nat.eqb_eq in Hid.
    pose proof (unique_ids_inj Referral.id _ d x Hu Hin Hx Hid). subst d.
    rewrite Hp, Hc in E. discriminate E.
Qed.

Lemma swept_ids st l l' :
  Forall2 (swept st) l l' -> map Referral.id l' = map Referral.id l.
Proof.
  intros H. induction H as [|x y l l' Hxy H IH]; [reflexivity|].
  cbn [map]. rewrite IH. f_equal. unfold swept in Hxy.
  destruct (payable st x); [destruct Hxy as [tx ->]|subst y]; reflexivity.
Qed.

Lemma filter_length_related {A} (R : A -> A -> Prop) (f g : A -> bool) l l' :
  Forall2 R l l' -> (forall x y, R x y -> f x = g y) ->
  List.length (filter f l) = List.length (filter g l').
Proof.
  intros H Hfg. induction H as [|x y l l' Hxy H IH]; [reflexivity|].
  cbn [filter]. rewrite (Hfg x y Hxy).
  destruct (g y); cbn [List.length]; rewrite IH; reflexivity.
Qed.

(** One sweep on a store that commits its writes and keys its referrals
    by id. *)
Lemma processPendingBonuses_reliable st :
  store_ok st = true -> faults st = [] ->
  unique_ids Referral.id (referrals st) = true ->
  exists st',
    processPendingBonuses st
    = (Returned
         {| PendingBonuses.processed :=
              List.length (filter (payable st) (referrals st));
            PendingBonuses.failed :=
              List.length (filter (unpayable st) (referrals st)) |},
       st')
    /\ store_ok st' = true /\ faults st' = []
    /\ clock st' = clock st /\ users st' = users st
    /\ (forall u, hasWallet u st' = hasWallet u st)
    /\ Forall2 (swept st) (referrals st) (referrals st')
    /\ (forall u,
          balanceOf u st'
          = option_map (fun b => b + bonuses_due u st) (balanceOf u st))
    /\ (filter (payable st) (referrals st) = [] -> st' = st).
Proof.
  intros Hok Hf Hu.
  destruct (processPendingDocs_reliable (filter isPending (referrals st))
              {| PendingBonuses.processed := 0; PendingBonuses.failed := 0 |}
              st Hok Hf)
    as (st' & Hrun & Hok' & Hf' & Hc' & Hus' & Hhas' & Hsw' & Hbal' & Hsame').
  { apply NoDup_map_filter, unique_ids_NoDup, Hu. }
  { intros d Hd. apply filter_In in Hd. destruct Hd as [Hin _].
    unfold doc_exists. apply existsb_exists. exists d.
    split; [exact Hin|apply Nat.eqb_refl]. }
  rewrite !filter_twice in Hrun. cbn [Nat.add] in Hrun.
  exists st'. split.
  { unfold processPendingBonuses, try_catch, await. rewrite Hrun.
    reflexivity. }
  repeat (split; [assumption|]).
  split.
  { eapply Forall2_weaken_in; [exact Hsw'|].
    intros x y Hx Hxy. unfold swept_by in Hxy. unfold swept.
    rewrite (swept_by_pending st x Hu Hx) in Hxy. exact Hxy. }
  split.
  { intros u. rewrite Hbal', filter_twice. unfold bonuses_due.
    rewrite (filter_ext
               (fun x => isPending x && (credited st x && byReferrer u x))
               (fun r => payable st r && byReferrer u r))
      by (intros x; unfold payable, credited; apply andb_assoc).
    reflexivity. }
  intros Hnone. apply Hsame'. apply forallb_forall. intros d Hd.
  apply filter_In in Hd. destruct Hd as [Hin Hp].
  destruct (credited st d) eqn:E; [|reflexivity].
  assert (Hpay : In d (filter (payable st) (referrals st))).
  { apply filter_In. split; [exact Hin|]. unfold payable.
    rewrite Hp. exact E. }
  rewrite Hnone in Hpay. destruct Hpay.
Qed.

(** X25. A sweep of the pending bonuses on a store that commits its
    writes counts as processed the pending referrals whose referrer has a
    wallet and as failed those whose referrer has none. *)
Theorem processPendingBonuses_counts st :
  store_ok st = true -> faults st = [] ->
  unique_ids Referral.id (referrals st) = true ->
  exists counts st',
    processPendingBonuses st = (Returned counts, st')
    /\ PendingBonuses.processed counts
       = List.length (filter (payable st) (referrals st))
    /\ PendingBonuses.failed counts
       = List.length (filter (unpayable st) (referrals st)).
Proof.
  intros Hok Hf Hu.
  destruct (processPendingBonuses_reliable st Hok Hf Hu) as (st' & Hrun & _).
  do 2 eexists. split; [exact Hrun|]. split; reflexivity.
Qed.

Lemma processPendingBonuses_counts_witness :
  exists counts st',
    processPendingBonuses pending_bonuses = (Returned counts, st')
    /\ PendingBonuses.processed counts = 1%nat
    /\ PendingBonuses.failed counts = 1%nat.
Proof.
  destruct (processPendingBonuses_counts pending_bonuses)
    as (counts & st' & Hrun & Hp & Hfl); try (vm_compute; reflexivity).
  exists counts, st'. split; [exact Hrun|].
  split; [rewrite Hp|rewrite Hfl]; vm_compute; reflexivity.
Defined.

(** X26. The sweep settles what it can: every pending referral whose
    referrer has a wallet is marked completed at the time of the sweep,
    every other referral stays as it was, and the balance of each user
    grows by the bonuses of the referrals settled for that user. *)
Theorem processPendingBonuses_settles st :
  store_ok st = true -> faults st = [] ->
  unique_ids Referral.id (referrals st) = true ->
  exists counts st',
    processPendingBonuses st = (Returned counts, st')
    /\ Forall2 (swept st) (referrals st) (referrals st')
    /\ forall u,
         balanceOf u st'
         = option_map (fun b => b + bonuses_due u st) (balanceOf u st).
Proof.
  intros Hok Hf Hu.
  destruct (processPendingBonuses_reliable st Hok Hf Hu)
    as (st' & Hrun & _ & _ & _ & _ & _ & Hsw & Hbal & _).
  do 2 eexists. split; [exact Hrun|]. split; assumption.
Qed.

Lemma processPendingBonuses_settles_witness :
  exists counts st',
    processPendingBonuses pending_bonuses = (Returned counts, st')
    /\ balanceOf "ref1" st' = Some 100
    /\ balanceOf "ref3" st' = Some 0.
Proof.
  destruct (processPendingBonuses_settles pending_bonuses)
    as (counts & st' & Hrun & _ & Hbal); try (vm_compute; reflexivity).
  exists counts, st'. split; [exact Hrun|].
  split; rewrite Hbal; vm_compute; reflexivity.
Defined.

(** X27. A second sweep right after the first finds nothing to pay: it
    processes no referral, fails on the same referrals as the first, and
    leaves the store as the first left it. *)
Theorem processPendingBonuses_twice st :
  store_ok st = true -> faults st = [] ->
  unique_ids Referral.id (referrals st) = true ->
  exists first st1 second,
    processPendingBonuses st = (Returned first, st1)
    /\ processPendingBonuses st1 = (Returned second, st1)
    /\ PendingBonuses.processed second = 0%nat
    /\ PendingBonuses.failed second = PendingBonuses.failed first.
Proof.
  intros Hok Hf Hu.
  destruct (processPendingBonuses_reliable st Hok Hf Hu)
    as (st1 & Hrun & Hok1 & Hf1 & _ & _ & Hhas & Hsw & _ & _).
  assert (Hu1 : unique_ids Referral.id (referrals st1) = true)
    by (rewrite (unique_ids_ids Referral.id _ _ (swept_ids _ _ _ Hsw));
        exact Hu).
  assert (Hpay : forall x y, swept st x y -> false = payable st1 y).
  { intros x y Hxy. unfold swept in Hxy. unfold payable in *.
    destruct (isPending x && hasWallet (Referral.referrerId x) st) eqn:E.
    - destruct Hxy as [tx ->]. reflexivity.
    - subst y. rewrite Hhas, E. reflexivity. }
  assert (Hunpay : forall x y, swept st x y -> unpayable st x = unpayable st1 y).
  { intros x y Hxy. unfold swept, payable in Hxy. unfold unpayable.
    destruct (isPending x && hasWallet (Referral.referrerId x) st) eqn:E.
    - destruct Hxy as [tx ->]. apply andb_prop in E. destruct E as [_ E].
      rewrite E. cbn. apply andb_false_r.
    - subst y. rewrite Hhas. reflexivity. }
  assert (Hnone : filter (payable st1) (referrals st1) = []).
  { pose proof (filter_length_related _ (fun _ => false) (payable st1) _ _
                  Hsw Hpay) as Hlen.
    destruct (filter (payable st1) (referrals st1)) as [|z l];
      [reflexivity|].
    exfalso. clear - Hlen. revert Hlen.
    generalize (referrals st). intros l0.
    replace (filter (fun _ => false) l0) with (@nil Referral.IReferral)
      by (induction l0; [reflexivity|assumption]).
    discriminate. }
  destruct (processPendingBonuses_reliable st1 Hok1 Hf1 Hu1)
    as (st2 & Hrun2 & _ & _ & _ & _ & _ & _ & _ & Hsame).
  rewrite (Hsame Hnone) in Hrun2.
  do 3 eexists. split; [exact Hrun|]. split; [exact Hrun2|].
  cbn [PendingBonuses.processed PendingBonuses.failed].
  rewrite Hnone. split; [reflexivity|].
  symmetry. exact (filter_length_related _ _ _ _ _ Hsw Hunpay).
Qed.

Lemma processPendingBonuses_twice_witness :
  exists first st1 second,
    processPendingBonuses pending_bonuses = (Returned first, st1)
    /\ processPendingBonuses st1 = (Returned second, st1)
    /\ PendingBonuses.processed second = 0%nat
    /\ PendingBonuses.failed second = PendingBonuses.failed first.
Proof.
  apply (processPendingBonuses_twice pending_bonuses);
    vm_compute; reflexivity.
Defined.

(** ** Referral statistics *)

Lemma sumBonus_app l l' : sumBonus (l ++ l') = sumBonus l + sumBonus l'.
Proof.
  unfold sumBonus. rewrite fold_left_app.
  rewrite (fold_left_sum_shift Referral.bonus). reflexivity.
Qed.

Lemma sumBonus_perm l l' : Permutation l l' -> sumBonus l = sumBonus l'.
Proof.
  intros H. induction H as [|x l l' H IH|x y l|l l' l'' H IH H' IH'].
  - reflexivity.
  - rewrite !sumBonus_cons, IH. reflexivity.
  - rewrite !sumBonus_cons. lia.
  - congruence.
Qed.

Lemma levels_partition l :
  (forall r, In r l -> 1 <= Referral.level r <= 3) ->
  List.length l
  = (List.length (filter (fun r => (Referral.level r =? 1)%Z) l)
     + List.length (filter (fun r => (Referral.level r =? 2)%Z) l)
     + List.length (filter (fun r => (Referral.level r =? 3)%Z) l))%nat
  /\ sumBonus (filter isCompleted l)
     = sumBonus (filter (fun r => (Referral.level r =? 1) && isCompleted r) l)
       + sumBonus
           (filter (fun r => (Referral.level r =? 2) && isCompleted r) l)
       + sumBonus
           (filter (fun r => (Referral.level r =? 3) && isCompleted r) l).
Proof.
  induction l as [|r l IH]; intros Hl; [split; reflexivity|].
  destruct IH as [IHn IHs]; [intros x Hx; apply Hl; right; exact Hx|].
  pose proof (Hl r (or_introl eq_refl)) as Hr.
  cbn [filter].
  assert (Hcases : Referral.level r = 1 \/ Referral.level r = 2
                   \/ Referral.level r = 3) by lia.
  destruct Hcases as [E|[E|E]]; rewrite E; cbn [Z.eqb Pos.eqb andb];
    destruct (isCompleted r); cbn [List.length];
    rewrite ?sumBonus_cons; split; lia.
Qed.

(** X28. [getReferralStats] counts all the referrals a user made,
    pending ones too, and sums the bonuses of the completed ones only;
    when the level of each of them is 1, 2 or 3, the three level entries
    add up to the totals.  It reads and never writes. *)
Theorem getReferralStats_breakdown userId0 st :
  (forall r, In r (referrals st) -> byReferrer userId0 r = true ->
     1 <= Referral.level r <= 3) ->
  exists stats l1 l2 l3,
    getReferralStats userId0 st = (Returned stats, st)
    /\ ReferralStats.totalReferrals stats
       = List.length (filter (byReferrer userId0) (referrals st))
    /\ ReferralStats.totalEarnings stats
       = sumBonus (filter (fun r => byReferrer userId0 r && isCompleted r)
                     (referrals st))
    /\ ReferralStats.levelStats stats = [l1; l2; l3]
    /\ (ReferralStats.level l1, ReferralStats.level l2,
        ReferralStats.level l3) = (1, 2, 3)
    /\ ReferralStats.totalReferrals stats
       = (ReferralStats.count l1 + ReferralStats.count l2
          + ReferralStats.count l3)%nat
    /\ ReferralStats.totalEarnings stats
       = ReferralStats.earnings l1 + ReferralStats.earnings l2
         + ReferralStats.earnings l3.
Proof.
  intros Hlevels.
  set (mine := orderBy_desc Referral.createdAt
                 (filter (byReferrer userId0) (referrals st))).
  assert (Hperm : Permutation mine (filter (byReferrer userId0) (referrals st)))
    by apply orderBy_desc_perm.
  destruct (levels_partition mine) as [Hn Hs].
  { intros r Hr. apply (Permutation_in _ Hperm) in Hr.
    apply filter_In in Hr. destruct Hr as [Hin Hby].
    apply Hlevels; assumption. }
  do 4 eexists. split.
  { unfold getReferralStats, try_catch, await, getUserById, resolve.
    fold mine. reflexivity. }
  cbn [ReferralStats.totalReferrals ReferralStats.totalEarnings
       ReferralStats.levelStats].
  split; [apply Permutation_length; exact Hperm|].
  split.
  { rewrite (sumBonus_perm _ _ (filter_perm isCompleted _ _ Hperm)).
    rewrite filter_twice. reflexivity. }
  split; [reflexivity|]. split; [reflexivity|].
  split; [exact Hn|exact Hs].
Qed.

Lemma getReferralStats_breakdown_witness :
  exists stats,
    getReferralStats "ref1" pending_bonuses = (Returned stats, pending_bonuses)
    /\ ReferralStats.totalReferrals stats = 1%nat
    /\ ReferralStats.totalEarnings stats = 0.
Proof.
  destruct (getReferralStats_breakdown "ref1" pending_bonuses)
    as (stats & l1 & l2 & l3 & Hrun & Hn & He & _).
  { intros r [<-|[<-|[]]]; vm_compute; intros; repeat split;
      discriminate. }
  exists stats. split; [exact Hrun|].
  split; [rewrite Hn|rewrite He]; vm_compute; reflexivity.
Defined.

(** ** The referral leaderboard *)

Lemma board_get_set_same key value board :
  Leaderboard.get key (Leaderboard.set key value board) = Some value.
Proof.
  unfold Leaderboard.get.
  induction board as [|[k v] board IH]; cbn.
  - rewrite String.eqb_refl. reflexivity.
  - destruct (String.eqb k key) eqn:E; cbn.
    + rewrite String.eqb_refl. reflexivity.
    + rewrite E. exact IH.
Qed.

Lemma board_get_set_other key key' value board :
  String.eqb key key' = false ->
  Leaderboard.get key' (Leaderboard.set key value board)
  = Leaderboard.get key' board.
Proof.
  intros Hne. unfold Leaderboard.get.
  induction board as [|[k v] board IH]; cbn.
  - rewrite Hne. reflexivity.
  - destruct (String.eqb k key) eqn:E; cbn.
    + apply String.eqb_eq in E. rewrite E, Hne. reflexivity.
    + destruct (String.eqb k key'); [reflexivity|exact IH].
Qed.

Lemma board_set_keys key value board :
  forall k, In k (map fst (Leaderboard.set key value board)) ->
            k = key \/ In k (map fst board).
Proof.
  induction board as [|[k0 v0] board IH]; cbn; intros k Hk.
  - destruct Hk as [<-|[]]. left. reflexivity.
  - destruct (String.eqb k0 key) eqn:E; cbn in Hk.
    + destruct Hk as [<-|Hk]; [left; reflexivity|right; right; exact Hk].
    + destruct Hk as [<-|Hk]; [right; left; reflexivity|].
      destruct (IH k Hk) as [->|Hin]; [left; reflexivity|].
      right. right. exact Hin.
Qed.

Lemma board_set_NoDup key value board :
  NoDup (map fst board) ->
  NoDup (map fst (Leaderboard.set key value board)).
Proof.
  induction board as [|[k0 v0] board IH]; cbn; intros H.
  - constructor; [intros []|constructor].
  - inversion H as [|? ? Hnotin Hnd]; subst.
    destruct (String.eqb k0 key) eqn:E; cbn.
    + apply String.eqb_eq in E. rewrite <- E. exact H.
    + constructor; [|apply IH; exact Hnd].
      intros Hin. destruct (board_set_keys _ _ _ _ Hin) as [Ek|Hk].
      * rewrite Ek, String.eqb_refl in E. discriminate E.
      * apply Hnotin. exact Hk.
Qed.

Lemma board_In_get key value (board : Leaderboard.Board) :
  NoDup (map fst board) -> In (key, value) board ->
  Leaderboard.get key board = Some value.
Proof.
  unfold Leaderboard.get.
  induction board as [|[k v] board IH]; intros Hnd Hin; [destruct Hin|].
  inversion Hnd as [|? ? Hnotin Hnd']; subst. cbn.
  destruct Hin as [Heq|Hin].
  - inversion Heq; subst. rewrite String.eqb_refl. reflexivity.
  - destruct (String.eqb k key) eqn:E; [|apply IH; assumption].
    exfalso. apply String.eqb_eq in E. apply Hnotin. rewrite E.
    apply (in_map fst) in Hin. exact Hin.
Qed.

(** The map after the loop: each referrer met has its count and its sum
    of bonuses, on top of what the map held. *)
Lemma board_fold l :
  forall board,
    NoDup (map fst board) ->
    NoDup (map fst (fold_left Leaderboard.record l board))
    /\ forall u,
         Leaderboard.get u (fold_left Leaderboard.record l board)
         = match Leaderboard.get u board, existsb (byReferrer u) l with
           | None, false => None
           | held, _ =>
               Some (fst (or_else held (0, 0))
                     + Z.of_nat (List.length (filter (byReferrer u) l)),
                     snd (or_else held (0, 0))
                     + sumBonus (filter (byReferrer u) l))
           end.
Proof.
  induction l as [|r l IH]; intros board Hnd.
  - split; [exact Hnd|]. intros u. cbn.
    destruct (Leaderboard.get u board) as [[n b]|]; [|reflexivity].
    cbn. f_equal. f_equal; lia.
  - cbn [fold_left].
    destruct (IH (Leaderboard.record board r)) as [Hnd' Hget'].
    { apply board_set_NoDup. exact Hnd. }
    split; [exact Hnd'|]. intros u. rewrite Hget'.
    cbn [existsb filter].
    destruct (byReferrer u r) eqn:E.
    + assert (Eu : Referral.referrerId r = u)
        by (apply String.eqb_eq; exact E).
      unfold Leaderboard.record. rewrite Eu, board_get_set_same.
      cbn [orb or_else fst snd List.length].
      rewrite sumBonus_cons, Nat2Z.inj_succ.
      destruct (Leaderboard.get u board) as [[n b]|];
        cbn [or_else fst snd];
        destruct (existsb (byReferrer u) l);
        f_equal; f_equal; lia.
    + unfold Leaderboard.record.
      rewrite board_get_set_other by exact E. cbn [orb]. reflexivity.
Qed.

Lemma descending_map {A B} (g : A -> B) (key : B -> Z) l :
  descending (fun a => key (g a)) l -> descending key (map g l).
Proof.
  unfold descending. intros H.
  induction H as [|a l H IH Hall]; cbn [map]; constructor; [exact IH|].
  apply Forall_map. exact Hall.
Qed.

Lemma NoDup_firstn_map {A B} (f : A -> B) n l :
  NoDup (map f l) -> NoDup (map f (firstn n l)).
Proof.
  revert n. induction l as [|x l IH]; intros n H.
  - rewrite firstn_nil. constructor.
  - destruct n; cbn [firstn map]; [constructor|].
    inversion H as [|? ? Hnotin Hnd]; subst.
    constructor; [|apply IH; exact Hnd].
    intros Hin. apply Hnotin. apply in_map_iff in Hin.
    destruct Hin as (y & Ey & Hy). rewrite <- Ey. apply in_map.
    eapply In_firstn. exact Hy.
Qed.

Lemma board_keys_get (board : Leaderboard.Board) u :
  In u (map fst board) <-> Leaderboard.get u board <> None.
Proof.
  unfold Leaderboard.get.
  induction board as [|[k v] board IH]; cbn.
  - split; [intros []|intros H; apply H; reflexivity].
  - destruct (String.eqb k u) eqn:E; cbn.
    + apply String.eqb_eq in E. split; [discriminate|left; exact E].
    + rewrite <- IH. split; [|right; assumption].
      intros [Hk|Hin]; [|exact Hin].
      rewrite Hk, String.eqb_refl in E. discriminate E.
Qed.

(** The map holds one key for each referrer met. *)
Lemma board_length l :
  List.length (fold_left Leaderboard.record l [])
  = List.length (nodup string_dec (map Referral.referrerId l)).
Proof.
  destruct (board_fold l [] ltac:(constructor)) as [Hnd Hget].
  rewrite <- (length_map fst). apply Permutation_length.
  apply NoDup_Permutation; [exact Hnd|apply NoDup_nodup|].
  intros u. rewrite nodup_In, board_keys_get, Hget. cbn.
  destruct (existsb (byReferrer u) l) eqn:E.
  - split; [intros _|discriminate].
    apply existsb_exists in E. destruct E as (r & Hr & Hby).
    apply in_map_iff. exists r. split; [|exact Hr].
    apply String.eqb_eq. exact Hby.
  - split; [intros H; contradiction H; reflexivity|].
    intros Hin. apply in_map_iff in Hin. destruct Hin as (r & Hr & Hin).
    assert (Ht : existsb (byReferrer u) l = true).
    { apply existsb_exists. exists r. split; [exact Hin|].
      unfold byReferrer. rewrite Hr. apply String.eqb_refl. }
    rewrite Ht in E. discriminate E.
Qed.

(** X29. The leaderboard lists each referrer at most once, those with
    more completed referrals first; an entry gives the number of completed
    referrals of the referrer, which is at least one, the sum of their
    bonuses, and the name on the user's record.  A [limit] that is not
    negative is the most entries it lists: it lists that many of the
    referrers with a completed referral, or all of them when they are
    fewer.  A negative [limit], which the route lets through, is counted
    from the end: the list then holds all of them but the last [- limit]. *)
Theorem getReferralLeaderboard_ranking limit st :
  exists top,
    getReferralLeaderboard limit st = (Returned top, st)
    /\ (0 <= limit ->
        Z.of_nat (List.length top)
        = Z.min limit (Z.of_nat (List.length (referrers_paid st))))
    /\ (limit < 0 ->
        Z.of_nat (List.length top)
        = Z.max 0 (Z.of_nat (List.length (referrers_paid st)) + limit))
    /\ NoDup (map Leaderboard.userId top)
    /\ descending Leaderboard.totalReferrals top
    /\ forall e, In e top ->
         1 <= Leaderboard.totalReferrals e
         /\ Leaderboard.totalReferrals e
            = Z.of_nat
                (List.length
                   (filter (fun r => isCompleted r
                                     && byReferrer (Leaderboard.userId e) r)
                      (referrals st)))
         /\ Leaderboard.totalBonus e
            = sumBonus
                (filter (fun r => isCompleted r
                                  && byReferrer (Leaderboard.userId e) r)
                   (referrals st))
         /\ Leaderboard.username e
            = option_map User.username
                (find (byId (Leaderboard.userId e)) (users st)).
Proof.
  set (completed := filter isCompleted (referrals st)).
  set (board := fold_left Leaderboard.record completed []).
  set (ranked := sort_desc (fun e : UserId * (Z * Z) => fst (snd e)) board).
  destruct (board_fold completed [] ltac:(constructor)) as [Hnd Hget].
  fold board in Hnd, Hget.
  destruct (sort_desc_acc (fun e : UserId * (Z * Z) => fst (snd e)) board []
              ltac:(constructor)) as [Hsorted Hperm].
  fold (sort_desc (fun e : UserId * (Z * Z) => fst (snd e)) board)
    in Hsorted, Hperm.
  fold ranked in Hsorted, Hperm. cbn [app] in Hperm.
  assert (Hlen : List.length ranked = List.length (referrers_paid st)).
  { rewrite (Permutation_length Hperm). apply board_length. }
  eexists. split.
  { unfold getReferralLeaderboard, try_catch, await.
    fold completed. fold board. fold ranked. reflexivity. }
  unfold slice0. rewrite length_map, length_firstn, Hlen.
  split.
  { intros Hpos. replace (limit <? 0) with false
      by (symmetry; apply Z.ltb_ge; exact Hpos). lia. }
  split.
  { intros Hneg. replace (limit <? 0) with true
      by (symmetry; apply Z.ltb_lt; exact Hneg). lia. }
  split.
  { rewrite map_map. cbn [Leaderboard.userId].
    apply NoDup_firstn_map.
    eapply Permutation_NoDup; [|exact Hnd].
    apply Permutation_map, Permutation_sym, Hperm. }
  split.
  { apply descending_map. cbn [Leaderboard.totalReferrals].
    apply descending_firstn. exact Hsorted. }
  intros e He. apply in_map_iff in He. destruct He as ([u [n b]] & <- & Hin).
  cbn [Leaderboard.userId Leaderboard.totalReferrals Leaderboard.totalBonus
       Leaderboard.username fst snd].
  apply In_firstn in Hin. apply (Permutation_in _ Hperm) in Hin.
  pose proof (board_In_get _ _ _ Hnd Hin) as Hu.
  rewrite Hget in Hu. cbn [Leaderboard.get find option_map or_else fst snd]
    in Hu.
  unfold completed in Hu. rewrite filter_twice in Hu.
  destruct (existsb (byReferrer u) (filter isCompleted (referrals st)))
    eqn:Hex; [|discriminate Hu].
  inversion Hu as [[Hn Hb]].
  split.
  { apply existsb_exists in Hex. destruct Hex as (r & Hr & Hby).
    apply filter_In in Hr. destruct Hr as [Hr Hc].
    assert (Hin' : In r (filter (fun x => isCompleted x && byReferrer u x)
                           (referrals st)))
      by (apply filter_In; split; [exact Hr|rewrite Hc, Hby; reflexivity]).
    destruct (filter (fun x => isCompleted x && byReferrer u x)
                (referrals st)); [destruct Hin'|].
    cbn [List.length]. lia. }
  split; [lia|]. split; [lia|reflexivity].
Qed.

(** Three referrers were paid in [after_cascade]: asked for the top 2
    the leaderboard lists two, and asked for -1 it lists two as well, all
    but the last. *)
Lemma getReferralLeaderboard_ranking_witness :
  List.length (referrers_paid after_cascade) = 3%nat
  /\ (exists top,
        getReferralLeaderboard 2 after_cascade = (Returned top, after_cascade)
        /\ List.length top = 2%nat)
  /\ (exists top,
        getReferralLeaderboard (-1) after_cascade
        = (Returned top, after_cascade)
        /\ List.length top = 2%nat).
Proof.
  assert (Hn : List.length (referrers_paid after_cascade) = 3%nat)
    by (vm_compute; reflexivity).
  split; [exact Hn|]. split.
  - destruct (getReferralLeaderboard_ranking 2 after_cascade)
      as (top & Hrun & Hpos & _).
    exists top. split; [exact Hrun|].
    specialize (Hpos ltac:(lia)). rewrite Hn in Hpos. lia.
  - destruct (getReferralLeaderboard_ranking (-1) after_cascade)
      as (top & Hrun & _ & Hneg & _).
    exists top. split; [exact Hrun|].
    specialize (Hneg ltac:(lia)). rewrite Hn in Hneg. lia.
Defined.

(** X30. The bonus is credited before the referral is marked: when the
    two writes of the credit commit and the write that marks the referral
    completed is rejected, the sweep counts a failure although the
    referrer has been paid, and the referral stays pending, so that the
    next sweep pays the same bonus again. *)
Theorem processPendingBonuses_pays_twice st r w message :
  store_ok st = true ->
  referrals st = [r] -> isPending r = true ->
  find (byUser (Referral.referrerId r)) (wallets st) = Some w ->
  faults st = [None; None; Some message] ->
  exists st1 st2,
    processPendingBonuses st
    = (Returned {| PendingBonuses.processed := 0;
                   PendingBonuses.failed := 1 |}, st1)
    /\ balanceOf (Referral.referrerId r) st1
       = Some (Wallet.balance w + Referral.bonus r)
    /\ referrals st1 = [r]
    /\ processPendingBonuses st1
       = (Returned {| PendingBonuses.processed := 1;
                      PendingBonuses.failed := 0 |}, st2)
    /\ balanceOf (Referral.referrerId r) st2
       = Some (Wallet.balance w + 2 * Referral.bonus r).
Proof.
  intros Hok Hrefs Hp Hw Hf.
  destruct (processPendingBonuses st) as [o st1] eqn:Hrun.
  assert (Hst1 : o = Returned {| PendingBonuses.processed := 0;
                                 PendingBonuses.failed := 1 |}
                 /\ store_ok st1 = true /\ faults st1 = []
                 /\ referrals st1 = [r]
                 /\ exists w1,
                      find (byUser (Referral.referrerId r)) (wallets st1)
                      = Some w1
                      /\ Wallet.balance w1
                         = Wallet.balance w + Referral.bonus r).
  { revert Hrun. unfold processPendingBonuses.
    unfold try_catch at 1, await at 1. rewrite Hrefs. cbn [filter].
    rewrite Hp. cbn [processPendingDocs].
    unfold processReferralBonus. run_reliable Hf. rewrite Hw.
    run_reliable Hf.
    rewrite (find_doc_exists Wallet.id _ _ _ Hw). run_reliable Hf.
    intros Hrun. inv Hrun. split; [reflexivity|].
    split; [clear - Hok; store_ok_goal|].
    split; [reflexivity|]. split; [exact Hrefs|].
    eexists. split; [apply find_updated; exact Hw|reflexivity]. }
  destruct Hst1 as (-> & Hok1 & Hf1 & Hrefs1 & w1 & Hw1 & Hb1).
  destruct (processPendingBonuses_reliable st1 Hok1 Hf1) as
    (st2 & Hrun2 & _ & _ & _ & _ & _ & _ & Hbal2 & _).
  { rewrite Hrefs1. reflexivity. }
  assert (Hpay : payable st1 r = true)
    by (unfold payable, hasWallet; rewrite Hp, Hw1; reflexivity).
  assert (Hunpay : unpayable st1 r = false)
    by (unfold unpayable, hasWallet; rewrite Hp, Hw1; reflexivity).
  rewrite Hrefs1 in Hrun2. cbn [filter] in Hrun2.
  rewrite Hpay, Hunpay in Hrun2.
  exists st1, st2. split; [reflexivity|].
  split; [unfold balanceOf; rewrite Hw1; cbn [option_map]; f_equal;
          exact Hb1|].
  split; [exact Hrefs1|]. split; [exact Hrun2|].
  rewrite Hbal2. unfold balanceOf at 1. rewrite Hw1. cbn [option_map].
  unfold bonuses_due. rewrite Hrefs1. cbn [filter]. rewrite Hpay.
  unfold byReferrer. rewrite String.eqb_refl. cbn [andb].
  rewrite sumBonus_cons. unfold sumBonus. cbn [fold_left].
  f_equal. lia.
Qed.

Lemma processPendingBonuses_pays_twice_witness :
  exists st1 st2,
    processPendingBonuses
      (with_faults [None; None; Some "UNAVAILABLE"]
         (with_referrals (firstn 1) pending_bonuses))
    = (Returned {| PendingBonuses.processed := 0;
                   PendingBonuses.failed := 1 |}, st1)
    /\ balanceOf "ref1" st1 = Some 100
    /\ processPendingBonuses st1
       = (Returned {| PendingBonuses.processed := 1;
                      PendingBonuses.failed := 0 |}, st2)
    /\ balanceOf "ref1" st2 = Some 200.
Proof.
  assert (Hw : find (byUser "ref1")
                 (wallets (with_faults [None; None; Some "UNAVAILABLE"]
                             (with_referrals (firstn 1) pending_bonuses)))
               = Some (wallet_with 0%nat "ref1" 0))
    by (vm_compute; reflexivity).
  assert (Hok : store_ok (with_faults [None; None; Some "UNAVAILABLE"]
                            (with_referrals (firstn 1) pending_bonuses))
                = true)
    by (vm_compute; reflexivity).
  destruct (processPendingBonuses_pays_twice
              (with_faults [None; None; Some "UNAVAILABLE"]
                 (with_referrals (firstn 1) pending_bonuses))
              _ _ "UNAVAILABLE" Hok eq_refl eq_refl Hw eq_refl)
    as (st1 & st2 & Hrun1 & Hb1 & _ & Hrun2 & Hb2).
  exists st1, st2. split; [exact Hrun1|]. split; [exact Hb1|].
  split; [exact Hrun2|exact Hb2].
Defined.
